(** * The notebook view-model and the notebook editor of data-forge-notebook

    A shallow embedding of [NotebookViewModel] (view-model/notebook.ts) and of
    the evaluation part of [NotebookEditorViewModel]
    (view-model/notebook-editor.ts).

    - Cell view-models are objects: they live in a heap and the notebook's
      array holds references to them, so a mutation made through one alias is
      seen through every other.
    - A method is a computation in a state-and-exception monad. A [throw]
      keeps every mutation made before it, as in JavaScript.
    - Collaborators (event subscribers outside the notebook, the log, the
      notification service, the storage repository, the evaluation engine)
      are observed through the ordered [trace] of the calls made to them.
    - [await] is sequencing: the model is one logical thread. *)

From Stdlib Require Import ZArith Lia.
From stdpp Require Import base list strings.

Open Scope Z_scope.

(** ** JavaScript values and arrays *)

Module Js.

(** [x || y] on strings: [undefined] and the empty string are falsy. *)
Definition truthy (s : option string) : bool :=
  match s with
  | Some s => negb (String.eqb s "")
  | None => false
  end.

Definition or_else (s : option string) (dflt : string) : string :=
  match s with
  | Some s' => if truthy s then s' else dflt
  | None => dflt
  end.

(** ToString of a possibly undefined string, as in ["text " + cellId]. *)
Definition to_string (s : option string) : string :=
  match s with
  | Some s => s
  | None => "undefined"
  end.

(** [a[i]] for an integer index: [undefined] out of range. *)
Definition at_index {T : Type} (a : list T) (i : Z) : option T :=
  if i <? 0 then None else a !! Z.to_nat i.

(** [a[i]] in an array whose elements can be [undefined], and the first
    variable of a destructuring [const [ x ] = a]. *)
Definition elem {T : Type} (a : list (option T)) (i : Z) : option T :=
  match at_index a i with
  | Some x => x
  | None => None
  end.

Section Array.
Context {T : Type}.

(** The clamping of the [start] argument of [Array.prototype.splice]:
    a negative start counts from the end, and the result is kept within
    [0 .. len]. *)
Definition actualStart (start : Z) (len : nat) : nat :=
  if start <? 0
  then Z.to_nat (Z.max (Z.of_nat len + start) 0)
  else Z.to_nat (Z.min start (Z.of_nat len)).

(** The clamping of its [deleteCount] argument within [0 .. len - from]. *)
Definition actualDeleteCount (deleteCount : Z) (len from : nat) : nat :=
  Z.to_nat (Z.min (Z.max deleteCount 0) (Z.of_nat len - Z.of_nat from)).

(** [splice start deleteCount items a] is the pair of the removed
    elements (the value returned by [a.splice(start, deleteCount,
    ...items)]) and of the array after the call. *)
Definition splice (start deleteCount : Z) (items a : list T)
  : list T * list T :=
  let s := actualStart start (length a) in
  let d := actualDeleteCount deleteCount (length a) s in
  (take d (drop s a), take s a ++ items ++ drop (s + d) a).

(** [a.indexOf(x)] with an equality test for [===]. *)
Fixpoint indexOf_from (eqb : T -> T -> bool) (x : T) (a : list T) (i : Z) : Z :=
  match a with
  | [] => -1
  | y :: a' => if eqb y x then i else indexOf_from eqb x a' (i + 1)
  end.

Definition indexOf (eqb : T -> T -> bool) (x : T) (a : list T) : Z :=
  indexOf_from eqb x a 0.

End Array.

End Js.

(** ** Errors and the method monad *)

(** One constructor per [throw] statement of the modelled code, and one for
    the runtime's TypeError on a property access through [undefined]. *)
Inductive error : Type :=
| BadIndex (cellIndex : Z) (existing : nat)
    (* addCell: "Bad index ... for new cell in notebook with ... existing cells!" *)
| CellNotSpecified
    (* cellViewModelFactory: "Cell model not specified." *)
| UnexpectedCellType
    (* cellViewModelFactory: "Unexpected cell type: ..." *)
| ReadOnlyFile
    (* save: "The file for this notebook is readonly, it can't be saved this way." *)
| NeverSaved
    (* save: "Notebook has never been saved before, use saveAs function for the first save." *)
| StorageFailure (reason : string)
    (* a rejection coming from the storage repository *)
| TypeError.
    (* "Cannot read properties of undefined" *)

Inductive result (A : Type) : Type :=
| Ok (a : A)
| Throw (e : error).
Arguments Ok {A} a.
Arguments Throw {A} e.

Definition M (S A : Type) : Type := S -> result A * S.

Definition ret {S A} (a : A) : M S A := fun s => (Ok a, s).

Definition throw {S A} (e : error) : M S A := fun s => (Throw e, s).

Definition bind {S A B} (m : M S A) (k : A -> M S B) : M S B :=
  fun s =>
    match m s with
    | (Ok a, s') => k a s'
    | (Throw e, s') => (Throw e, s')
    end.

Definition gets {S A} (f : S -> A) : M S A := fun s => (Ok (f s), s).

Definition modify {S} (f : S -> S) : M S unit := fun s => (Ok tt, f s).

Declare Scope js_scope.
Delimit Scope js_scope with js.
Notation "x <- m ;; k" := (bind m (fun x => k))
  (at level 100, m at next level, right associativity) : js_scope.
Notation "m ;; k" := (bind m (fun _ => k))
  (at level 100, right associativity) : js_scope.
Open Scope js_scope.

(** [for (const x of xs) { body }]: stops at the first exception. *)
Fixpoint forEach {S A} (body : A -> M S unit) (xs : list A) : M S unit :=
  match xs with
  | [] => ret tt
  | x :: xs' => body x ;; forEach body xs'
  end.

(** [xs.map(f)] when [f] can throw. *)
Fixpoint mapM {S A B} (f : A -> M S B) (xs : list A) : M S (list B) :=
  match xs with
  | [] => ret []
  | x :: xs' => y <- f x ;; ys <- mapM f xs' ;; ret (y :: ys)
  end.

(** [xs.filter(p)] when [p] can throw. *)
Fixpoint filterM {S A} (p : A -> M S bool) (xs : list A) : M S (list A) :=
  match xs with
  | [] => ret []
  | x :: xs' =>
      b <- p x ;; ys <- filterM p xs' ;; ret (if b : bool then x :: ys else ys)
  end.

(** ** Data model *)

(** A reference to a cell view-model object. *)
Abbreviation ref := nat (only parsing).

(** An array element or a variable of type [ICellViewModel | undefined]:
    [None] is [undefined]. The declared element type of [cells] is
    [ICellViewModel], but [moveCell] can store [undefined] in the array. *)
Abbreviation slot := (option ref) (only parsing).

Definition slot_eqb (x y : slot) : bool :=
  match x, y with
  | Some r1, Some r2 => Nat.eqb r1 r2
  | None, None => true
  | _, _ => false
  end.

(** The identifier made by [uuid()] when a notebook is constructed: the
    model draws it from a counter, so that two instances differ. *)
Abbreviation InstanceId := nat (only parsing).

(** Modelled from the spec: the enumeration [CellType] of the model package
    (not in the sources at hand), "cellType: Code | Markdown". *)
Inductive CellType : Type := Code | Markdown.

Definition CellType_eqb (a b : CellType) : bool :=
  match a, b with
  | Code, Code | Markdown, Markdown => true
  | _, _ => false
  end.

(** [INotebookStorageId]: only its two string views are used. *)
Record INotebookStorageId : Type := {
  displayName : string;
  getContainingPath : string
}.

(** The handlers a notebook attaches to the events of its cells. They are
    arrow functions bound to the notebook instance, so their identity
    includes the instance. *)
Inductive Handler : Type :=
| onEditorSelectionChanging_of (nb : InstanceId)
| onEditorSelectionChanged_of (nb : InstanceId)
| onCellModified_of (nb : InstanceId)
| _onTextChanged_of (nb : InstanceId).

Definition Handler_eqb (a b : Handler) : bool :=
  match a, b with
  | onEditorSelectionChanging_of x, onEditorSelectionChanging_of y
  | onEditorSelectionChanged_of x, onEditorSelectionChanged_of y
  | onCellModified_of x, onCellModified_of y
  | _onTextChanged_of x, _onTextChanged_of y => Nat.eqb x y
  | _, _ => false
  end.

(** Modelled from the spec: the event sources of the utils package
    ([EventSource], not in the sources at hand), "explicit typed event-emitter
    objects per event name, with deterministic attach/detach and
    synchronous-in-order delivery to subscribers". An event source is the
    ordered list of its subscribers. *)
Module EventSource.

Definition t : Type := list Handler.

Definition attach (h : Handler) (es : t) : t := es ++ [h].

Fixpoint detach (h : Handler) (es : t) : t :=
  match es with
  | [] => []
  | h' :: es' => if Handler_eqb h' h then es' else h' :: detach h es'
  end.

End EventSource.

(** The serialized document, [ISerializedNotebook1] and [ISerializedCell1] of
    the model package, with the fields the view-model reads and writes. An
    optional or possibly undefined field is an [option]. *)
Module Doc.

Record ISerializedCell1 : Type := {
  id : string;
  (** [None] stands for any value that is not a member of [CellType]. *)
  cellType : option CellType;
  code : string;
  output : list string;
  errors : list string
}.

Record ISerializedSheet : Type := {
  sheet_language : option string;
  (** An element is [None] when the array holds [null] or [undefined]. *)
  sheet_cells : option (list (option ISerializedCell1))
}.

Record ISerializedNotebook1 : Type := {
  version : Z;
  nodejs : option string;
  language : option string;
  description : option string;
  cells : option (list (option ISerializedCell1));
  sheet : option ISerializedSheet
}.

End Doc.

(** Modelled from the spec: the cell view-model ([ICellViewModel], with
    [CodeCellViewModel] and [MarkdownCellViewModel], not in the sources at
    hand). A cell has an id "generated once at creation", a type, its text,
    ordered outputs and errors, an [executing] flag and its selection state;
    the four event sources are the ones [hookCellEvents] attaches to. *)
Record CellViewModel : Type := {
  cell_id : string;
  cell_cellType : CellType;
  cell_text : string;
  cell_output : list string;
  cell_errors : list string;
  cell_executing : bool;
  cell_selected : bool;
  cell_onEditorSelectionChanging : EventSource.t;
  cell_onEditorSelectionChanged : EventSource.t;
  cell_onModified : EventSource.t;
  cell_onTextChanged : EventSource.t
}.

(** The fields of [NotebookViewModel]. *)
Record NotebookViewModel : Type := {
  storageId : INotebookStorageId;
  instanceId : InstanceId;
  nodejsVersion : option string;
  language : string;
  description : option string;
  cells : list slot;
  executing : bool;
  selectedCell : slot;
  modified : bool;
  defaultNodejsVersion : string;
  unsaved : bool;
  readOnly : bool
}.

(** The events a notebook raises to subscribers outside the model. *)
Inductive NotebookEvent : Type :=
| onCellsChanged
| onSelectedCellChanged
| onModified
| onFlushChanges
| onEvalStarted
| onEvalCompleted
| onTextChanged (cell : ref).

(** A call made to a collaborator. *)
Inductive Effect : Type :=
| Raised (nb : InstanceId) (ev : NotebookEvent)
| LogInfo (msg : string)
| LogError (msg : string)
| NotificationWarn (msg : string)
| NotificationError (msg : string)
| WriteNotebook (doc : Doc.ISerializedNotebook1) (to : INotebookStorageId)
| StopEvaluation (nb : InstanceId)
| EvalNotebook (nb : InstanceId) (doc : Doc.ISerializedNotebook1) (path : string)
| EvalToCell (nb : InstanceId) (doc : Doc.ISerializedNotebook1) (cellId : string) (path : string)
| EvalSingleCell (nb : InstanceId) (doc : Doc.ISerializedNotebook1) (cellId : string) (path : string).

(** [INotebookRepository], the storage collaborator: the model keeps what
    decides the outcome of a write, [Some reason] when the promise of
    [writeNotebook] is rejected. *)
Record INotebookRepository : Type := {
  writeNotebook : Doc.ISerializedNotebook1 -> INotebookStorageId -> option string
}.

(** What exists besides the notebook: the cell objects, the calls made so
    far, the supply of instance ids and the injected repository. *)
Record Env : Type := {
  heap : list CellViewModel;
  trace : list Effect;
  nextInstanceId : InstanceId;
  notebookRepository : INotebookRepository
}.

(** The state a notebook method runs in: [this] and the rest. *)
Record NbState : Type := {
  this : NotebookViewModel;
  env : Env
}.

(** ** Field updates *)

(** [this.f = v] for the fields the methods assign. *)
Definition set_storageId (v : INotebookStorageId) (nb : NotebookViewModel)
  : NotebookViewModel :=
  {| storageId := v; instanceId := instanceId nb; nodejsVersion := nodejsVersion nb
   ; language := language nb; description := description nb; cells := cells nb
   ; executing := executing nb; selectedCell := selectedCell nb
   ; modified := modified nb; defaultNodejsVersion := defaultNodejsVersion nb
   ; unsaved := unsaved nb; readOnly := readOnly nb |}.

Definition set_nodejsVersion (v : option string) (nb : NotebookViewModel)
  : NotebookViewModel :=
  {| storageId := storageId nb; instanceId := instanceId nb; nodejsVersion := v
   ; language := language nb; description := description nb; cells := cells nb
   ; executing := executing nb; selectedCell := selectedCell nb
   ; modified := modified nb; defaultNodejsVersion := defaultNodejsVersion nb
   ; unsaved := unsaved nb; readOnly := readOnly nb |}.

Definition set_cells (v : list slot) (nb : NotebookViewModel)
  : NotebookViewModel :=
  {| storageId := storageId nb; instanceId := instanceId nb; nodejsVersion := nodejsVersion nb
   ; language := language nb; description := description nb; cells := v
   ; executing := executing nb; selectedCell := selectedCell nb
   ; modified := modified nb; defaultNodejsVersion := defaultNodejsVersion nb
   ; unsaved := unsaved nb; readOnly := readOnly nb |}.

Definition set_executing (v : bool) (nb : NotebookViewModel)
  : NotebookViewModel :=
  {| storageId := storageId nb; instanceId := instanceId nb; nodejsVersion := nodejsVersion nb
   ; language := language nb; description := description nb; cells := cells nb
   ; executing := v; selectedCell := selectedCell nb
   ; modified := modified nb; defaultNodejsVersion := defaultNodejsVersion nb
   ; unsaved := unsaved nb; readOnly := readOnly nb |}.

Definition set_selectedCell (v : slot) (nb : NotebookViewModel)
  : NotebookViewModel :=
  {| storageId := storageId nb; instanceId := instanceId nb; nodejsVersion := nodejsVersion nb
   ; language := language nb; description := description nb; cells := cells nb
   ; executing := executing nb; selectedCell := v
   ; modified := modified nb; defaultNodejsVersion := defaultNodejsVersion nb
   ; unsaved := unsaved nb; readOnly := readOnly nb |}.

Definition set_modified (v : bool) (nb : NotebookViewModel)
  : NotebookViewModel :=
  {| storageId := storageId nb; instanceId := instanceId nb; nodejsVersion := nodejsVersion nb
   ; language := language nb; description := description nb; cells := cells nb
   ; executing := executing nb; selectedCell := selectedCell nb
   ; modified := v; defaultNodejsVersion := defaultNodejsVersion nb
   ; unsaved := unsaved nb; readOnly := readOnly nb |}.

Definition set_unsaved (v : bool) (nb : NotebookViewModel)
  : NotebookViewModel :=
  {| storageId := storageId nb; instanceId := instanceId nb; nodejsVersion := nodejsVersion nb
   ; language := language nb; description := description nb; cells := cells nb
   ; executing := executing nb; selectedCell := selectedCell nb
   ; modified := modified nb; defaultNodejsVersion := defaultNodejsVersion nb
   ; unsaved := v; readOnly := readOnly nb |}.

Definition set_readOnly (v : bool) (nb : NotebookViewModel)
  : NotebookViewModel :=
  {| storageId := storageId nb; instanceId := instanceId nb; nodejsVersion := nodejsVersion nb
   ; language := language nb; description := description nb; cells := cells nb
   ; executing := executing nb; selectedCell := selectedCell nb
   ; modified := modified nb; defaultNodejsVersion := defaultNodejsVersion nb
   ; unsaved := unsaved nb; readOnly := v |}.


Definition set_heap (v : list CellViewModel) (E : Env) : Env :=
  {| heap := v; trace := trace E; nextInstanceId := nextInstanceId E
   ; notebookRepository := notebookRepository E |}.

Definition set_trace (v : list Effect) (E : Env) : Env :=
  {| heap := heap E; trace := v; nextInstanceId := nextInstanceId E
   ; notebookRepository := notebookRepository E |}.

Definition set_nextInstanceId (v : InstanceId) (E : Env) : Env :=
  {| heap := heap E; trace := trace E; nextInstanceId := v
   ; notebookRepository := notebookRepository E |}.

(** ** Access to the state *)

Definition liftEnv {A} (m : M Env A) : M NbState A :=
  fun s => let (r, E) := m (env s) in (r, {| this := this s; env := E |}).

Definition getThis {A} (f : NotebookViewModel -> A) : M NbState A :=
  gets (fun s => f (this s)).

Definition setThis (f : NotebookViewModel -> NotebookViewModel) : M NbState unit :=
  modify (fun s => {| this := f (this s); env := env s |}).

(** A call to a collaborator, appended to the trace. *)
Definition emit (e : Effect) : M Env unit :=
  modify (fun E => set_trace (trace E ++ [e]) E).

(** Reading through a reference. A property access on [undefined] throws a
    TypeError; so does, in the model, a reference to no object, which
    JavaScript does not have. *)
Definition deref (x : slot) : M Env CellViewModel :=
  fun E =>
    match x with
    | None => (Throw TypeError, E)
    | Some r =>
        match heap E !! r with
        | Some c => (Ok c, E)
        | None => (Throw TypeError, E)
        end
    end.

(** A method call [x.m()] that updates the receiver in place. *)
Definition invoke (x : slot) (m : CellViewModel -> CellViewModel) : M Env unit :=
  c <- deref x ;;
  match x with
  | Some r => modify (fun E => set_heap (<[r := m c]> (heap E)) E)
  | None => throw TypeError
  end.

(** [new] of a cell view-model: the object gets the next free reference. *)
Definition alloc (c : CellViewModel) : M Env ref :=
  fun E => (Ok (length (heap E)), set_heap (heap E ++ [c]) E).

(** ** Cells *)

Module Cell.

(** Modelled from the spec: the methods of the cell view-model the notebook
    and the editor call (the cell classes are not in the sources at hand).
    Each is a function on the cell object. *)

Definition set_executing (v : bool) (c : CellViewModel) : CellViewModel :=
  {| cell_id := cell_id c; cell_cellType := cell_cellType c; cell_text := cell_text c
   ; cell_output := cell_output c; cell_errors := cell_errors c
   ; cell_executing := v; cell_selected := cell_selected c
   ; cell_onEditorSelectionChanging := cell_onEditorSelectionChanging c
   ; cell_onEditorSelectionChanged := cell_onEditorSelectionChanged c
   ; cell_onModified := cell_onModified c; cell_onTextChanged := cell_onTextChanged c |}.

Definition set_selected (v : bool) (c : CellViewModel) : CellViewModel :=
  {| cell_id := cell_id c; cell_cellType := cell_cellType c; cell_text := cell_text c
   ; cell_output := cell_output c; cell_errors := cell_errors c
   ; cell_executing := cell_executing c; cell_selected := v
   ; cell_onEditorSelectionChanging := cell_onEditorSelectionChanging c
   ; cell_onEditorSelectionChanged := cell_onEditorSelectionChanged c
   ; cell_onModified := cell_onModified c; cell_onTextChanged := cell_onTextChanged c |}.

Definition set_errors (v : list string) (c : CellViewModel) : CellViewModel :=
  {| cell_id := cell_id c; cell_cellType := cell_cellType c; cell_text := cell_text c
   ; cell_output := cell_output c; cell_errors := v
   ; cell_executing := cell_executing c; cell_selected := cell_selected c
   ; cell_onEditorSelectionChanging := cell_onEditorSelectionChanging c
   ; cell_onEditorSelectionChanged := cell_onEditorSelectionChanged c
   ; cell_onModified := cell_onModified c; cell_onTextChanged := cell_onTextChanged c |}.

(** The four event sources, updated together by hooking and unhooking. *)
Definition map_events (f1 f2 f3 f4 : EventSource.t -> EventSource.t)
  (c : CellViewModel) : CellViewModel :=
  {| cell_id := cell_id c; cell_cellType := cell_cellType c; cell_text := cell_text c
   ; cell_output := cell_output c; cell_errors := cell_errors c
   ; cell_executing := cell_executing c; cell_selected := cell_selected c
   ; cell_onEditorSelectionChanging := f1 (cell_onEditorSelectionChanging c)
   ; cell_onEditorSelectionChanged := f2 (cell_onEditorSelectionChanged c)
   ; cell_onModified := f3 (cell_onModified c)
   ; cell_onTextChanged := f4 (cell_onTextChanged c) |}.

(** "asks every cell to flush pending changes (e.g. commit in-progress
    edits)": the edits in progress belong to the editor widget, the cell
    object of the model has none. *)
Definition flushChanges (c : CellViewModel) : CellViewModel := c.

Definition notifyNotebookEvalStarted (c : CellViewModel) : CellViewModel := c.

(** "propagates completion to every cell (clearing any cell still marked
    executing)". *)
Definition notifyCodeEvalComplete (c : CellViewModel) : CellViewModel :=
  set_executing false c.

Definition deselect (c : CellViewModel) : CellViewModel := set_selected false c.

(** "attach an error to the named cell": errors are an ordered sequence. *)
Definition addError (msg : string) (c : CellViewModel) : CellViewModel :=
  set_errors (cell_errors c ++ [msg]) c.

(** [serialize] "emits the full document (outputs/errors included)". *)
Definition serialize (c : CellViewModel) : Doc.ISerializedCell1 :=
  {| Doc.id := cell_id c; Doc.cellType := Some (cell_cellType c)
   ; Doc.code := cell_text c; Doc.output := cell_output c
   ; Doc.errors := cell_errors c |}.

(** [serializeForEval] omits "UI-only state such as outputs/errors". *)
Definition serializeForEval (c : CellViewModel) : Doc.ISerializedCell1 :=
  {| Doc.id := cell_id c; Doc.cellType := Some (cell_cellType c)
   ; Doc.code := cell_text c; Doc.output := []; Doc.errors := [] |}.

(** [CodeCellViewModel.deserialize] and [MarkdownCellViewModel.deserialize]:
    a new cell with the id and content of the document, nothing attached. *)
Definition deserialize (t : CellType) (input : Doc.ISerializedCell1) : CellViewModel :=
  {| cell_id := Doc.id input; cell_cellType := t; cell_text := Doc.code input
   ; cell_output := Doc.output input; cell_errors := Doc.errors input
   ; cell_executing := false; cell_selected := false
   ; cell_onEditorSelectionChanging := []; cell_onEditorSelectionChanged := []
   ; cell_onModified := []; cell_onTextChanged := [] |}.

End Cell.

(** ** NotebookViewModel *)

Definition notebookVersion : Z := 3.

(** [this.onX.raise()] for an event of the notebook: its subscribers are
    outside the model, the call is recorded. *)
Definition raise (ev : NotebookEvent) : M NbState unit :=
  nb <- getThis instanceId ;;
  liftEnv (emit (Raised nb ev)).

Definition cellViewModelFactory (cell : option Doc.ISerializedCell1) : M Env ref :=
  match cell with
  | None => throw CellNotSpecified
  | Some cell =>
      match Doc.cellType cell with
      | Some Code => alloc (Cell.deserialize Code cell)
      | Some Markdown => alloc (Cell.deserialize Markdown cell)
      | None => throw UnexpectedCellType
      end
  end.

(** [hookCellEvents] and [unhookCellEvents] of the notebook instance [nb]. *)
Definition hookCellEvents (nb : InstanceId) (cell : slot) : M Env unit :=
  invoke cell
    (Cell.map_events
       (EventSource.attach (onEditorSelectionChanging_of nb))
       (EventSource.attach (onEditorSelectionChanged_of nb))
       (EventSource.attach (onCellModified_of nb))
       (EventSource.attach (_onTextChanged_of nb))).

Definition unhookCellEvents (nb : InstanceId) (cell : slot) : M Env unit :=
  invoke cell
    (Cell.map_events
       (EventSource.detach (onEditorSelectionChanging_of nb))
       (EventSource.detach (onEditorSelectionChanged_of nb))
       (EventSource.detach (onCellModified_of nb))
       (EventSource.detach (_onTextChanged_of nb))).

Definition uuid : M Env InstanceId :=
  fun E => (Ok (nextInstanceId E), set_nextInstanceId (S (nextInstanceId E)) E).

(** The constructor. *)
Definition new_NotebookViewModel
  (notebookStorageId : INotebookStorageId) (nodejsVersion : option string)
  (language : string) (cells : list slot) (description : option string)
  (unsaved readOnly : bool) (defaultNodeJsVersion : string)
  : M Env NotebookViewModel :=
  nb <- uuid ;;
  forEach (hookCellEvents nb) cells ;;
  ret {| storageId := notebookStorageId; instanceId := nb
       ; nodejsVersion := nodejsVersion; language := language
       ; description := description; cells := cells
       ; executing := false; selectedCell := None; modified := false
       ; defaultNodejsVersion := defaultNodeJsVersion
       ; unsaved := unsaved; readOnly := readOnly |}.

Definition getStorageId : M NbState INotebookStorageId := getThis storageId.
Definition getInstanceId : M NbState InstanceId := getThis instanceId.
Definition getLanguage : M NbState string := getThis language.
Definition getCells : M NbState (list slot) := getThis cells.
Definition getSelectedCell : M NbState slot := getThis selectedCell.
Definition isUnsaved : M NbState bool := getThis unsaved.
Definition isReadOnly : M NbState bool := getThis readOnly.
Definition isModified : M NbState bool := getThis modified.
Definition isExecuting : M NbState bool := getThis executing.

Definition getCellIndex (cellViewModel : slot) : M NbState Z :=
  cs <- getCells ;;
  ret (Js.indexOf slot_eqb cellViewModel cs).

Definition getCellByIndex (cellIndex : Z) : M NbState slot :=
  cs <- getCells ;;
  if (cellIndex >=? 0) && (cellIndex <? Z.of_nat (length cs))
  then ret (Js.elem cs cellIndex)
  else ret None.

Definition setModified (v : bool) : M NbState unit :=
  m <- getThis modified ;;
  if Bool.eqb m v
  then ret tt
  else (setThis (set_modified v) ;; raise onModified).

Definition notifyModified : M NbState unit := setModified true.

Definition clearModified : M NbState unit := setModified false.

Definition deselect : M NbState unit :=
  sel <- getThis selectedCell ;;
  match sel with
  | Some _ =>
      liftEnv (invoke sel Cell.deselect) ;;
      setThis (set_selectedCell None)
  | None => ret tt
  end.

(** The four handlers the notebook attaches to its cells. *)
Definition onEditorSelectionChanging (cell : ref) (willBeSelected : bool)
  : M NbState unit :=
  if willBeSelected then deselect else ret tt.

Definition onEditorSelectionChanged (cell : ref) : M NbState unit :=
  sel <- getThis selectedCell ;;
  if slot_eqb sel (Some cell)
  then ret tt
  else (setThis (set_selectedCell (Some cell)) ;; raise onSelectedCellChanged).

Definition _onTextChanged (cell : ref) : M NbState unit :=
  raise (onTextChanged cell).

Definition onCellModified (cell : ref) : M NbState unit := notifyModified.

(** A subscriber of a cell event is called. A handler of this notebook runs
    its method; a handler of another notebook instance has no effect on this
    one. *)
Definition call_handler (cell : ref) (willBeSelected : bool) (h : Handler)
  : M NbState unit :=
  me <- getThis instanceId ;;
  match h with
  | onEditorSelectionChanging_of nb =>
      if Nat.eqb nb me then onEditorSelectionChanging cell willBeSelected else ret tt
  | onEditorSelectionChanged_of nb =>
      if Nat.eqb nb me then onEditorSelectionChanged cell else ret tt
  | onCellModified_of nb =>
      if Nat.eqb nb me then onCellModified cell else ret tt
  | _onTextChanged_of nb =>
      if Nat.eqb nb me then _onTextChanged cell else ret tt
  end.

(** Modelled from the spec: [select()] of a cell (the cell classes are not in
    the sources at hand), "a cell notifies the notebook before it becomes
    selected (giving the notebook a chance to deselect the previous cell
    first), then notifies again once the new selection is committed". *)
Definition cell_select (cell : ref) : M NbState unit :=
  c <- liftEnv (deref (Some cell)) ;;
  forEach (call_handler cell true) (cell_onEditorSelectionChanging c) ;;
  liftEnv (invoke (Some cell) (Cell.set_selected true)) ;;
  forEach (call_handler cell true) (cell_onEditorSelectionChanged c).

Definition flushChanges : M NbState unit :=
  raise onFlushChanges ;;
  cs <- getThis cells ;;
  liftEnv (forEach (fun cell => invoke cell Cell.flushChanges) cs).

Definition addCell (cellViewModel : ref) (cellIndex : Z) : M NbState unit :=
  nb <- getThis instanceId ;;
  liftEnv (hookCellEvents nb (Some cellViewModel)) ;;
  flushChanges ;;
  cs <- getThis cells ;;
  if cellIndex >? Z.of_nat (length cs)
  then throw (BadIndex cellIndex (length cs))
  else
    (setThis (set_cells (snd (Js.splice cellIndex 0 [Some cellViewModel] cs))) ;;
     raise onCellsChanged ;;
     notifyModified).

(** [cell => cell.getId() === cellId] and its negation, the two filters of
    [deleteCell]. *)
Definition hasId (cellId : string) (cell : slot) : M Env bool :=
  c <- deref cell ;;
  ret (String.eqb (cell_id c) cellId).

Definition hasNotId (cellId : string) (cell : slot) : M Env bool :=
  c <- deref cell ;;
  ret (negb (String.eqb (cell_id c) cellId)).

Definition deleteCell (cell : ref) (selectNextCell : bool) : M NbState unit :=
  cs <- getCells ;;
  let cellIndex := Js.indexOf slot_eqb (Some cell) cs in
  let nextSelectedCell :=
    if selectNextCell && (cellIndex >=? Z.of_nat (length cs) - 1)
    then (if cellIndex >? 0 then cellIndex - 1 else -1)
    else cellIndex in
  c <- liftEnv (deref (Some cell)) ;;
  let cellId := cell_id c in
  cs0 <- getThis cells ;;
  cellsRemoved <- liftEnv (filterM (hasId cellId) cs0) ;;
  nb <- getThis instanceId ;;
  liftEnv (unhookCellEvents nb (Js.elem cellsRemoved 0)) ;;
  cs1 <- getThis cells ;;
  kept <- liftEnv (filterM (hasNotId cellId) cs1) ;;
  setThis (set_cells kept) ;;
  raise onCellsChanged ;;
  (if selectNextCell && (nextSelectedCell >=? 0)
   then
     nextFocusedCell <- getCellByIndex nextSelectedCell ;;
     match nextFocusedCell with
     | Some r => cell_select r
     | None => ret tt
     end
   else ret tt) ;;
  notifyModified.

Definition moveCell (sourceIndex destIndex : Z) : M NbState unit :=
  cs <- getThis cells ;;
  let reorderedCells := cs in
  let (removed, reorderedCells) := Js.splice sourceIndex 1 [] reorderedCells in
  let movedCell : slot := Js.elem removed 0 in
  let (_, reorderedCells) := Js.splice destIndex 0 [movedCell] reorderedCells in
  setThis (set_cells reorderedCells) ;;
  raise onCellsChanged ;;
  notifyModified.

(** The loop of [findCellIndex], on the cells from [cellIndex] on. *)
Fixpoint findCellIndex_from (cellId : string) (rest : list slot) (cellIndex : Z)
  : M Env (option Z) :=
  match rest with
  | [] => ret None
  | x :: rest' =>
      c <- deref x ;;
      if String.eqb (cell_id c) cellId
      then ret (Some cellIndex)
      else findCellIndex_from cellId rest' (cellIndex + 1)
  end.

Definition findCellIndex (cellId : string) : M NbState (option Z) :=
  cs <- getThis cells ;;
  liftEnv (findCellIndex_from cellId cs 0).

Definition findCell (cellId : string) : M NbState slot :=
  cellIndex <- findCellIndex cellId ;;
  match cellIndex with
  | None => ret None
  | Some i => cs <- getThis cells ;; ret (Js.elem cs i)
  end.

Definition getNodejsVersion : M NbState string :=
  v <- getThis nodejsVersion ;;
  d <- getThis defaultNodejsVersion ;;
  ret (Js.or_else v d).

Definition serializeCell (cell : slot) : M Env Doc.ISerializedCell1 :=
  c <- deref cell ;; ret (Cell.serialize c).

Definition serializeCellForEval (cell : slot) : M Env Doc.ISerializedCell1 :=
  c <- deref cell ;; ret (Cell.serializeForEval c).

Definition serialize : M NbState Doc.ISerializedNotebook1 :=
  nb <- gets this ;;
  cs <- liftEnv (mapM serializeCell (cells nb)) ;;
  ret {| Doc.version := notebookVersion
       ; Doc.nodejs := nodejsVersion nb
       ; Doc.language := Some (language nb)
       ; Doc.description := description nb
       ; Doc.cells := Some (map Some cs)
       ; Doc.sheet := None |}.

Definition serializeForEval : M NbState Doc.ISerializedNotebook1 :=
  nb <- gets this ;;
  cs <- liftEnv (mapM serializeCellForEval (cells nb)) ;;
  ret {| Doc.version := notebookVersion
       ; Doc.nodejs := nodejsVersion nb
       ; Doc.language := Some (language nb)
       ; Doc.description := None
       ; Doc.cells := Some (map Some cs)
       ; Doc.sheet := None |}.

(** [xs && xs.map(cell => cellViewModelFactory(cell)) || []]. *)
Definition deserializeCells (xs : option (list (option Doc.ISerializedCell1)))
  : M Env (list slot) :=
  match xs with
  | Some xs => rs <- mapM cellViewModelFactory xs ;; ret (map Some rs)
  | None => ret []
  end.

Definition deserialize (notebookStorageId : INotebookStorageId)
  (unsaved readOnly : bool) (defaultNodejsVersion : string)
  (input : Doc.ISerializedNotebook1) : M Env NotebookViewModel :=
  let construct (language : string) (cells : list slot) :=
    new_NotebookViewModel notebookStorageId (Doc.nodejs input) language cells
      (Doc.description input) unsaved readOnly defaultNodejsVersion in
  match Doc.sheet input with
  | Some sheet =>
      let language := Js.or_else (Doc.sheet_language sheet) "javascript" in
      cells <- deserializeCells (Doc.sheet_cells sheet) ;;
      construct language cells
  | None =>
      let language := Js.or_else (Doc.language input) "javascript" in
      cells <- deserializeCells (Doc.cells input) ;;
      construct language cells
  end.

(** [await this.notebookRepository.writeNotebook(serialized, notebookId)]. *)
Definition repository_writeNotebook (serialized : Doc.ISerializedNotebook1)
  (notebookId : INotebookStorageId) : M Env unit :=
  emit (WriteNotebook serialized notebookId) ;;
  repo <- gets notebookRepository ;;
  match writeNotebook repo serialized notebookId with
  | Some reason => throw (StorageFailure reason)
  | None => ret tt
  end.

Definition _save (notebookId : INotebookStorageId) : M NbState unit :=
  flushChanges ;;
  serialized <- serialize ;;
  liftEnv (repository_writeNotebook serialized notebookId) ;;
  clearModified.

Definition save : M NbState unit :=
  ro <- isReadOnly ;;
  if ro : bool
  then throw ReadOnlyFile
  else
    (sid <- getThis storageId ;;
     liftEnv (emit (LogInfo ("Saving notebook: " +:+ displayName sid))) ;;
     u <- isUnsaved ;;
     if u : bool
     then throw NeverSaved
     else
       (sid <- getThis storageId ;;
        _save sid ;;
        sid <- getThis storageId ;;
        liftEnv (emit (LogInfo ("Saved notebook: " +:+ displayName sid))))).

Definition saveAs (newNotebookId : INotebookStorageId) : M NbState unit :=
  liftEnv (emit (LogInfo ("Saving notebook as: " +:+ displayName newNotebookId))) ;;
  _save newNotebookId ;;
  setThis (set_unsaved false) ;;
  setThis (set_storageId newNotebookId) ;;
  setThis (set_readOnly false) ;;
  liftEnv (emit (LogInfo ("Saved notebook: " +:+ displayName newNotebookId))).

Definition notifyCodeEvalStarted : M NbState unit :=
  setThis (set_executing true) ;;
  cs <- getCells ;;
  liftEnv (forEach (fun cell => invoke cell Cell.notifyNotebookEvalStarted) cs) ;;
  raise onEvalStarted.

Definition notifyCodeEvalComplete : M NbState unit :=
  setThis (set_executing false) ;;
  cs <- getCells ;;
  liftEnv (forEach (fun cell => invoke cell Cell.notifyCodeEvalComplete) cs) ;;
  raise onEvalCompleted.

(** ** NotebookViewModel: the other methods *)

Definition findNextCell (cellId : string) : M NbState slot :=
  cellIndex <- findCellIndex cellId ;;
  match cellIndex with
  | None => ret None
  | Some i =>
      let nextCellIndex := i + 1 in
      cs <- getThis cells ;;
      if nextCellIndex <? Z.of_nat (length cs)
      then ret (Js.elem cs nextCellIndex)
      else ret None
  end.

Definition findPrevCell (cellId : string) : M NbState slot :=
  cellIndex <- findCellIndex cellId ;;
  match cellIndex with
  | None => ret None
  | Some i =>
      let prevCellIndex := i - 1 in
      if prevCellIndex >=? 0
      then (cs <- getThis cells ;; ret (Js.elem cs prevCellIndex))
      else ret None
  end.

Definition getFirstCell : M NbState slot :=
  cs <- getThis cells ;;
  if Z.of_nat (length cs) >? 0 then ret (Js.elem cs 0) else ret None.

Definition getLastCell : M NbState slot :=
  cs <- getThis cells ;;
  if Z.of_nat (length cs) >? 0
  then ret (Js.elem cs (Z.of_nat (length cs) - 1))
  else ret None.

(** [number | undefined]: the index is [-1] when the selected cell is not in
    the array. *)
Definition getSelectedCellIndex : M NbState (option Z) :=
  sel <- getThis selectedCell ;;
  match sel with
  | None => ret None
  | Some _ => cs <- getThis cells ;; ret (Some (Js.indexOf slot_eqb sel cs))
  end.

Definition setNodejsVersion (version : string) : M NbState unit :=
  setThis (set_nodejsVersion (Some version)) ;;
  notifyModified.

(** Modelled from the spec: the other methods of the cell view-model that
    the editor calls (the cell classes are not in the sources at hand):
    outputs are an ordered sequence that is appended to, and a cell is marked
    executing when its evaluation starts. *)
Module CellOps.

Definition set_output (v : list string) (c : CellViewModel) : CellViewModel :=
  {| cell_id := cell_id c; cell_cellType := cell_cellType c; cell_text := cell_text c
   ; cell_output := v; cell_errors := cell_errors c
   ; cell_executing := cell_executing c; cell_selected := cell_selected c
   ; cell_onEditorSelectionChanging := cell_onEditorSelectionChanging c
   ; cell_onEditorSelectionChanged := cell_onEditorSelectionChanged c
   ; cell_onModified := cell_onModified c; cell_onTextChanged := cell_onTextChanged c |}.

Definition addOutput (value : string) (c : CellViewModel) : CellViewModel :=
  set_output (cell_output c ++ [value]) c.

Definition notifyCodeEvalStarted (c : CellViewModel) : CellViewModel :=
  Cell.set_executing true c.

End CellOps.

(** ** NotebookEditorViewModel: evaluation *)

(** The editor: the open notebook, if any, and the counter of the global
    tasks in progress. *)
Record EdState : Type := {
  notebook : option NotebookViewModel;
  working : Z;
  ed_env : Env
}.

Definition liftEd {A} (m : M Env A) : M EdState A :=
  fun s =>
    let (r, E) := m (ed_env s) in
    (r, {| notebook := notebook s; working := working s; ed_env := E |}).

(** [this.notebook!.m(...)]: a TypeError when no notebook is open. *)
Definition onNotebook {A} (m : M NbState A) : M EdState A :=
  fun s =>
    match notebook s with
    | Some nb =>
        let (r, s') := m {| this := nb; env := ed_env s |} in
        (r, {| notebook := Some (this s'); working := working s; ed_env := env s' |})
    | None => (Throw TypeError, s)
    end.

Definition isWorking : M EdState bool :=
  w <- gets working ;; ret (w >? 0).

Definition checkCanEvaluateNotebook : M EdState bool :=
  busy <- isWorking ;;
  if busy : bool
  then (liftEd (emit (NotificationWarn "Already working!")) ;; ret false)
  else
    (nb <- gets notebook ;;
     match nb with
     | None =>
         liftEd (emit (NotificationWarn
           "You must create or open a notebook before evaluating it.")) ;;
         ret false
     | Some nb =>
         if readOnly nb
         then
           (liftEd (emit (NotificationError
              "The file for this notebook is readonly, please save it to a different location and copy any data files that it uses. Then you can run it.")) ;;
            ret false)
         else ret true
     end).

Definition onEvaluationStarted : M EdState unit := onNotebook notifyCodeEvalStarted.

Definition onEvaluationFinished : M EdState unit := onNotebook notifyCodeEvalComplete.

Definition evaluateNotebook : M EdState unit :=
  ok <- checkCanEvaluateNotebook ;;
  if negb ok
  then ret tt
  else
    (nb <- gets notebook ;;
     match nb with
     | None => liftEd (emit (NotificationWarn "No notebook open!"))
     | Some nb =>
         if executing nb
         then
           (liftEd (emit (StopEvaluation (instanceId nb))) ;;
            onEvaluationFinished)
         else
           (onNotebook flushChanges ;;
            nb <- onNotebook getInstanceId ;;
            doc <- onNotebook serializeForEval ;;
            sid <- onNotebook getStorageId ;;
            liftEd (emit (EvalNotebook nb doc (getContainingPath sid))) ;;
            onEvaluationStarted)
     end).

Definition evaluateToCell (cell : slot) : M EdState unit :=
  ok <- checkCanEvaluateNotebook ;;
  if negb ok
  then ret tt
  else
    (nb <- gets notebook ;;
     match nb with
     | None => liftEd (emit (NotificationWarn "No notebook open!"))
     | Some nb =>
         if executing nb
         then
           (liftEd (emit (StopEvaluation (instanceId nb))) ;;
            onEvaluationFinished)
         else
           (onNotebook flushChanges ;;
            nb <- onNotebook getInstanceId ;;
            doc <- onNotebook serializeForEval ;;
            c <- liftEd (deref cell) ;;
            sid <- onNotebook getStorageId ;;
            liftEd (emit (EvalToCell nb doc (cell_id c) (getContainingPath sid))) ;;
            onEvaluationStarted)
     end).

Definition evaluateSingleCell (cell : slot) : M EdState unit :=
  ok <- checkCanEvaluateNotebook ;;
  if negb ok
  then ret tt
  else
    (nb <- gets notebook ;;
     match nb with
     | None => liftEd (emit (NotificationWarn "No notebook open!"))
     | Some nb =>
         if executing nb
         then
           (liftEd (emit (StopEvaluation (instanceId nb))) ;;
            onEvaluationFinished)
         else
           (onNotebook flushChanges ;;
            c <- liftEd (deref cell) ;;
            if negb (CellType_eqb (cell_cellType c) Code)
            then liftEd (emit (NotificationWarn "Requested cell is not a code cell."))
            else
              (nb <- onNotebook getInstanceId ;;
               doc <- onNotebook serializeForEval ;;
               c <- liftEd (deref cell) ;;
               sid <- onNotebook getStorageId ;;
               liftEd (emit (EvalSingleCell nb doc (cell_id c)
                               (getContainingPath sid))) ;;
               onEvaluationStarted))
     end).

(** The loop of [reportError] over the cells of the notebook; [true] when it
    left the method through its [return]. *)
Fixpoint addErrorToFirstCodeCell (error : string) (cs : list slot) : M Env bool :=
  match cs with
  | [] => ret false
  | cell :: cs' =>
      c <- deref cell ;;
      if CellType_eqb (cell_cellType c) Code
      then (invoke cell (Cell.addError error) ;; ret true)
      else addErrorToFirstCodeCell error cs'
  end.

Definition reportError (cellId : option string) (error : string) : M EdState unit :=
  cell <-
    (if Js.truthy cellId
     then onNotebook (findCell (Js.to_string cellId))
     else ret None) ;;
  match cell with
  | Some _ => liftEd (invoke cell (Cell.addError error))
  | None =>
      cs <- onNotebook getCells ;;
      done <- liftEd (addErrorToFirstCodeCell error cs) ;;
      if done : bool
      then ret tt
      else
        liftEd (emit (LogError
          ("receive-error: Failed to find cell " +:+ Js.to_string cellId
           +:+ ", error = " +:+ error)))
  end.

(** The handler of the evaluation event "receive-error". *)
Definition receive_error (cellId : option string) (error : string) : M EdState unit :=
  reportError cellId error.

(** ** NotebookEditorViewModel: the handlers of the evaluation events *)

(** An element of [args.outputs] of a receive-display event. *)
Record CellOutput : Type := {
  out_cellId : string;
  out_output : string
}.

(** The handler of the evaluation event "cell-eval-started". *)
Definition cell_eval_started (cellId : string) : M EdState unit :=
  cell <- onNotebook (findCell cellId) ;;
  match cell with
  | Some _ => liftEd (invoke cell CellOps.notifyCodeEvalStarted)
  | None =>
      liftEd (emit (LogError ("cell-eval-started: Failed to find cell " +:+ cellId)))
  end.

(** The handler of the evaluation event "cell-eval-completed". *)
Definition cell_eval_completed (cellId : string) : M EdState unit :=
  cell <- onNotebook (findCell cellId) ;;
  match cell with
  | Some _ => liftEd (invoke cell Cell.notifyCodeEvalComplete)
  | None =>
      liftEd (emit (LogError ("cell-eval-completed: Failed to find cell " +:+ cellId)))
  end.

(** The body of the loop of the handler of "receive-display". *)
Definition receive_display_one (cellOutput : CellOutput) : M EdState unit :=
  cell <- onNotebook (findCell (out_cellId cellOutput)) ;;
  match cell with
  | Some _ => liftEd (invoke cell (CellOps.addOutput (out_output cellOutput)))
  | None =>
      liftEd (emit (LogError ("receive-display: Failed to find cell "
                              +:+ out_cellId cellOutput)))
  end.

(** The handler of the evaluation event "receive-display". *)
Definition receive_display (outputs : list CellOutput) : M EdState unit :=
  forEach receive_display_one outputs.

(** ** NotebookEditorViewModel: blocking tasks and saving *)

Inductive SaveChoice : Type := Save | DontSave | Cancel.

(** The events the editor raises itself and the calls it makes to the undo
    stack, the list of recent files and the dialogs, in the order made. The
    recent file is recorded by the storage id whose [toString()] is passed,
    the undo stack by the instance id of the notebook passed ([None] for
    [undefined]). *)
Inductive EditorEffect : Type :=
| isWorkingChanged
| onOpenNotebookWillChange
| onOpenNotebookChanged (isReload : bool)
| UndoRedoClearStack (nb : option InstanceId)
| AddRecentFile (id : INotebookStorageId)
| ShowNotebookSaveAsDialog (existing : INotebookStorageId)
| ShowConfirmationDialog (title msg : string).

(** What the user answers in the two dialogs: a new storage id or a
    cancellation ([None]) in the save-as dialog, one of the three choices in
    the confirmation dialog. *)
Record User : Type := {
  saveAsAnswer : INotebookStorageId -> option INotebookStorageId;
  confirmAnswer : string -> string -> SaveChoice
}.

Record AppState : Type := {
  editor : EdState;
  calls : list EditorEffect
}.

Definition liftApp {A} (m : M EdState A) : M AppState A :=
  fun s =>
    let (r, es) := m (editor s) in
    (r, {| editor := es; calls := calls s |}).

Definition call (e : EditorEffect) : M AppState unit :=
  modify (fun s => {| editor := editor s; calls := calls s ++ [e] |}).

Definition set_working (w : Z) (es : EdState) : EdState :=
  {| notebook := notebook es; working := w; ed_env := ed_env es |}.

(** [working] is a JavaScript number, a double that holds an integer: the
    integers of magnitude up to 2^53 are doubles, and beyond them only those
    with 53 significant bits. [to_number z] is the double that an operation
    with the exact result [z] gives: [z] rounded to 53 significant bits, to
    the nearest and, half way, to the even one. (The exponent of a double is
    bounded as well, but one more or one less than a double does not reach
    the bound.) *)
Definition two_53 : Z := 9007199254740992.

Definition to_number (z : Z) : Z :=
  let a := Z.abs z in
  if a <=? two_53
  then z
  else
    let e := Z.log2 a - 52 in
    let q := Z.shiftr a e in
    let r := a - Z.shiftl q e in
    let half := Z.shiftl 1 (e - 1) in
    let q' := if (r >? half) || ((r =? half) && Z.odd q) then q + 1 else q in
    Z.sgn z * Z.shiftl q' e.

(** [++this.working] and [--this.working]. *)
Definition increment (w : Z) : Z := to_number (w + 1).
Definition decrement (w : Z) : Z := to_number (w - 1).

Definition startBlockingTask : M AppState unit :=
  w <- liftApp (gets working) ;;
  let isFirstTask := w <=? 0 in
  liftApp (modify (set_working (increment w))) ;;
  if isFirstTask then call isWorkingChanged else ret tt.

Definition endBlockingTask : M AppState unit :=
  w <- liftApp (gets working) ;;
  liftApp (modify (set_working (decrement w))) ;;
  w <- liftApp (gets working) ;;
  if w <=? 0 then call isWorkingChanged else ret tt.

Definition notifyOpenNotebookChanged (isReload : bool) : M AppState unit :=
  call (onOpenNotebookChanged isReload) ;;
  nb <- liftApp (gets notebook) ;;
  call (UndoRedoClearStack (instanceId <$> nb)).

Definition saveNotebookAs (user : User) : M AppState unit :=
  busy <- liftApp isWorking ;;
  if busy : bool
  then liftApp (liftEd (emit (NotificationWarn "Already working!")))
  else
    (nb <- liftApp (gets notebook) ;;
     match nb with
     | None => liftApp (liftEd (emit (NotificationWarn "No notebook open!")))
     | Some nb =>
         call (ShowNotebookSaveAsDialog (storageId nb)) ;;
         match saveAsAnswer user (storageId nb) with
         | None => ret tt
         | Some newStorageId =>
             call onOpenNotebookWillChange ;;
             liftApp (onNotebook (saveAs newStorageId)) ;;
             call (AddRecentFile newStorageId) ;;
             notifyOpenNotebookChanged false
         end
     end).

Definition saveNotebook (user : User) : M AppState unit :=
  busy <- liftApp isWorking ;;
  if busy : bool
  then liftApp (liftEd (emit (NotificationWarn "Already working!")))
  else
    (nb <- liftApp (gets notebook) ;;
     match nb with
     | None => liftApp (liftEd (emit (NotificationWarn "No notebook open!")))
     | Some nb =>
         if unsaved nb || readOnly nb
         then saveNotebookAs user
         else liftApp (onNotebook save)
     end).

Definition crlf : string :=
  String (Ascii.ascii_of_nat 13) (String (Ascii.ascii_of_nat 10) EmptyString).

Definition promptSave (user : User) (title : string) : M AppState bool :=
  nb <- liftApp (gets notebook) ;;
  match nb with
  | None => ret true
  | Some nb =>
      if negb (modified nb)
      then ret true
      else
        (let msg := "Do you want to save changes that you made to "
                    +:+ displayName (storageId nb) +:+ crlf
                    +:+ "If you don't save your changes will be lost." in
         call (ShowConfirmationDialog title msg) ;;
         match confirmAnswer user title msg with
         | Save => saveNotebook user ;; ret true
         | Cancel => ret false
         | DontSave => ret true
         end)
  end.

(** ** Vocabulary of the statements *)

(** The array of cells after a method has run. *)
Definition cellsAfter {A} (m : M NbState A) (s : NbState) : list slot :=
  cells (this (snd (m s))).

(** Every element of the array is a cell object: no [undefined], which the
    element type [ICellViewModel] excludes. *)
Definition all_cells (h : list CellViewModel) (cs : list slot) : Prop :=
  Forall (fun x : slot => exists r c, x = Some r /\ h !! r = Some c) cs.

(** The id of the cell in an array element, and the test [getId() === cellId]
    on it. *)
Definition slot_id (h : list CellViewModel) (x : slot) : option string :=
  match x with
  | Some r => cell_id <$> h !! r
  | None => None
  end.

Definition idIs (h : list CellViewModel) (cellId : string) (x : slot) : bool :=
  match slot_id h x with
  | Some i => String.eqb i cellId
  | None => false
  end.

(** The cell sequence by id and content: what each element of the array
    serializes to, [None] for an element that is not a cell object. *)
Definition contents (h : list CellViewModel) (cs : list slot)
  : list (option Doc.ISerializedCell1) :=
  (fun x : slot =>
     match x with
     | Some r => Cell.serialize <$> h !! r
     | None => None
     end) <$> cs.

(** The cell after [hookCellEvents] of the notebook instance [nb]. *)
Definition hooked (nb : InstanceId) (c : CellViewModel) : CellViewModel :=
  Cell.map_events
    (EventSource.attach (onEditorSelectionChanging_of nb))
    (EventSource.attach (onEditorSelectionChanged_of nb))
    (EventSource.attach (onCellModified_of nb))
    (EventSource.attach (_onTextChanged_of nb)) c.

(** The language and the cells of a document: in the sheet of a version 2
    document, at the top of a version 3 one. *)
Definition doc_language (input : Doc.ISerializedNotebook1) : option string :=
  match Doc.sheet input with
  | Some sheet => Doc.sheet_language sheet
  | None => Doc.language input
  end.

Definition doc_cells (input : Doc.ISerializedNotebook1)
  : option (list (option Doc.ISerializedCell1)) :=
  match Doc.sheet input with
  | Some sheet => Doc.sheet_cells sheet
  | None => Doc.cells input
  end.

(** The serialized cells are of type [ISerializedCell1]: each is an object
    and its [cellType] is a member of [CellType]. *)
Definition well_typed (xs : list (option Doc.ISerializedCell1)) : Prop :=
  Forall (fun x => exists sc t, x = Some sc /\ Doc.cellType sc = Some t) xs.

(** The cell object [c] is the one the factory makes of the element [x]. *)
Definition made_of (x : option Doc.ISerializedCell1) (c : CellViewModel) : Prop :=
  exists sc t, x = Some sc /\ Doc.cellType sc = Some t /\ c = Cell.deserialize t sc.

(** The first element of the array, in document order, whose cell passes a
    test. *)
Fixpoint first_cell (h : list CellViewModel) (p : CellViewModel -> bool)
  (cs : list slot) : slot :=
  match cs with
  | [] => None
  | x :: cs' =>
      match x with
      | Some r =>
          match h !! r with
          | Some c => if p c then Some r else first_cell h p cs'
          | None => first_cell h p cs'
          end
      | None => first_cell h p cs'
      end
  end.

(** The outcome of an evaluation command that stops the evaluation in
    progress of the notebook [nb] of the editor [es]: the command returns,
    the notebook and its cells are not executing any more, and the calls
    made are the stop sent to the engine and the completion event, nothing
    else. *)
Definition stopped_and_completed (nb : NotebookViewModel) (es : EdState)
  (out : result unit * EdState) : Prop :=
  fst out = Ok tt /\
  (exists nb',
     notebook (snd out) = Some nb' /\
     executing nb' = false /\
     cells nb' = cells nb /\
     Forall (fun x : slot => exists r c, x = Some r /\
                heap (ed_env (snd out)) !! r = Some c /\
                cell_executing c = false) (cells nb')) /\
  trace (ed_env (snd out))
  = trace (ed_env es)
    ++ [StopEvaluation (instanceId nb); Raised (instanceId nb) onEvalCompleted].

(** The two tests of [reportError]: the cell of a given id, a code cell. *)
Definition is_id (cellId : string) (c : CellViewModel) : bool :=
  String.eqb (cell_id c) cellId.

Definition is_code (c : CellViewModel) : bool :=
  CellType_eqb (cell_cellType c) Code.

(** The cell a receive-error event names: none when the id is undefined or
    empty, or when no cell has it. *)
Definition named_cell (h : list CellViewModel) (cs : list slot) (cellId : option string)
  : slot :=
  if Js.truthy cellId then first_cell h (is_id (Js.to_string cellId)) cs else None.

(** The editor after a change of the cell objects, and after a call to a
    collaborator. *)
Definition with_heap (h : list CellViewModel) (es : EdState) : EdState :=
  {| notebook := notebook es; working := working es
   ; ed_env := set_heap h (ed_env es) |}.

Definition with_effect (e : Effect) (es : EdState) : EdState :=
  {| notebook := notebook es; working := working es
   ; ed_env := set_trace (trace (ed_env es) ++ [e]) (ed_env es) |}.

(** The selected cell, when there is one, is a cell object. *)
Definition selection_ok (s : NbState) : Prop :=
  forall r, selectedCell (this s) = Some r -> is_Some (heap (env s) !! r).

(** What the selection handlers and [setModified] keep: the array of cells,
    the instance, and the id of every cell object. *)
Definition steady (s s' : NbState) : Prop :=
  cells (this s') = cells (this s) /\
  instanceId (this s') = instanceId (this s) /\
  cell_id <$> heap (env s') = cell_id <$> heap (env s).

(** ** Sample states *)

Module Sample.

Definition untitled : INotebookStorageId :=
  {| displayName := "untitled"; getContainingPath := "" |}.

Definition file : INotebookStorageId :=
  {| displayName := "notes.notebook"; getContainingPath := "/home/me" |}.

Definition cell (id : string) (t : CellType) : CellViewModel :=
  {| cell_id := id; cell_cellType := t; cell_text := ""
   ; cell_output := []; cell_errors := []
   ; cell_executing := false; cell_selected := false
   ; cell_onEditorSelectionChanging := []; cell_onEditorSelectionChanged := []
   ; cell_onModified := []; cell_onTextChanged := [] |}.

(** A repository whose writes succeed, and one whose writes are rejected. *)
Definition repo_ok : INotebookRepository :=
  {| writeNotebook := fun _ _ => None |}.

Definition repo_failing : INotebookRepository :=
  {| writeNotebook := fun _ _ => Some "disk full" |}.

Definition env_of (h : list CellViewModel) (repo : INotebookRepository) : Env :=
  {| heap := h; trace := []; nextInstanceId := 1%nat; notebookRepository := repo |}.

Definition notebook_of (cs : list slot) : NotebookViewModel :=
  {| storageId := untitled; instanceId := 0%nat; nodejsVersion := None
   ; language := "javascript"; description := None; cells := cs
   ; executing := false; selectedCell := None; modified := false
   ; defaultNodejsVersion := "v16"; unsaved := true; readOnly := false |}.

(** A notebook with no cell; the cell object 0 is not in a notebook. *)
Definition empty : NbState :=
  {| this := notebook_of []; env := env_of [cell "A" Code] repo_ok |}.

(** A notebook with the three cells A, B and C, the objects 0, 1 and 2; the
    cell object 3 is not in the notebook. *)
Definition abc : NbState :=
  {| this := notebook_of [Some 0; Some 1; Some 2]%nat
   ; env := env_of [cell "A" Code; cell "B" Markdown; cell "C" Code; cell "D" Code]
              repo_ok |}.

(** A notebook with no cell yet, and the cell objects 0, 1 and 2 to add. *)
Definition fresh : NbState :=
  {| this := notebook_of []
   ; env := env_of [cell "A1" Code; cell "A2" Code; cell "A3" Code] repo_ok |}.

(** The notebook [abc] constructed with the empty string as its language. *)
Definition no_language : NbState :=
  {| this :=
       {| storageId := untitled; instanceId := 0%nat; nodejsVersion := None
        ; language := ""; description := None
        ; cells := [Some 0; Some 1; Some 2]%nat
        ; executing := false; selectedCell := None; modified := false
        ; defaultNodejsVersion := "v16"; unsaved := true; readOnly := false |}
   ; env := env abc |}.

(** A notebook that has never been saved and is marked read-only. *)
Definition unsaved_readOnly : NbState :=
  {| this := set_readOnly true (this abc); env := env abc |}.

(** A notebook loaded from a read-only file, and the same with a repository
    that rejects the writes. *)
Definition readOnly_file : NbState :=
  {| this := set_readOnly true (set_unsaved false (set_storageId file (this abc)))
   ; env := env abc |}.

Definition readOnly_file_failing : NbState :=
  {| this := this readOnly_file
   ; env := env_of (heap (env abc)) repo_failing |}.

(** An editor with the notebook [abc] open and executing, idle and busy. *)
Definition editor_executing : EdState :=
  {| notebook := Some (set_executing true (set_unsaved false (this abc)))
   ; working := 0; ed_env := env abc |}.

Definition editor_busy : EdState :=
  {| notebook := Some (set_executing true (set_unsaved false (this abc)))
   ; working := 1; ed_env := env abc |}.

(** An editor with a notebook of markdown cells only. *)
Definition editor_markdown : EdState :=
  {| notebook := Some (notebook_of [Some 1%nat]); working := 0; ed_env := env abc |}.

(** A version 2 document whose sheet has neither language nor cells. *)
Definition doc_v2 : Doc.ISerializedNotebook1 :=
  {| Doc.version := 2; Doc.nodejs := Some "v10.0.0"; Doc.language := None
   ; Doc.description := None; Doc.cells := None
   ; Doc.sheet := Some {| Doc.sheet_language := None; Doc.sheet_cells := None |} |}.

(** A version 3 document with an empty language and no [cells] field. *)
Definition doc_v3 : Doc.ISerializedNotebook1 :=
  {| Doc.version := 3; Doc.nodejs := Some "v10.0.0"; Doc.language := Some ""
   ; Doc.description := None; Doc.cells := None; Doc.sheet := None |}.

End Sample.

(** ** More vocabulary *)

(** No cell of the array has the id; position [k] is the first that has it. *)
Definition no_match (h : list CellViewModel) (cellId : string) (cs : list slot) : Prop :=
  forall x, x ∈ cs -> idIs h cellId x = false.

Definition first_match (h : list CellViewModel) (cellId : string) (cs : list slot)
  (k : nat) : Prop :=
  (exists x, cs !! k = Some x /\ idIs h cellId x = true) /\
  forall j y, (j < k)%nat -> cs !! j = Some y -> idIs h cellId y = false.

(** [a[k]] of an array of cells, [undefined] beyond its end. *)
Definition cell_at (cs : list slot) (k : nat) : slot :=
  match cs !! k with
  | Some x => x
  | None => None
  end.

(** The outcome of an evaluation command that starts an evaluation of the
    notebook [nb] of the editor [es]: the command returns, the notebook is
    executing and otherwise as it was, and the calls made are the flush
    event, the one command sent to the engine and the started event. *)
Definition started (nb : NotebookViewModel) (es : EdState) (command : Effect)
  (out : result unit * EdState) : Prop :=
  fst out = Ok tt /\
  notebook (snd out) = Some (set_executing true nb) /\
  working (snd out) = working es /\
  trace (ed_env (snd out))
  = trace (ed_env es)
    ++ [Raised (instanceId nb) onFlushChanges; command;
        Raised (instanceId nb) onEvalStarted].

(** The cells of a notebook as [serializeForEval] writes them. *)
Definition contentsForEval (h : list CellViewModel) (cs : list slot)
  : list Doc.ISerializedCell1 :=
  omap (fun x : slot => x ≫= fun r => Cell.serializeForEval <$> h !! r) cs.

(** The cell an output of a receive-display event is for, and the outputs
    of a batch that are for the cell object [r], and those for no cell. *)
Definition target (h : list CellViewModel) (cs : list slot) (o : CellOutput) : slot :=
  first_cell h (is_id (out_cellId o)) cs.

Definition outputs_for (h : list CellViewModel) (cs : list slot) (r : ref)
  (outputs : list CellOutput) : list string :=
  out_output <$> List.filter (fun o => slot_eqb (target h cs o) (Some r)) outputs.

Definition outputs_lost (h : list CellViewModel) (cs : list slot)
  (outputs : list CellOutput) : list Effect :=
  (fun o => LogError ("receive-display: Failed to find cell " +:+ out_cellId o))
    <$> List.filter (fun o => slot_eqb (target h cs o) None) outputs.

(** [n] blocking tasks, each started inside the one before it and ended
    before it ends. *)
Fixpoint nested_tasks (n : nat) : M AppState unit :=
  match n with
  | O => ret tt
  | S n' => startBlockingTask ;; nested_tasks n' ;; endBlockingTask
  end.

(** * Properties *)

(** ** Arrays *)

Section ArrayFacts.
Context {T : Type}.
Implicit Types (a : list T) (x : T) (i j : nat).

Lemma actualStart_in_range (start : Z) (len : nat) :
  0 <= start <= Z.of_nat len -> Js.actualStart start len = Z.to_nat start.
Proof.
  intros H. unfold Js.actualStart.
  destruct (Z.ltb_spec start 0); [lia|]. f_equal. lia.
Qed.

(** Inserting at an index within [0 .. length]. *)
Lemma splice_insert (start : Z) (items a : list T) :
  0 <= start <= Z.of_nat (length a) ->
  Js.splice start 0 items a
  = ([], take (Z.to_nat start) a ++ items ++ drop (Z.to_nat start) a).
Proof.
  intros H. unfold Js.splice, Js.actualDeleteCount.
  rewrite actualStart_in_range by done.
  replace (Z.to_nat (Z.min (Z.max 0 0) _)) with 0%nat by lia.
  by rewrite Nat.add_0_r.
Qed.

(** Removing the element at an index within [0 .. length - 1]. *)
Lemma splice_remove (start : Z) a x :
  0 <= start -> a !! Z.to_nat start = Some x ->
  Js.splice start 1 [] a = ([x], delete (Z.to_nat start) a).
Proof.
  intros H0 Hx. pose proof (lookup_lt_Some _ _ _ Hx) as Hlt.
  unfold Js.splice, Js.actualDeleteCount.
  rewrite actualStart_in_range by lia.
  replace (Z.to_nat (Z.min (Z.max 1 0) _)) with 1%nat by lia.
  rewrite delete_take_drop, Nat.add_1_r. f_equal.
  rewrite <- (take_drop_middle _ _ _ Hx) at 1.
  rewrite drop_app_length'; [done|]. rewrite length_take. lia.
Qed.

Lemma lookup_insert_at a x j :
  (j <= length a)%nat -> (take j a ++ x :: drop j a) !! j = Some x.
Proof.
  intros H. rewrite lookup_app_r; rewrite length_take; [|lia].
  by replace (j - j `min` length a)%nat with 0%nat by lia.
Qed.

Lemma delete_insert_at a x j :
  (j <= length a)%nat -> delete j (take j a ++ x :: drop j a) = a.
Proof.
  intros H. rewrite delete_take_drop.
  rewrite take_app_length' by (rewrite length_take; lia).
  rewrite cons_middle, app_assoc.
  rewrite drop_app_length' by (rewrite length_app, length_take; simpl; lia).
  apply take_drop.
Qed.

Lemma insert_at_delete a x i :
  a !! i = Some x -> take i (delete i a) ++ x :: drop i (delete i a) = a.
Proof.
  intros Hx. pose proof (lookup_lt_Some _ _ _ Hx) as Hlt.
  rewrite delete_take_drop.
  rewrite take_app_length' by (rewrite length_take; lia).
  rewrite drop_app_length' by (rewrite length_take; lia).
  by apply take_drop_middle.
Qed.

Lemma elem_singleton (x : option T) : Js.elem [x] 0 = x.
Proof. done. Qed.

Lemma elem_cons_0 (x : option T) (a : list (option T)) : Js.elem (x :: a) 0 = x.
Proof. done. Qed.

Lemma elem_middle (pre a : list (option T)) (x : option T) :
  Js.elem (pre ++ x :: a) (Z.of_nat (length pre)) = x.
Proof.
  unfold Js.elem, Js.at_index.
  destruct (Z.ltb_spec (Z.of_nat (length pre)) 0); [lia|].
  by rewrite Nat2Z.id, list_lookup_middle.
Qed.

Lemma elem_Some (a : list (option T)) (i : Z) (x : T) :
  Js.elem a i = Some x -> Some x ∈ a.
Proof.
  unfold Js.elem, Js.at_index. destruct (i <? 0); [done|].
  destruct (a !! Z.to_nat i) as [y|] eqn:H; [|done].
  intros ->. by eapply list_elem_of_lookup_2.
Qed.

(** A filter finds nothing, or its first result is an element that passes. *)
Lemma filter_head (p : T -> bool) (a : list T) :
  (List.filter p a = [] /\ forall x, x ∈ a -> p x = false) \/
  (exists x rest, List.filter p a = x :: rest /\ x ∈ a /\ p x = true).
Proof.
  induction a as [|y a IH]; simpl.
  - left. split; [done|]. intros x Hx. by apply elem_of_nil in Hx.
  - destruct (p y) eqn:Hy.
    + right. exists y, (List.filter p a). repeat split; [left|done].
    + destruct IH as [[-> Hall]|(x & rest & -> & Hx & Hpx)].
      * left. split; [done|]. intros x Hx.
        apply elem_of_cons in Hx as [->|Hx]; auto.
      * right. exists x, rest. repeat split; [by right|done].
Qed.

(** When one position only passes the test, filtering it out deletes that
    position. *)
Lemma filter_delete_unique (p : T -> bool) (a : list T) (i : nat) (x : T) :
  a !! i = Some x -> p x = true ->
  (forall j y, a !! j = Some y -> p y = true -> j = i) ->
  List.filter (fun y => negb (p y)) a = delete i a.
Proof.
  revert i. induction a as [|y a IH]; intros i Hx Hp Huniq; [done|].
  destruct i as [|i]; simpl in *.
  - injection Hx as ->. rewrite Hp. simpl.
    clear IH. induction a as [|z a IHa]; [done|]. simpl.
    destruct (p z) eqn:Hz.
    + by specialize (Huniq 1%nat z eq_refl Hz).
    + simpl. f_equal. apply IHa. intros [|j] y' Hj Hy'; [done|].
      by specialize (Huniq (S (S j)) y' Hj Hy').
  - destruct (p y) eqn:Hy.
    + by specialize (Huniq 0%nat y eq_refl Hy).
    + simpl. f_equal. apply (IH i Hx Hp). intros j y' Hj Hy'.
      specialize (Huniq (S j) y' Hj Hy'). lia.
Qed.

Lemma elem_nil (i : Z) : Js.elem (@nil (option T)) i = None.
Proof. unfold Js.elem, Js.at_index. by destruct (i <? 0). Qed.

End ArrayFacts.

(** ** Running methods *)

(** The array primitives are used through their lemmas from here on. *)
Opaque Js.splice Js.elem Js.indexOf.

(** Unfolds the monad and the state accessors. *)
Ltac run :=
  unfold bind, ret, throw, gets, modify, getThis, setThis, liftEnv, emit,
    raise in *; simpl in *.

Lemma setModified_this (v : bool) (s : NbState) :
  fst (setModified v s) = Ok tt /\
  this (snd (setModified v s)) = set_modified v (this s) /\
  heap (env (snd (setModified v s))) = heap (env s).
Proof.
  unfold setModified. run.
  destruct (modified (this s)) eqn:Hm, v; simpl; repeat split; try done;
    destruct s as [[] ?]; simpl in *; by subst.
Qed.

(** ** moveCell *)

(** The array [moveCell] stores: the element is spliced out, then spliced in
    at [destIndex] of the shorter array. *)
Lemma moveCell_cells (sourceIndex destIndex : Z) (s : NbState) :
  fst (moveCell sourceIndex destIndex s) = Ok tt /\
  cells (this (snd (moveCell sourceIndex destIndex s)))
  = snd (Js.splice destIndex 0
           [Js.elem (fst (Js.splice sourceIndex 1 [] (cells (this s)))) 0]
           (snd (Js.splice sourceIndex 1 [] (cells (this s))))).
Proof.
  unfold moveCell, notifyModified. run.
  destruct (Js.splice sourceIndex 1 [] (cells (this s))) as [removed rest].
  destruct (Js.splice destIndex 0 [Js.elem removed 0] rest) as [r2 rest2] eqn:E2.
  simpl.
  match goal with |- context [setModified true ?s0] =>
    destruct (setModified_this true s0) as (H1 & H2 & _);
    destruct (setModified true s0) as [r s'] end.
  simpl in *. subst r. rewrite H2. simpl. by rewrite E2.
Qed.

Lemma moveCell_in_range (sourceIndex destIndex : Z) (s : NbState) (x : slot) :
  0 <= sourceIndex ->
  cells (this s) !! Z.to_nat sourceIndex = Some x ->
  0 <= destIndex < Z.of_nat (length (cells (this s))) ->
  fst (moveCell sourceIndex destIndex s) = Ok tt /\
  cellsAfter (moveCell sourceIndex destIndex) s
  = take (Z.to_nat destIndex) (delete (Z.to_nat sourceIndex) (cells (this s)))
    ++ x :: drop (Z.to_nat destIndex) (delete (Z.to_nat sourceIndex) (cells (this s))).
Proof.
  intros Hs Hx Hd. unfold cellsAfter.
  destruct (moveCell_cells sourceIndex destIndex s) as [-> ->]. split; [done|].
  pose proof (lookup_lt_Some _ _ _ Hx) as Hlt.
  rewrite (splice_remove _ _ x) by done. simpl.
  rewrite elem_singleton, splice_insert; [done|].
  rewrite length_delete by eauto. lia.
Qed.

(** Moving a cell and moving it back, with both indices inside the array,
    gives the array back. *)
Lemma moveCell_round_trip (sourceIndex destIndex : Z) (s : NbState) :
  0 <= sourceIndex < Z.of_nat (length (cells (this s))) ->
  0 <= destIndex < Z.of_nat (length (cells (this s))) ->
  fst ((moveCell sourceIndex destIndex ;; moveCell destIndex sourceIndex) s) = Ok tt /\
  cellsAfter (moveCell sourceIndex destIndex ;; moveCell destIndex sourceIndex) s
  = cells (this s).
Proof.
  intros Hs Hd.
  destruct (lookup_lt_is_Some_2 (cells (this s)) (Z.to_nat sourceIndex)) as [x Hx]; [lia|].
  destruct (moveCell_in_range sourceIndex destIndex s x) as [H1 H2]; [lia|done|done|].
  unfold cellsAfter in *. unfold bind at 1 2.
  destruct (moveCell sourceIndex destIndex s) as [r s1]. simpl in *. subst r.
  assert (Hlen : length (delete (Z.to_nat sourceIndex) (cells (this s)))
                 = (length (cells (this s)) - 1)%nat)
    by (rewrite length_delete; eauto).
  destruct (moveCell_in_range destIndex sourceIndex s1 x) as [H3 H4].
  - lia.
  - rewrite H2. apply lookup_insert_at. lia.
  - rewrite H2, length_app, length_take; simpl. rewrite length_drop. lia.
  - split; [done|]. unfold cellsAfter in H4. rewrite H4, H2.
    rewrite delete_insert_at by lia. by apply insert_at_delete.
Qed.

(** C1 (amended). On a sequence of three cells [A, B, C], [moveCell] splices
    the cell out and splices it in at the index taken in the shorter
    sequence: [moveCell(0,2)] gives [B, C, A], [moveCell(2,0)] gives
    [C, A, B] and [moveCell(0,1)] gives [B, A, C]. For indices inside the
    sequence, [moveCell(src,dst)] followed by [moveCell(dst,src)] returns and
    gives the sequence back, whether or not [src] equals [dst]. *)
Theorem moveCell_three_cells (s : NbState) (A B C : slot) (sourceIndex destIndex : Z) :
  cells (this s) = [A; B; C] ->
  0 <= sourceIndex < 3 ->
  0 <= destIndex < 3 ->
  cellsAfter (moveCell 0 2) s = [B; C; A] /\
  cellsAfter (moveCell 2 0) s = [C; A; B] /\
  cellsAfter (moveCell 0 1) s = [B; A; C] /\
  fst ((moveCell sourceIndex destIndex ;; moveCell destIndex sourceIndex) s) = Ok tt /\
  cellsAfter (moveCell sourceIndex destIndex ;; moveCell destIndex sourceIndex) s
  = [A; B; C].
Proof.
  intros Hcs Hs Hd.
  assert (Hmove : forall i j, cellsAfter (moveCell i j) s
            = snd (Js.splice j 0 [Js.elem (fst (Js.splice i 1 [] [A; B; C])) 0]
                     (snd (Js.splice i 1 [] [A; B; C])))).
  { intros i j. unfold cellsAfter.
    destruct (moveCell_cells i j s) as [_ ->]. by rewrite Hcs. }
  rewrite !Hmove. repeat split; try (vm_compute; reflexivity).
  - apply moveCell_round_trip; rewrite Hcs; simpl; lia.
  - rewrite <- Hcs. apply moveCell_round_trip; rewrite Hcs; simpl; lia.
Qed.

Lemma moveCell_three_cells_witness :
  cellsAfter (moveCell 0 2) Sample.abc = [Some 1; Some 2; Some 0]%nat /\
  cellsAfter (moveCell 2 0) Sample.abc = [Some 2; Some 0; Some 1]%nat /\
  cellsAfter (moveCell 0 1) Sample.abc = [Some 1; Some 0; Some 2]%nat /\
  fst ((moveCell 0 2 ;; moveCell 2 0) Sample.abc) = Ok tt /\
  cellsAfter (moveCell 0 2 ;; moveCell 2 0) Sample.abc = [Some 0; Some 1; Some 2]%nat.
Proof.
  apply (moveCell_three_cells Sample.abc (Some 0%nat) (Some 1%nat) (Some 2%nat) 0 2);
    [reflexivity | lia | lia].
Defined.

(** C1 as stated fails: the sentence "moveCell(src,dst) followed by
    moveCell(dst,src) need not be the identity permutation unless src==dst"
    has no instance with a different result when both indices are inside
    the sequence; and when indices outside the sequence are admitted,
    [src == dst] does not make the round trip the identity: on [A, B, C],
    [moveCell(3,3)] twice gives [A, B, C, undefined]. *)
Lemma moveCell_round_trip_counterexample :
  ~ (exists (s : NbState) (sourceIndex destIndex : Z),
        0 <= sourceIndex < Z.of_nat (length (cells (this s))) /\
        0 <= destIndex < Z.of_nat (length (cells (this s))) /\
        sourceIndex <> destIndex /\
        cellsAfter (moveCell sourceIndex destIndex ;; moveCell destIndex sourceIndex) s
        <> cells (this s))
  /\ cellsAfter (moveCell 3 3 ;; moveCell 3 3) Sample.abc
     = [Some 0; Some 1; Some 2; None]%nat.
Proof.
  split.
  - intros (s & i & j & Hi & Hj & _ & Hne). apply Hne.
    by apply moveCell_round_trip.
  - vm_compute. reflexivity.
Qed.

(** ** Cells in the heap *)

Lemma set_heap_id (E : Env) : set_heap (heap E) E = E.
Proof. by destruct E. Qed.

Lemma invoke_ok (E : Env) (r : ref) (c : CellViewModel) (m : CellViewModel -> CellViewModel) :
  heap E !! r = Some c ->
  invoke (Some r) m E = (Ok tt, set_heap (<[r := m c]> (heap E)) E).
Proof. intros H. unfold invoke, deref, bind, modify. by rewrite H. Qed.

Lemma invoke_undefined (E : Env) (m : CellViewModel -> CellViewModel) :
  invoke None m E = (Throw TypeError, E).
Proof. done. Qed.

Lemma all_cells_insert (h : list CellViewModel) (cs : list slot) (r : ref) (c : CellViewModel) :
  all_cells h cs -> all_cells (<[r := c]> h) cs.
Proof.
  unfold all_cells. intros H. eapply Forall_impl; [exact H|]. simpl.
  intros x (r' & c' & -> & Hc').
  exists r'. destruct (decide (r = r')) as [->|Hne].
  - exists c. split; [done|]. apply list_lookup_insert_eq. by eapply lookup_lt_Some.
  - exists c'. split; [done|]. by rewrite list_lookup_insert_ne.
Qed.

(** A method that leaves the cell as it is, called on every cell. *)
Lemma forEach_invoke_id (E : Env) (cs : list slot) :
  all_cells (heap E) cs ->
  forEach (fun cell => invoke cell Cell.flushChanges) cs E = (Ok tt, E).
Proof.
  induction 1 as [|x cs (r & c & -> & Hc) _ IH]; [done|].
  simpl. unfold bind at 1. rewrite (invoke_ok _ _ c) by done.
  unfold Cell.flushChanges. rewrite list_insert_id by done.
  by rewrite set_heap_id.
Qed.

Lemma flushChanges_ok (s : NbState) :
  all_cells (heap (env s)) (cells (this s)) ->
  flushChanges s
  = (Ok tt, {| this := this s
             ; env := set_trace (trace (env s)
                                 ++ [Raised (instanceId (this s)) onFlushChanges])
                        (env s) |}).
Proof.
  intros H. unfold flushChanges. run.
  by rewrite forEach_invoke_id.
Qed.

(** ** addCell *)

(** What [addCell] does up to its range check, and after it. *)
Lemma addCell_run (s : NbState) (cellViewModel : ref) (c : CellViewModel) (cellIndex : Z) :
  all_cells (heap (env s)) (cells (this s)) ->
  heap (env s) !! cellViewModel = Some c ->
  let nb := instanceId (this s) in
  let E1 :=
    set_trace (trace (env s) ++ [Raised nb onFlushChanges])
      (set_heap (<[cellViewModel := hooked nb c]> (heap (env s))) (env s)) in
  addCell cellViewModel cellIndex s
  = if cellIndex >? Z.of_nat (length (cells (this s)))
    then (Throw (BadIndex cellIndex (length (cells (this s)))),
          {| this := this s; env := E1 |})
    else
      notifyModified
        {| this := set_cells (snd (Js.splice cellIndex 0 [Some cellViewModel]
                                     (cells (this s)))) (this s)
         ; env := set_trace (trace E1 ++ [Raised nb onCellsChanged]) E1 |}.
Proof.
  intros Hall Hc nb E1. unfold addCell, hookCellEvents.
  unfold bind at 1. unfold getThis at 1, gets at 1.
  unfold bind at 1. unfold liftEnv at 1.
  rewrite (invoke_ok _ _ c) by done. fold nb (hooked nb c).
  unfold bind at 1. rewrite flushChanges_ok
    by (simpl; by apply all_cells_insert).
  simpl. run. fold nb. by destruct (cellIndex >? _).
Qed.

(** Beyond the end of the array [addCell] throws; the notebook is as before,
    and the rejected cell has been hooked. *)
Lemma addCell_beyond_range (s : NbState) (cellViewModel : ref) (c : CellViewModel)
  (cellIndex : Z) :
  all_cells (heap (env s)) (cells (this s)) ->
  heap (env s) !! cellViewModel = Some c ->
  Z.of_nat (length (cells (this s))) < cellIndex ->
  fst (addCell cellViewModel cellIndex s)
  = Throw (BadIndex cellIndex (length (cells (this s)))) /\
  this (snd (addCell cellViewModel cellIndex s)) = this s /\
  heap (env (snd (addCell cellViewModel cellIndex s))) !! cellViewModel
  = Some (hooked (instanceId (this s)) c).
Proof.
  intros Hall Hc Hi. rewrite (addCell_run s cellViewModel c) by done.
  destruct (Z.gtb_spec cellIndex (Z.of_nat (length (cells (this s))))); [|lia].
  simpl. repeat split. apply list_lookup_insert_eq. by eapply lookup_lt_Some.
Qed.

(** C2. For an index [0 <= i <= len], [addCell] returns, and the cells are
    then one more, with the new cell at position [i] and the others in
    their order: taking position [i] out gives the sequence before. *)
Theorem addCell_in_range (s : NbState) (cellViewModel : ref) (c : CellViewModel)
  (cellIndex : Z) :
  all_cells (heap (env s)) (cells (this s)) ->
  heap (env s) !! cellViewModel = Some c ->
  0 <= cellIndex <= Z.of_nat (length (cells (this s))) ->
  fst (addCell cellViewModel cellIndex s) = Ok tt /\
  length (cellsAfter (addCell cellViewModel cellIndex) s)
  = S (length (cells (this s))) /\
  cellsAfter (addCell cellViewModel cellIndex) s !! Z.to_nat cellIndex
  = Some (Some cellViewModel) /\
  delete (Z.to_nat cellIndex) (cellsAfter (addCell cellViewModel cellIndex) s)
  = cells (this s).
Proof.
  intros Hall Hc Hi. unfold cellsAfter.
  rewrite (addCell_run s cellViewModel c) by done.
  destruct (Z.gtb_spec cellIndex (Z.of_nat (length (cells (this s))))); [lia|].
  unfold notifyModified.
  match goal with |- context [setModified true ?s0] =>
    destruct (setModified_this true s0) as (-> & -> & _) end.
  simpl. rewrite splice_insert by done. simpl.
  assert (Hn : (Z.to_nat cellIndex <= length (cells (this s)))%nat) by lia.
  repeat split.
  - rewrite length_app, length_take. simpl. rewrite length_drop. lia.
  - by apply lookup_insert_at.
  - by apply delete_insert_at.
Qed.

Lemma addCell_in_range_witness :
  fst (addCell 3 1 Sample.abc) = Ok tt /\
  length (cellsAfter (addCell 3 1) Sample.abc) = 4%nat /\
  cellsAfter (addCell 3 1) Sample.abc !! 1%nat = Some (Some 3%nat) /\
  delete 1%nat (cellsAfter (addCell 3 1) Sample.abc) = [Some 0; Some 1; Some 2]%nat.
Proof.
  apply (addCell_in_range Sample.abc 3%nat (Sample.cell "D" Code) 1).
  - repeat constructor; eexists _, _; split; reflexivity.
  - reflexivity.
  - simpl. lia.
Defined.

(** C3 (the code at the failing inputs). [addCell(cell, 1)] on a notebook
    without cells throws the bad-index error and leaves the notebook as it
    was, but the rejected cell has by then been hooked: it carries the four
    handlers of the notebook, and the flush event has been raised. And
    [addCell(cell, -1)] on [A, B, C] is not rejected: it returns and puts the
    cell before C. *)
Theorem addCell_out_of_range_hooks_the_cell :
  fst (addCell 0 1 Sample.empty) = Throw (BadIndex 1 0) /\
  this (snd (addCell 0 1 Sample.empty)) = this Sample.empty /\
  heap (env Sample.empty) !! 0%nat = Some (Sample.cell "A" Code) /\
  heap (env (snd (addCell 0 1 Sample.empty))) !! 0%nat
  = Some (Cell.map_events
            (fun _ => [onEditorSelectionChanging_of 0%nat])
            (fun _ => [onEditorSelectionChanged_of 0%nat])
            (fun _ => [onCellModified_of 0%nat])
            (fun _ => [_onTextChanged_of 0%nat])
            (Sample.cell "A" Code)) /\
  trace (env (snd (addCell 0 1 Sample.empty))) = [Raised 0%nat onFlushChanges] /\
  fst (addCell 3 (-1) Sample.abc) = Ok tt /\
  cellsAfter (addCell 3 (-1)) Sample.abc = [Some 0; Some 1; Some 3; Some 2]%nat.
Proof. vm_compute. repeat split; reflexivity. Qed.

(** ** Selection *)

Lemma steady_refl (s : NbState) : steady s s.
Proof. done. Qed.

Lemma steady_trans (s1 s2 s3 : NbState) : steady s1 s2 -> steady s2 s3 -> steady s1 s3.
Proof. intros (?&?&?) (?&?&?). repeat split; congruence. Qed.

Lemma ids_is_Some (h h' : list CellViewModel) (r : ref) :
  cell_id <$> h' = cell_id <$> h -> is_Some (h !! r) -> is_Some (h' !! r).
Proof.
  intros Hids H. apply lookup_lt_is_Some. apply lookup_lt_is_Some in H.
  rewrite <- (length_fmap cell_id h'), Hids, length_fmap. done.
Qed.

Lemma ids_insert (h : list CellViewModel) (r : ref) (c c' : CellViewModel) :
  h !! r = Some c -> cell_id c' = cell_id c ->
  cell_id <$> <[r := c']> h = cell_id <$> h.
Proof.
  intros Hc Hid. rewrite list_fmap_insert, Hid.
  apply list_insert_id. by rewrite list_lookup_fmap, Hc.
Qed.

Lemma steady_selection_ok (s s' : NbState) :
  steady s s' -> selectedCell (this s') = selectedCell (this s) ->
  selection_ok s -> selection_ok s'.
Proof.
  intros (_ & _ & Hids) Hsel Hok r Hr. rewrite Hsel in Hr.
  eapply ids_is_Some; eauto.
Qed.

Lemma setModified_ok (v : bool) (s : NbState) :
  exists s', setModified v s = (Ok tt, s') /\ steady s s' /\
    selectedCell (this s') = selectedCell (this s).
Proof.
  unfold setModified. run.
  destruct (Bool.eqb (modified (this s)) v); eexists; split; try done.
Qed.

Lemma raise_ok (ev : NotebookEvent) (s : NbState) :
  exists s', raise ev s = (Ok tt, s') /\ steady s s' /\
    selectedCell (this s') = selectedCell (this s).
Proof. unfold raise. run. eexists; split; done. Qed.

Lemma deselect_ok (s : NbState) :
  selection_ok s ->
  exists s', deselect s = (Ok tt, s') /\ steady s s' /\ selectedCell (this s') = None.
Proof.
  intros Hok. unfold deselect, bind at 1, getThis, gets.
  destruct (selectedCell (this s)) as [r|] eqn:Hsel.
  - destruct (Hok r Hsel) as [c Hc].
    unfold bind, liftEnv. rewrite (invoke_ok _ _ c) by done.
    unfold setThis, modify. eexists; split; [done|]. split; [|done].
    repeat split; simpl. by apply (ids_insert _ _ c).
  - exists s. by destruct s.
Qed.

Lemma call_handler_ok (cell : ref) (b : bool) (h : Handler) (s : NbState) :
  selection_ok s -> is_Some (heap (env s) !! cell) ->
  exists s', call_handler cell b h s = (Ok tt, s') /\ steady s s' /\ selection_ok s'.
Proof.
  intros Hok Hcell. unfold call_handler, bind at 1, getThis, gets.
  assert (Hid : exists s', (Ok tt, s) = (Ok tt, s') /\ steady s s' /\ selection_ok s')
    by (exists s; done).
  destruct h as [nb|nb|nb|nb]; destruct (Nat.eqb nb _); try exact Hid.
  - unfold onEditorSelectionChanging. destruct b; [|exact Hid].
    destruct (deselect_ok s Hok) as (s' & -> & Hst & Hsel).
    exists s'. repeat split; try apply Hst. intros r Hr. congruence.
  - unfold onEditorSelectionChanged, bind at 1, getThis, gets.
    destruct (slot_eqb _ _); [exact Hid|].
    unfold bind at 1, setThis, modify.
    match goal with |- context [raise _ ?s0] =>
      destruct (raise_ok onSelectedCellChanged s0) as (s' & -> & Hst & Hsel) end.
    exists s'. split; [done|]. split.
    + eapply steady_trans; [|exact Hst]. done.
    + intros r Hr. rewrite Hsel in Hr. simpl in Hr. injection Hr as <-.
      destruct Hst as (_ & _ & Hids). simpl in Hids. eapply ids_is_Some; eauto.
  - unfold onCellModified, notifyModified.
    destruct (setModified_ok true s) as (s' & -> & Hst & Hsel).
    exists s'. repeat split; try apply Hst. by eapply steady_selection_ok.
  - unfold _onTextChanged.
    destruct (raise_ok (onTextChanged cell) s) as (s' & -> & Hst & Hsel).
    exists s'. repeat split; try apply Hst. by eapply steady_selection_ok.
Qed.

Lemma forEach_call_handler_ok (cell : ref) (b : bool) (hs : list Handler) (s : NbState) :
  selection_ok s -> is_Some (heap (env s) !! cell) ->
  exists s', forEach (call_handler cell b) hs s = (Ok tt, s') /\
    steady s s' /\ selection_ok s'.
Proof.
  revert s. induction hs as [|h hs IH]; intros s Hok Hcell.
  - exists s. done.
  - simpl. unfold bind.
    destruct (call_handler_ok cell b h s Hok Hcell) as (s1 & -> & Hst1 & Hok1).
    destruct (IH s1 Hok1) as (s2 & -> & Hst2 & Hok2).
    { destruct Hst1 as (_ & _ & Hids). eapply ids_is_Some; eauto. }
    exists s2. split; [done|]. split; [|done]. by eapply steady_trans.
Qed.

Lemma cell_select_ok (cell : ref) (s : NbState) :
  selection_ok s -> is_Some (heap (env s) !! cell) ->
  exists s', cell_select cell s = (Ok tt, s') /\ steady s s' /\ selection_ok s'.
Proof.
  destruct s as [nb E]. intros Hok [c Hc].
  unfold cell_select, bind at 1, liftEnv at 1, deref. simpl in Hc |- *.
  rewrite Hc.
  unfold bind at 1.
  destruct (forEach_call_handler_ok cell true (cell_onEditorSelectionChanging c)
              {| this := nb; env := E |})
    as (s1 & -> & Hst1 & Hok1); [done|by eexists|].
  assert (Hc1 : is_Some (heap (env s1) !! cell)).
  { destruct Hst1 as (_ & _ & Hids). eapply ids_is_Some; eauto. }
  destruct Hc1 as [c1 Hc1].
  unfold bind at 1, liftEnv at 1. rewrite (invoke_ok _ _ c1) by done.
  match goal with |- context [forEach _ _ ?s0] =>
    destruct (forEach_call_handler_ok cell true (cell_onEditorSelectionChanged c) s0)
      as (s2 & -> & Hst2 & Hok2) end.
  - intros r Hr. simpl in *. apply Hok1 in Hr.
    apply lookup_lt_is_Some. rewrite length_insert. by apply lookup_lt_is_Some.
  - simpl. apply lookup_lt_is_Some. rewrite length_insert.
    apply lookup_lt_is_Some. by eexists.
  - exists s2. split; [done|]. split; [|done].
    eapply steady_trans; [exact Hst1|]. eapply steady_trans; [|exact Hst2].
    repeat split; simpl. by apply (ids_insert _ _ c1).
Qed.

(** ** deleteCell *)

Lemma idIs_true (h : list CellViewModel) (cellId : string) (x : slot) :
  idIs h cellId x = true <-> slot_id h x = Some cellId.
Proof.
  unfold idIs. destruct (slot_id h x) as [i|]; [|done].
  rewrite String.eqb_eq. split; congruence.
Qed.

Lemma slot_id_ids (h h' : list CellViewModel) (x : slot) :
  cell_id <$> h' = cell_id <$> h -> slot_id h' x = slot_id h x.
Proof.
  intros H. destruct x as [r|]; [|done]. simpl.
  by rewrite <- !list_lookup_fmap, H.
Qed.

Lemma filterM_hasId (cellId : string) (E : Env) (cs : list slot) :
  all_cells (heap E) cs ->
  filterM (hasId cellId) cs E = (Ok (List.filter (idIs (heap E) cellId) cs), E).
Proof.
  induction 1 as [|x cs (r & c & -> & Hc) _ IH]; [done|].
  simpl. unfold bind at 1, hasId at 1, bind at 1, deref at 1. rewrite Hc.
  unfold ret at 1, bind at 1. rewrite IH. unfold ret.
  assert (Hx : idIs (heap E) cellId (Some r) = String.eqb (cell_id c) cellId)
    by (unfold idIs; simpl; by rewrite Hc).
  cbv beta iota. simpl List.filter. by rewrite Hx.
Qed.

Lemma filterM_hasNotId (cellId : string) (E : Env) (cs : list slot) :
  all_cells (heap E) cs ->
  filterM (hasNotId cellId) cs E
  = (Ok (List.filter (fun x => negb (idIs (heap E) cellId x)) cs), E).
Proof.
  induction 1 as [|x cs (r & c & -> & Hc) _ IH]; [done|].
  simpl. unfold bind at 1, hasNotId at 1, bind at 1, deref at 1. rewrite Hc.
  unfold ret at 1, bind at 1. rewrite IH. unfold ret.
  assert (Hx : idIs (heap E) cellId (Some r) = String.eqb (cell_id c) cellId)
    by (unfold idIs; simpl; by rewrite Hc).
  cbv beta iota. simpl List.filter. by rewrite Hx.
Qed.

Lemma all_cells_elem (h : list CellViewModel) (cs : list slot) (x : slot) :
  all_cells h cs -> x ∈ cs -> exists r c, x = Some r /\ h !! r = Some c.
Proof. intros Hall Hx. by apply (proj1 (Forall_forall _ _) Hall). Qed.

Lemma all_cells_ids (h h' : list CellViewModel) (cs : list slot) :
  cell_id <$> h' = cell_id <$> h -> all_cells h cs -> all_cells h' cs.
Proof.
  intros Hids Hall. eapply Forall_impl; [exact Hall|]. simpl.
  intros x (r & c & -> & Hc).
  destruct (ids_is_Some h h' r Hids) as [c' Hc']; [by eexists|].
  by exists r, c'.
Qed.

Lemma deleteCell_absent (s : NbState) (cell : ref) (c : CellViewModel) (selectNextCell : bool) :
  all_cells (heap (env s)) (cells (this s)) ->
  heap (env s) !! cell = Some c ->
  Some (cell_id c) ∉ slot_id (heap (env s)) <$> cells (this s) ->
  deleteCell cell selectNextCell s = (Throw TypeError, s).
Proof.
  destruct s as [nb E]. simpl. intros Hall Hc Habs.
  unfold deleteCell, getCells, deref. run. rewrite Hc.
  rewrite filterM_hasId by done. simpl.
  destruct (filter_head (idIs (heap E) (cell_id c)) (cells nb))
    as [[-> _]|(x & rest & _ & Hx & Hid)].
  - by rewrite elem_nil.
  - destruct Habs. apply idIs_true in Hid. rewrite <- Hid.
    apply list_elem_of_fmap. by exists x.
Qed.

Lemma deleteCell_present (s : NbState) (cell : ref) (c : CellViewModel) (selectNextCell : bool) :
  all_cells (heap (env s)) (cells (this s)) ->
  selection_ok s ->
  heap (env s) !! cell = Some c ->
  Some (cell_id c) ∈ slot_id (heap (env s)) <$> cells (this s) ->
  fst (deleteCell cell selectNextCell s) = Ok tt /\
  cellsAfter (deleteCell cell selectNextCell) s
  = List.filter (fun x => negb (idIs (heap (env s)) (cell_id c) x)) (cells (this s)).
Proof.
  destruct s as [nb E]. unfold cellsAfter. simpl. intros Hall Hok Hc Hin.
  unfold deleteCell, getCells, deref. run. rewrite Hc.
  rewrite filterM_hasId by done. simpl.
  destruct (filter_head (idIs (heap E) (cell_id c)) (cells nb))
    as [[_ Hnone]|(x & rest & -> & Hx & Hid)].
  { apply list_elem_of_fmap in Hin as (x & Hid & Hx).
    symmetry in Hid. apply idIs_true in Hid. rewrite Hnone in Hid; done. }
  destruct (all_cells_elem _ _ _ Hall Hx) as (r0 & c0 & -> & Hc0).
  rewrite elem_cons_0. unfold unhookCellEvents.
  rewrite (invoke_ok _ _ c0) by done. simpl.
  rewrite filterM_hasNotId by (simpl; by apply all_cells_insert). simpl.
  set (c0' := Cell.map_events _ _ _ _ c0).
  assert (Hids : cell_id <$> <[r0 := c0']> (heap E) = cell_id <$> heap E)
    by (by apply (ids_insert _ _ c0)).
  assert (Hfilter :
    List.filter (fun x => negb (idIs (<[r0 := c0']> (heap E)) (cell_id c) x)) (cells nb)
    = List.filter (fun x => negb (idIs (heap E) (cell_id c) x)) (cells nb)).
  { apply List.filter_ext. intros x. unfold idIs. by rewrite (slot_id_ids _ _ x Hids). }
  rewrite Hfilter. clear Hfilter.
  match goal with |- context [(if _ then _ else _) ?s2] => set (st := s2) end.
  assert (Hst_ok : selection_ok st).
  { intros r Hr. simpl in Hr. apply (ids_is_Some (heap E)); [done|]. by apply Hok. }
  assert (Hend : forall s3, steady st s3 ->
            fst (notifyModified s3) = Ok tt /\
            cells (this (snd (notifyModified s3))) = cells (this st)).
  { intros s3 Hst3. unfold notifyModified.
    destruct (setModified_ok true s3) as (s4 & -> & (Hst4 & _ & _) & _).
    simpl. split; [done|]. rewrite Hst4. apply Hst3. }
  destruct (selectNextCell && (_ >=? 0)); [|by apply Hend].
  unfold getCellByIndex, getCells. run.
  match goal with |- context [if ?b then _ else _] => destruct b end; simpl;
    [|by apply Hend].
  destruct (Js.elem _ _) as [r1|] eqn:Hr1; [|by apply Hend].
  apply elem_Some in Hr1. apply list_elem_of_In, List.filter_In in Hr1 as [Hr1 _].
  apply list_elem_of_In in Hr1.
  destruct (all_cells_elem _ _ _ Hall Hr1) as (r & c1 & [= <-] & Hc1).
  destruct (cell_select_ok r1 st Hst_ok) as (s3 & -> & Hst & _).
  { simpl. apply (ids_is_Some (heap E)); [done|by eexists]. }
  by apply Hend.
Qed.

(** C4 (amended). [deleteCell] of a cell whose id is present returns and
    removes every element that has this id, the others keeping their order:
    one element, at a position that holds a cell of that id, when the ids of
    the notebook are unique. [deleteCell] of a cell whose id is absent throws
    the TypeError of unhooking the [undefined] first match (there is no test
    for a missing cell, and no error of its own for it) and leaves the whole
    state, the cell sequence included, as it was. *)
Theorem deleteCell_by_id (s : NbState) (cell : ref) (c : CellViewModel)
  (selectNextCell : bool) :
  all_cells (heap (env s)) (cells (this s)) ->
  heap (env s) !! cell = Some c ->
  (Some (cell_id c) ∈ slot_id (heap (env s)) <$> cells (this s) ->
   selection_ok s ->
   fst (deleteCell cell selectNextCell s) = Ok tt /\
   cellsAfter (deleteCell cell selectNextCell) s
   = List.filter (fun x => negb (idIs (heap (env s)) (cell_id c) x)) (cells (this s)) /\
   (NoDup (slot_id (heap (env s)) <$> cells (this s)) ->
    exists (i : nat) (x : slot),
      cells (this s) !! i = Some x /\
      slot_id (heap (env s)) x = Some (cell_id c) /\
      cellsAfter (deleteCell cell selectNextCell) s = delete i (cells (this s)) /\
      S (length (cellsAfter (deleteCell cell selectNextCell) s))
      = length (cells (this s))))
  /\
  (Some (cell_id c) ∉ slot_id (heap (env s)) <$> cells (this s) ->
   deleteCell cell selectNextCell s = (Throw TypeError, s)).
Proof.
  intros Hall Hc. split; [|by apply deleteCell_absent].
  intros Hin Hok.
  destruct (deleteCell_present s cell c selectNextCell) as [-> ->]; try done.
  split; [done|]. split; [done|]. intros Hnodup.
  apply list_elem_of_lookup in Hin as [i Hi].
  rewrite list_lookup_fmap in Hi.
  destruct (cells (this s) !! i) as [x|] eqn:Hx; [|done].
  injection Hi as Hi. exists i, x. split; [done|]. split; [done|].
  assert (Hdel : List.filter (fun y => negb (idIs (heap (env s)) (cell_id c) y))
                   (cells (this s)) = delete i (cells (this s))).
  { apply (filter_delete_unique _ _ _ x); [done|by apply idIs_true|].
    intros j y Hj Hy. apply idIs_true in Hy.
    apply (NoDup_lookup _ j i (Some (cell_id c)) Hnodup);
      rewrite list_lookup_fmap; [by rewrite Hj, <- Hy|by rewrite Hx, <- Hi]. }
  rewrite Hdel. split; [done|].
  rewrite length_delete by eauto.
  apply lookup_lt_Some in Hx. lia.
Qed.

Lemma deleteCell_by_id_witness :
  (fst (deleteCell 1 true Sample.abc) = Ok tt /\
   cellsAfter (deleteCell 1 true) Sample.abc = [Some 0; Some 2]%nat /\
   exists (i : nat) (x : slot),
     [Some 0; Some 1; Some 2]%nat !! i = Some x /\
     slot_id (heap (env Sample.abc)) x = Some "B" /\
     cellsAfter (deleteCell 1 true) Sample.abc = delete i [Some 0; Some 1; Some 2]%nat /\
     S (length (cellsAfter (deleteCell 1 true) Sample.abc)) = 3%nat)
  /\ deleteCell 3 false Sample.abc = (Throw TypeError, Sample.abc).
Proof.
  assert (Hall : all_cells (heap (env Sample.abc)) (cells (this Sample.abc)))
    by (repeat constructor; eexists _, _; split; reflexivity).
  split.
  - destruct (proj1 (deleteCell_by_id Sample.abc 1%nat (Sample.cell "B" Markdown) true
                       Hall eq_refl)) as (H1 & H2 & H3).
    + apply (bool_decide_unpack _). vm_compute. exact I.
    + intros r Hr. discriminate Hr.
    + split; [exact H1|]. split; [exact H2|]. apply H3.
      apply (bool_decide_unpack _). vm_compute. exact I.
  - apply (proj2 (deleteCell_by_id Sample.abc 3%nat (Sample.cell "D" Code) false
                    Hall eq_refl)).
    apply (bool_decide_unpack _). vm_compute. exact I.
Defined.

(** The claim as worded does not hold of the code. The same cell added
    twice gives two elements with one id, and [deleteCell] removes both, not
    exactly one; and a cell that is not in the notebook makes [deleteCell]
    fail with the TypeError of a call on [undefined], the only error it can
    end in here, not with an error that says that the cell is missing. *)
Lemma deleteCell_counterexample :
  let twice := snd ((addCell 0 0 ;; addCell 0 1) Sample.empty) in
  cells (this twice) = [Some 0; Some 0]%nat /\
  Some "A" ∈ slot_id (heap (env twice)) <$> cells (this twice) /\
  fst (deleteCell 0 false twice) = Ok tt /\
  cellsAfter (deleteCell 0 false) twice = [] /\
  S (length (cellsAfter (deleteCell 0 false) twice)) <> length (cells (this twice)) /\
  (Some "D" ∉ slot_id (heap (env Sample.abc)) <$> cells (this Sample.abc)) /\
  fst (deleteCell 3 false Sample.abc) = Throw TypeError.
Proof.
  split; [reflexivity|]. split; [vm_compute; left|].
  split; [reflexivity|]. split; [reflexivity|]. split; [vm_compute; discriminate|].
  split; [|reflexivity].
  apply (bool_decide_unpack _). vm_compute. exact I.
Qed.

(** ** serialize and deserialize *)

Lemma mapM_serializeCell (E : Env) (cs : list slot) :
  all_cells (heap E) cs ->
  exists docs, mapM serializeCell cs E = (Ok docs, E) /\
    Some <$> docs = contents (heap E) cs /\
    Forall (fun sc => exists c, sc = Cell.serialize c) docs.
Proof.
  induction 1 as [|x cs (r & c & -> & Hc) _ (docs & IH & Hdocs & Hser)].
  - exists []. repeat split. constructor.
  - exists (Cell.serialize c :: docs). simpl.
    unfold bind at 1, serializeCell at 1, bind at 1, deref at 1. rewrite Hc.
    unfold ret at 1, bind at 1. rewrite IH. split; [done|]. split.
    + unfold contents in *. simpl. f_equal. exact Hdocs.
    + constructor; [by exists c|done].
Qed.

Lemma serialize_ok (s : NbState) :
  all_cells (heap (env s)) (cells (this s)) ->
  exists docs,
    Some <$> docs = contents (heap (env s)) (cells (this s)) /\
    Forall (fun sc => exists c, sc = Cell.serialize c) docs /\
    serialize s
    = (Ok {| Doc.version := notebookVersion
           ; Doc.nodejs := nodejsVersion (this s)
           ; Doc.language := Some (language (this s))
           ; Doc.description := description (this s)
           ; Doc.cells := Some (Some <$> docs)
           ; Doc.sheet := None |}, s).
Proof.
  intros Hall. destruct (mapM_serializeCell _ _ Hall) as (docs & Hm & Hdocs & Hser).
  exists docs. split; [done|]. split; [done|]. unfold serialize. run. rewrite Hm.
  by destruct s.
Qed.


Lemma set_heap_set_heap (h h' : list CellViewModel) (E : Env) :
  set_heap h (set_heap h' E) = set_heap h E.
Proof. done. Qed.

(** The factory allocates one cell per element, in order. *)
Lemma mapM_cellViewModelFactory (xs : list (option Doc.ISerializedCell1)) (E : Env) :
  well_typed xs ->
  exists new,
    Forall2 made_of xs new /\
    mapM cellViewModelFactory xs E
    = (Ok (seq (length (heap E)) (length new)), set_heap (heap E ++ new) E).
Proof.
  intros H. revert E.
  induction H as [|x xs (sc & t & -> & Ht) _ IH]; intros E.
  - exists []. split; [constructor|]. simpl. unfold ret.
    by rewrite app_nil_r, set_heap_id.
  - destruct (IH (set_heap (heap E ++ [Cell.deserialize t sc]) E))
      as (new & Hnew & Hm).
    exists (Cell.deserialize t sc :: new). split.
    { constructor; [by exists sc, t|done]. }
    assert (Hf : cellViewModelFactory (Some sc) E
                 = (Ok (length (heap E)),
                    set_heap (heap E ++ [Cell.deserialize t sc]) E))
      by (unfold cellViewModelFactory; rewrite Ht; by destruct t).
    cbn [mapM]. unfold bind at 1. rewrite Hf. unfold bind at 1. rewrite Hm.
    unfold ret. simpl. by rewrite length_app, Nat.add_1_r, <- app_assoc.
Qed.

(** The constructor hooks the cells just allocated. *)
Lemma forEach_hookCellEvents (nb : InstanceId) (new h : list CellViewModel) (E : Env) :
  forEach (hookCellEvents nb) (Some <$> seq (length h) (length new))
    (set_heap (h ++ new) E)
  = (Ok tt, set_heap (h ++ (hooked nb <$> new)) E).
Proof.
  revert h. induction new as [|c new IH]; intros h; [done|].
  simpl. unfold bind, hookCellEvents at 1.
  rewrite (invoke_ok _ _ c) by (simpl; by rewrite list_lookup_middle).
  simpl. rewrite set_heap_set_heap.
  replace (<[length h := _]> (h ++ c :: new)) with ((h ++ [hooked nb c]) ++ new).
  - replace (S (length h)) with (length (h ++ [hooked nb c]))
      by (rewrite length_app; simpl; lia).
    rewrite IH. by rewrite <- app_assoc.
  - rewrite <- app_assoc. simpl.
    rewrite insert_app_r_alt by lia. by rewrite Nat.sub_diag.
Qed.

Lemma deserializeCells_ok (xs : option (list (option Doc.ISerializedCell1))) (E : Env) :
  well_typed (default [] xs) ->
  exists new,
    Forall2 made_of (default [] xs) new /\
    deserializeCells xs E
    = (Ok (Some <$> seq (length (heap E)) (length new)), set_heap (heap E ++ new) E).
Proof.
  intros H. destruct xs as [xs|]; simpl in *.
  - destruct (mapM_cellViewModelFactory xs E H) as (new & Hnew & Hm).
    exists new. split; [done|]. unfold bind. by rewrite Hm.
  - exists []. split; [constructor|]. unfold ret. simpl.
    by rewrite app_nil_r, set_heap_id.
Qed.

Lemma new_NotebookViewModel_ok (sid : INotebookStorageId) (v : option string)
  (lang : string) (desc : option string) (u r : bool) (d : string)
  (new : list CellViewModel) (E : Env) :
  new_NotebookViewModel sid v lang (Some <$> seq (length (heap E)) (length new))
    desc u r d (set_heap (heap E ++ new) E)
  = (Ok {| storageId := sid; instanceId := nextInstanceId E
         ; nodejsVersion := v; language := lang; description := desc
         ; cells := Some <$> seq (length (heap E)) (length new)
         ; executing := false; selectedCell := None; modified := false
         ; defaultNodejsVersion := d; unsaved := u; readOnly := r |},
     set_heap (heap E ++ (hooked (nextInstanceId E) <$> new))
       (set_nextInstanceId (S (nextInstanceId E)) E)).
Proof.
  unfold new_NotebookViewModel, bind at 1, uuid. simpl.
  change (set_nextInstanceId (S (nextInstanceId E)) (set_heap (heap E ++ new) E))
    with (set_heap (heap E ++ new) (set_nextInstanceId (S (nextInstanceId E)) E)).
  unfold bind. by rewrite forEach_hookCellEvents.
Qed.

(** What [deserialize] builds of a document whose cells are well typed. *)
Lemma deserialize_ok (sid : INotebookStorageId) (u r : bool) (d : string)
  (input : Doc.ISerializedNotebook1) (E : Env) :
  well_typed (default [] (doc_cells input)) ->
  exists new,
    Forall2 made_of (default [] (doc_cells input)) new /\
    deserialize sid u r d input E
    = (Ok {| storageId := sid; instanceId := nextInstanceId E
           ; nodejsVersion := Doc.nodejs input
           ; language := Js.or_else (doc_language input) "javascript"
           ; description := Doc.description input
           ; cells := Some <$> seq (length (heap E)) (length new)
           ; executing := false; selectedCell := None; modified := false
           ; defaultNodejsVersion := d; unsaved := u; readOnly := r |},
       set_heap (heap E ++ (hooked (nextInstanceId E) <$> new))
         (set_nextInstanceId (S (nextInstanceId E)) E)).
Proof.
  intros H.
  destruct (deserializeCells_ok (doc_cells input) E H) as (new & Hnew & Hd).
  exists new. split; [done|].
  unfold deserialize, doc_language, doc_cells in *.
  destruct (Doc.sheet input) as [sheet|];
    unfold bind at 1; rewrite Hd; apply new_NotebookViewModel_ok.
Qed.

(** The cells just allocated, read through their references. *)
Lemma contents_fresh (h new : list CellViewModel) :
  contents (h ++ new) (Some <$> seq (length h) (length new))
  = (fun c => Some (Cell.serialize c)) <$> new.
Proof.
  revert h. induction new as [|c new IH]; intros h; [done|].
  unfold contents in *. simpl. rewrite list_lookup_middle by done. simpl. f_equal.
  specialize (IH (h ++ [c])). rewrite <- app_assoc in IH. simpl in IH.
  rewrite length_app, Nat.add_1_r in IH. exact IH.
Qed.

(** A cell rebuilt from what a cell serializes to, and hooked, serializes to
    the same. *)
Lemma serialize_restored (nb : InstanceId) (docs : list Doc.ISerializedCell1)
  (new : list CellViewModel) :
  Forall (fun sc => exists c, sc = Cell.serialize c) docs ->
  Forall2 made_of (Some <$> docs) new ->
  (fun c => Some (Cell.serialize c)) <$> (hooked nb <$> new) = Some <$> docs.
Proof.
  intros Hser. revert new.
  induction Hser as [|sc docs [c ->] _ IH]; intros new Hnew.
  - apply Forall2_nil_inv_l in Hnew as ->. done.
  - rewrite fmap_cons in Hnew.
    apply Forall2_cons_inv_l in Hnew as (c' & new' & Hc' & Hnew' & ->).
    destruct Hc' as (sc' & t & [= <-] & [= <-] & ->).
    rewrite !fmap_cons, IH by done. done.
Qed.

Lemma well_typed_serialized (docs : list Doc.ISerializedCell1) :
  Forall (fun sc => exists c, sc = Cell.serialize c) docs -> well_typed (Some <$> docs).
Proof.
  induction 1 as [|sc docs [c ->] _ IH]; constructor; [|done].
  by exists (Cell.serialize c), (cell_cellType c).
Qed.

(** C5 (amended). What [serialize] returns deserializes to a notebook with
    the same language when that is not empty (the empty language comes back
    as "javascript"), with the same Node.js version, or the default
    handed to [deserialize] when none is set, and with the same sequence of
    cells by id and content. *)
Theorem serialize_deserialize_round_trip (s : NbState) (sid : INotebookStorageId)
  (u r : bool) (d : string) :
  all_cells (heap (env s)) (cells (this s)) ->
  exists doc nb E',
    serialize s = (Ok doc, s) /\
    deserialize sid u r d doc (env s) = (Ok nb, E') /\
    language nb
    = (if String.eqb (language (this s)) "" then "javascript" else language (this s)) /\
    fst (getNodejsVersion {| this := nb; env := E' |})
    = Ok (Js.or_else (nodejsVersion (this s)) d) /\
    contents (heap E') (cells nb) = contents (heap (env s)) (cells (this s)).
Proof.
  intros Hall.
  destruct (serialize_ok s Hall) as (docs & Hdocs & Hser & Hs).
  match type of Hs with _ = (Ok ?doc, _) =>
    exists doc;
    destruct (deserialize_ok sid u r d doc (env s)) as (new & Hnew & Hd) end.
  { simpl. by apply well_typed_serialized. }
  rewrite Hd. eexists _, _. split; [done|]. split; [done|]. simpl.
  split; [by destruct (String.eqb _ _)|]. split; [done|].
  rewrite <- (length_fmap (hooked (nextInstanceId (env s))) new).
  rewrite contents_fresh, <- Hdocs. by apply serialize_restored.
Qed.

Lemma serialize_deserialize_round_trip_witness :
  exists doc nb E',
    serialize Sample.abc = (Ok doc, Sample.abc) /\
    deserialize Sample.file false false "v18" doc (env Sample.abc) = (Ok nb, E') /\
    language nb = "javascript" /\
    fst (getNodejsVersion {| this := nb; env := E' |}) = Ok "v18" /\
    contents (heap E') (cells nb)
    = contents (heap (env Sample.abc)) [Some 0; Some 1; Some 2]%nat.
Proof.
  apply (serialize_deserialize_round_trip Sample.abc Sample.file false false "v18").
  repeat constructor; eexists _, _; split; reflexivity.
Defined.

(** C5 as stated fails on the language: a notebook constructed with the
    empty string as its language serializes to a document that deserializes
    to a notebook whose language is "javascript". *)
Lemma round_trip_language_counterexample :
  exists doc nb E',
    serialize Sample.no_language = (Ok doc, Sample.no_language) /\
    deserialize Sample.untitled true false "v16" doc (env Sample.no_language)
    = (Ok nb, E') /\
    language (this Sample.no_language) = "" /\
    language nb = "javascript" /\
    language nb <> language (this Sample.no_language).
Proof.
  eexists _, _, _. split; [vm_compute; reflexivity|].
  split; [vm_compute; reflexivity|]. repeat split. discriminate.
Qed.

(** C6. A document, version 3 or version 2 with a sheet, whose cells are
    well typed deserializes without error; an absent or empty language
    gives "javascript", and an absent [cells] field, for which the typing
    condition holds trivially, gives the empty sequence of cells. *)
Theorem deserialize_defaults (sid : INotebookStorageId) (u r : bool) (d : string)
  (input : Doc.ISerializedNotebook1) (E : Env) :
  well_typed (default [] (doc_cells input)) ->
  exists nb E',
    deserialize sid u r d input E = (Ok nb, E') /\
    (doc_language input = None \/ doc_language input = Some "" ->
     language nb = "javascript") /\
    (doc_cells input = None -> cells nb = []).
Proof.
  intros H. destruct (deserialize_ok sid u r d input E H) as (new & Hnew & ->).
  eexists _, _. split; [done|]. simpl. split.
  - by intros [-> | ->].
  - intros Hc. rewrite Hc in Hnew. simpl in Hnew.
    by apply Forall2_nil_inv_l in Hnew as ->.
Qed.

Lemma deserialize_defaults_witness :
  (exists nb E',
     deserialize Sample.file false true "v16" Sample.doc_v2 (env Sample.empty)
     = (Ok nb, E') /\
     (doc_language Sample.doc_v2 = None \/ doc_language Sample.doc_v2 = Some "" ->
      language nb = "javascript") /\
     (doc_cells Sample.doc_v2 = None -> cells nb = []))
  /\
  (exists nb E',
     deserialize Sample.file false true "v16" Sample.doc_v3 (env Sample.empty)
     = (Ok nb, E') /\
     (doc_language Sample.doc_v3 = None \/ doc_language Sample.doc_v3 = Some "" ->
      language nb = "javascript") /\
     (doc_cells Sample.doc_v3 = None -> cells nb = [])).
Proof.
  split.
  - apply (deserialize_defaults Sample.file false true "v16" Sample.doc_v2
             (env Sample.empty)). simpl. constructor.
  - apply (deserialize_defaults Sample.file false true "v16" Sample.doc_v3
             (env Sample.empty)). simpl. constructor.
Defined.

(** ** save and saveAs *)

(** [_save]: the flush, the write, and then, when the write is not
    rejected, the reset of [modified]. *)
Lemma _save_run (notebookId : INotebookStorageId) (s : NbState) :
  all_cells (heap (env s)) (cells (this s)) ->
  exists doc,
    serialize s = (Ok doc, s) /\
    let E' :=
      set_trace (trace (env s)
                 ++ [Raised (instanceId (this s)) onFlushChanges]
                 ++ [WriteNotebook doc notebookId]) (env s) in
    _save notebookId s
    = match writeNotebook (notebookRepository (env s)) doc notebookId with
      | Some reason =>
          (Throw (StorageFailure reason), {| this := this s; env := E' |})
      | None => clearModified {| this := this s; env := E' |}
      end.
Proof.
  intros Hall. destruct (serialize_ok s Hall) as (docs & Hdocs & _ & Hs).
  eexists. split; [exact Hs|]. simpl.
  unfold _save, bind at 1. rewrite flushChanges_ok by done.
  match goal with |- _ ?s1 = _ =>
    destruct (serialize_ok s1) as (docs1 & Hdocs1 & _ & Hs1); [done|] end.
  simpl in Hdocs1. rewrite <- Hdocs in Hdocs1. apply (inj (fmap Some)) in Hdocs1 as ->.
  unfold bind at 1. rewrite Hs1. simpl.
  unfold bind at 1, liftEnv at 1, repository_writeNotebook. run.
  rewrite <- app_assoc.
  by destruct (writeNotebook _ _ _).
Qed.

Lemma saveAs_run (newNotebookId : INotebookStorageId) (s : NbState) :
  all_cells (heap (env s)) (cells (this s)) ->
  exists doc,
    serialize s = (Ok doc, s) /\
    match writeNotebook (notebookRepository (env s)) doc newNotebookId with
    | Some reason =>
        exists E', saveAs newNotebookId s
                   = (Throw (StorageFailure reason), {| this := this s; env := E' |})
    | None =>
        exists E', saveAs newNotebookId s
                   = (Ok tt,
                      {| this := set_readOnly false
                                   (set_storageId newNotebookId
                                      (set_unsaved false
                                         (set_modified false (this s))))
                       ; env := E' |})
    end.
Proof.
  intros Hall. destruct (serialize_ok s Hall) as (docs & Hdocs & _ & Hs0).
  eexists. split; [exact Hs0|].
  set (s1 := {| this := this s
              ; env := set_trace
                         (trace (env s)
                          ++ [LogInfo ("Saving notebook as: "
                                       +:+ displayName newNotebookId)])
                         (env s) |}).
  assert (Hstep : forall k : M NbState unit,
            (liftEnv (emit (LogInfo ("Saving notebook as: "
                                     +:+ displayName newNotebookId))) ;; k) s
            = k s1) by done.
  unfold saveAs. rewrite Hstep. clear Hstep.
  destruct (_save_run newNotebookId s1) as (doc & Hs & Hsave); [done|].
  destruct (serialize_ok s1) as (docs1 & Hdocs1 & _ & Hs1); [done|].
  simpl in Hdocs1. rewrite <- Hdocs in Hdocs1.
  apply (inj (fmap Some)) in Hdocs1 as ->.
  rewrite Hs1 in Hs. injection Hs as <-.
  simpl in Hsave.
  destruct (writeNotebook _ _ _) as [reason|].
  - eexists. unfold bind at 1. by rewrite Hsave.
  - unfold clearModified in Hsave.
    match type of Hsave with _ = setModified false ?s2 =>
      destruct (setModified_this false s2) as (H1 & H2 & _);
      destruct (setModified false s2) as [r' [nb' E']] end.
    simpl in H1, H2. subst r' nb'. eexists. unfold bind at 1. rewrite Hsave.
    run. done.
Qed.

(** C7 (amended). [save] on a read-only notebook throws the read-only error
    and changes nothing; on a notebook that is not read-only and has never
    been saved it throws the never-saved error; [saveAs], when the write of
    the serialized notebook is not rejected, returns with [unsaved] and
    [readOnly] false and with the new storage id. *)
Theorem save_guards_and_saveAs (s : NbState) (newNotebookId : INotebookStorageId) :
  (readOnly (this s) = true -> save s = (Throw ReadOnlyFile, s)) /\
  (readOnly (this s) = false -> unsaved (this s) = true ->
   fst (save s) = Throw NeverSaved /\ this (snd (save s)) = this s) /\
  (all_cells (heap (env s)) (cells (this s)) ->
   (forall doc, fst (serialize s) = Ok doc ->
      writeNotebook (notebookRepository (env s)) doc newNotebookId = None) ->
   fst (saveAs newNotebookId s) = Ok tt /\
   unsaved (this (snd (saveAs newNotebookId s))) = false /\
   readOnly (this (snd (saveAs newNotebookId s))) = false /\
   storageId (this (snd (saveAs newNotebookId s))) = newNotebookId).
Proof.
  split; [|split].
  - intros Hro. unfold save, isReadOnly. run. rewrite Hro. by destruct s.
  - intros Hro Hu. unfold save, isReadOnly, isUnsaved. run.
    by rewrite Hro, Hu.
  - intros Hall Hw.
    destruct (saveAs_run newNotebookId s Hall) as (doc & Hs & Hrun).
    rewrite Hw in Hrun by (by rewrite Hs).
    destruct Hrun as [E' ->]. done.
Qed.

Lemma save_guards_and_saveAs_witness :
  save Sample.readOnly_file = (Throw ReadOnlyFile, Sample.readOnly_file) /\
  (fst (save Sample.abc) = Throw NeverSaved /\
   this (snd (save Sample.abc)) = this Sample.abc) /\
  (fst (saveAs Sample.file Sample.readOnly_file) = Ok tt /\
   unsaved (this (snd (saveAs Sample.file Sample.readOnly_file))) = false /\
   readOnly (this (snd (saveAs Sample.file Sample.readOnly_file))) = false /\
   storageId (this (snd (saveAs Sample.file Sample.readOnly_file))) = Sample.file).
Proof.
  assert (Hall : all_cells (heap (env Sample.abc)) (cells (this Sample.abc)))
    by (repeat constructor; eexists _, _; split; reflexivity).
  pose proof (save_guards_and_saveAs Sample.readOnly_file Sample.file)
    as (H1 & _ & H3).
  pose proof (save_guards_and_saveAs Sample.abc Sample.file) as (_ & H2 & _).
  split; [exact (H1 eq_refl)|]. split; [exact (H2 eq_refl eq_refl)|].
  exact (H3 Hall (fun _ _ => eq_refl)).
Defined.

(** C7 as stated fails when both flags are set: on a notebook that has never
    been saved and is read-only, [save] throws the read-only error, not the
    never-saved one. *)
Lemma save_unsaved_readOnly_counterexample :
  unsaved (this Sample.unsaved_readOnly) = true /\
  readOnly (this Sample.unsaved_readOnly) = true /\
  fst (save Sample.unsaved_readOnly) = Throw ReadOnlyFile /\
  fst (save Sample.unsaved_readOnly) <> Throw NeverSaved.
Proof. vm_compute. repeat split; discriminate. Qed.

(** C10. When the write of the serialized notebook is rejected, [saveAs]
    throws the rejection and the notebook is as before: [unsaved],
    [readOnly] and [storageId] keep their values. *)
Theorem saveAs_is_atomic (s : NbState) (newNotebookId : INotebookStorageId)
  (reason : string) :
  all_cells (heap (env s)) (cells (this s)) ->
  (forall doc, fst (serialize s) = Ok doc ->
     writeNotebook (notebookRepository (env s)) doc newNotebookId = Some reason) ->
  fst (saveAs newNotebookId s) = Throw (StorageFailure reason) /\
  unsaved (this (snd (saveAs newNotebookId s))) = unsaved (this s) /\
  readOnly (this (snd (saveAs newNotebookId s))) = readOnly (this s) /\
  storageId (this (snd (saveAs newNotebookId s))) = storageId (this s) /\
  this (snd (saveAs newNotebookId s)) = this s.
Proof.
  intros Hall Hw.
  destruct (saveAs_run newNotebookId s Hall) as (doc & Hs & Hrun).
  rewrite Hw in Hrun by (by rewrite Hs).
  destruct Hrun as [E' ->]. done.
Qed.

Lemma saveAs_is_atomic_witness :
  fst (saveAs Sample.untitled Sample.readOnly_file_failing)
  = Throw (StorageFailure "disk full") /\
  unsaved (this (snd (saveAs Sample.untitled Sample.readOnly_file_failing))) = false /\
  readOnly (this (snd (saveAs Sample.untitled Sample.readOnly_file_failing))) = true /\
  storageId (this (snd (saveAs Sample.untitled Sample.readOnly_file_failing)))
  = Sample.file /\
  this (snd (saveAs Sample.untitled Sample.readOnly_file_failing))
  = this Sample.readOnly_file_failing.
Proof.
  apply (saveAs_is_atomic Sample.readOnly_file_failing Sample.untitled "disk full").
  - repeat constructor; eexists _, _; split; reflexivity.
  - intros doc _. reflexivity.
Defined.

(** ** Evaluation *)

(** Completion is propagated to every cell of the array. *)
Lemma forEach_notifyCodeEvalComplete (cs : list slot) (E : Env) :
  all_cells (heap E) cs ->
  exists h',
    forEach (fun cell => invoke cell Cell.notifyCodeEvalComplete) cs E
    = (Ok tt, set_heap h' E) /\
    forall r c, heap E !! r = Some c ->
      exists c', h' !! r = Some c' /\
        (cell_executing c = false \/ Some r ∈ cs -> cell_executing c' = false).
Proof.
  intros H. revert E H. induction cs as [|x cs IH]; intros E H.
  - exists (heap E). rewrite set_heap_id. split; [done|].
    intros r c Hc. exists c. split; [done|]. intros [?|Hin]; [done|].
    by apply elem_of_nil in Hin.
  - apply Forall_cons in H as [(r0 & c0 & -> & Hc0) H].
    set (E1 := set_heap (<[r0 := Cell.notifyCodeEvalComplete c0]> (heap E)) E).
    destruct (IH E1) as (h' & Hrun & Hh'); [by apply all_cells_insert|].
    exists h'. split.
    + simpl. unfold bind. rewrite (invoke_ok _ _ c0) by done.
      fold E1. by rewrite Hrun.
    + intros r c Hc. destruct (decide (r = r0)) as [->|Hne].
      * destruct (Hh' r0 (Cell.notifyCodeEvalComplete c0)) as (c' & Hc' & Hex).
        { simpl. apply list_lookup_insert_eq. by eapply lookup_lt_Some. }
        exists c'. split; [done|]. intros _. apply Hex. by left.
      * destruct (Hh' r c) as (c' & Hc' & Hex).
        { simpl. by rewrite list_lookup_insert_ne. }
        exists c'. split; [done|]. intros [Hf|Hin]; apply Hex; [by left|].
        apply elem_of_cons in Hin as [[=]|Hin]; [done|by right].
Qed.

Lemma notifyCodeEvalComplete_ok (s : NbState) :
  all_cells (heap (env s)) (cells (this s)) ->
  exists h',
    notifyCodeEvalComplete s
    = (Ok tt,
       {| this := set_executing false (this s)
        ; env := set_trace (trace (env s)
                            ++ [Raised (instanceId (this s)) onEvalCompleted])
                   (set_heap h' (env s)) |}) /\
    Forall (fun x : slot => exists r c, x = Some r /\ h' !! r = Some c /\
                                     cell_executing c = false) (cells (this s)).
Proof.
  intros Hall.
  destruct (forEach_notifyCodeEvalComplete _ _ Hall) as (h' & Hrun & Hh').
  exists h'. split.
  - unfold notifyCodeEvalComplete, getCells. run. by rewrite Hrun.
  - apply Forall_forall. intros x Hx.
    destruct (all_cells_elem _ _ _ Hall Hx) as (r & c & -> & Hc).
    destruct (Hh' r c Hc) as (c' & Hc' & Hex).
    exists r, c'. repeat split; [done|]. apply Hex. by right.
Qed.

Lemma checkCanEvaluateNotebook_ok (es : EdState) (nb : NotebookViewModel) :
  notebook es = Some nb -> working es <= 0 -> readOnly nb = false ->
  checkCanEvaluateNotebook es = (Ok true, es).
Proof.
  intros Hnb Hw Hro. unfold checkCanEvaluateNotebook, isWorking. run.
  destruct (Z.gtb_spec (working es) 0); [lia|]. simpl.
  by rewrite Hnb, Hro.
Qed.

(** The three commands start with the same checks and the same stop of an
    evaluation in progress. *)
Ltac stop_and_complete Hnb Hw Hro Hex :=
  unfold bind at 1;
  rewrite (checkCanEvaluateNotebook_ok _ _ Hnb Hw Hro); simpl;
  unfold bind at 1, gets; rewrite Hnb, Hex;
  unfold bind, liftEd, emit, modify, onEvaluationFinished, onNotebook; simpl;
  rewrite Hnb;
  match goal with |- context [notifyCodeEvalComplete ?s0] =>
    let h' := fresh "h'" in
    let Hcells := fresh "Hcells" in
    destruct (notifyCodeEvalComplete_ok s0) as (h' & -> & Hcells); [done|];
    simpl in *; split; [done|]; split;
    [eexists; repeat split; done | by rewrite <- app_assoc]
  end.

(** C8 (amended). With a notebook open that is not read-only and is
    executing, and the editor not busy, each of the three evaluation
    commands tells the engine to stop and notifies the completion, so that
    the notebook is not executing any more; it dispatches no evaluation. *)
Theorem evaluate_stops_running_evaluation (es : EdState) (nb : NotebookViewModel)
  (cell : slot) :
  notebook es = Some nb -> working es <= 0 -> readOnly nb = false ->
  executing nb = true ->
  all_cells (heap (ed_env es)) (cells nb) ->
  stopped_and_completed nb es (evaluateNotebook es) /\
  stopped_and_completed nb es (evaluateToCell cell es) /\
  stopped_and_completed nb es (evaluateSingleCell cell es).
Proof.
  intros Hnb Hw Hro Hex Hall. split; [|split].
  - unfold evaluateNotebook. stop_and_complete Hnb Hw Hro Hex.
  - unfold evaluateToCell. stop_and_complete Hnb Hw Hro Hex.
  - unfold evaluateSingleCell. stop_and_complete Hnb Hw Hro Hex.
Qed.

Lemma evaluate_stops_running_evaluation_witness :
  stopped_and_completed (set_executing true (set_unsaved false (this Sample.abc)))
    Sample.editor_executing (evaluateNotebook Sample.editor_executing) /\
  stopped_and_completed (set_executing true (set_unsaved false (this Sample.abc)))
    Sample.editor_executing (evaluateToCell (Some 2%nat) Sample.editor_executing) /\
  stopped_and_completed (set_executing true (set_unsaved false (this Sample.abc)))
    Sample.editor_executing (evaluateSingleCell (Some 0%nat) Sample.editor_executing).
Proof.
  assert (H := fun cell =>
    evaluate_stops_running_evaluation Sample.editor_executing
      (set_executing true (set_unsaved false (this Sample.abc))) cell
      eq_refl ltac:(simpl; lia) eq_refl eq_refl
      ltac:(repeat constructor; eexists _, _; split; reflexivity)).
  split; [exact (proj1 (H (Some 2%nat)))|].
  split; [exact (proj1 (proj2 (H (Some 2%nat))))|exact (proj2 (proj2 (H (Some 0%nat))))].
Defined.

(** C8 as stated fails when the editor is busy: with the same notebook open
    and executing, [evaluateNotebook] only warns that the editor is already
    working; nothing is sent to the engine and the notebook stays
    executing. *)
Lemma evaluate_while_busy_counterexample :
  (exists nb, notebook Sample.editor_busy = Some nb /\
     readOnly nb = false /\ executing nb = true) /\
  evaluateNotebook Sample.editor_busy
  = (Ok tt,
     {| notebook := notebook Sample.editor_busy
      ; working := 1
      ; ed_env := set_trace [NotificationWarn "Already working!"]
                    (ed_env Sample.editor_busy) |}) /\
  ~ stopped_and_completed (set_executing true (set_unsaved false (this Sample.abc)))
      Sample.editor_busy (evaluateNotebook Sample.editor_busy).
Proof.
  split; [by eexists|]. split; [vm_compute; reflexivity|].
  intros (_ & _ & Htrace). vm_compute in Htrace. discriminate Htrace.
Qed.

(** ** reportError *)

Lemma findCellIndex_from_ok (cellId : string) (pre rest : list slot) (E : Env) :
  all_cells (heap E) rest ->
  exists oi,
    findCellIndex_from cellId rest (Z.of_nat (length pre)) E = (Ok oi, E) /\
    match oi with
    | Some i => Js.elem (pre ++ rest) i = first_cell (heap E) (is_id cellId) rest
    | None => first_cell (heap E) (is_id cellId) rest = None
    end.
Proof.
  intros H. revert pre.
  induction H as [|x rest (r & c & -> & Hc) _ IH]; intros pre.
  - by exists None.
  - simpl. unfold bind, deref. rewrite Hc. unfold is_id at 1 3.
    destruct (String.eqb (cell_id c) cellId).
    + exists (Some (Z.of_nat (length pre))). split; [done|]. apply elem_middle.
    + destruct (IH (pre ++ [Some r])) as (oi & Hrun & Hoi).
      rewrite length_app, Nat2Z.inj_add in Hrun. simpl in Hrun.
      exists oi. split; [done|]. by rewrite <- app_assoc in Hoi.
Qed.

Lemma findCell_ok (cellId : string) (s : NbState) :
  all_cells (heap (env s)) (cells (this s)) ->
  findCell cellId s
  = (Ok (first_cell (heap (env s)) (is_id cellId) (cells (this s))), s).
Proof.
  intros Hall.
  destruct (findCellIndex_from_ok cellId [] _ _ Hall) as (oi & Hrun & Hoi).
  change (Z.of_nat (length (@nil (option nat)))) with 0 in Hrun.
  unfold findCell, findCellIndex. run. rewrite Hrun.
  destruct s as [nb E]. destruct oi as [i|]; simpl in *; by rewrite Hoi.
Qed.

Lemma addErrorToFirstCodeCell_ok (error : string) (cs : list slot) (E : Env) :
  all_cells (heap E) cs ->
  match first_cell (heap E) is_code cs with
  | Some r =>
      exists c, heap E !! r = Some c /\ cell_cellType c = Code /\
        addErrorToFirstCodeCell error cs E
        = (Ok true, set_heap (<[r := Cell.addError error c]> (heap E)) E)
  | None => addErrorToFirstCodeCell error cs E = (Ok false, E)
  end.
Proof.
  induction 1 as [|x cs (r & c & -> & Hc) _ IH]; [done|].
  assert (Hstep : addErrorToFirstCodeCell error (Some r :: cs) E
                  = if is_code c
                    then (Ok true, set_heap (<[r := Cell.addError error c]> (heap E)) E)
                    else addErrorToFirstCodeCell error cs E).
  { simpl. unfold bind at 1, deref. rewrite Hc. unfold is_code.
    destruct (CellType_eqb _ _); [|done].
    unfold bind. by rewrite (invoke_ok _ _ c). }
  rewrite Hstep. simpl first_cell. rewrite Hc.
  destruct (is_code c) eqn:Ht; [|exact IH].
  exists c. repeat split; [done|]. unfold is_code in Ht. by destruct (cell_cellType c).
Qed.

Lemma named_cell_lookup (cellId : option string) (error : string) (es : EdState)
  (nb : NotebookViewModel) :
  notebook es = Some nb ->
  all_cells (heap (ed_env es)) (cells nb) ->
  (if Js.truthy cellId
   then onNotebook (findCell (Js.to_string cellId))
   else ret None) es
  = (Ok (named_cell (heap (ed_env es)) (cells nb) cellId), es).
Proof.
  intros Hnb Hall. unfold named_cell. destruct (Js.truthy cellId); [|done].
  unfold onNotebook. rewrite Hnb, findCell_ok by done. simpl.
  destruct es; simpl in *. by subst.
Qed.

(** C9. A receive-error event whose cell id is given and found attaches the
    error to that cell; with no cell id, or one that no cell has, the error
    goes to the first code cell in document order; when the notebook has no
    code cell, the error is logged and no cell object changes. *)
Theorem reportError_routing (es : EdState) (nb : NotebookViewModel)
  (cellId : option string) (error : string) :
  notebook es = Some nb ->
  all_cells (heap (ed_env es)) (cells nb) ->
  let h := heap (ed_env es) in
  (forall r, named_cell h (cells nb) cellId = Some r ->
     exists c, h !! r = Some c /\
       receive_error cellId error es
       = (Ok tt, with_heap (<[r := Cell.addError error c]> h) es)) /\
  (forall r, named_cell h (cells nb) cellId = None ->
     first_cell h is_code (cells nb) = Some r ->
     exists c, h !! r = Some c /\ cell_cellType c = Code /\
       receive_error cellId error es
       = (Ok tt, with_heap (<[r := Cell.addError error c]> h) es)) /\
  (named_cell h (cells nb) cellId = None ->
   first_cell h is_code (cells nb) = None ->
   receive_error cellId error es
   = (Ok tt, with_effect
               (LogError ("receive-error: Failed to find cell "
                          +:+ Js.to_string cellId +:+ ", error = " +:+ error))
               es)).
Proof.
  intros Hnb Hall h. unfold receive_error, reportError.
  pose proof (named_cell_lookup cellId error es nb Hnb Hall) as Hnamed.
  fold h in Hnamed.
  assert (Hcells : onNotebook getCells es = (Ok (cells nb), es)).
  { unfold onNotebook. rewrite Hnb. simpl. destruct es; simpl in *. by subst. }
  pose proof (addErrorToFirstCodeCell_ok error (cells nb) (ed_env es) Hall) as Hfirst.
  fold h in Hfirst.
  split; [|split].
  - intros r Hr. unfold bind at 1. rewrite Hnamed, Hr.
    assert (Hin : Some r ∈ cells nb).
    { unfold named_cell in Hr. destruct (Js.truthy cellId); [|done].
      clear -Hr. induction (cells nb) as [|x cs IH]; [done|]. simpl in Hr.
      destruct x as [r'|]; [|right; auto].
      destruct (h !! r') as [c|]; [|right; auto].
      destruct (is_id _ c); [injection Hr as ->; left|right; auto]. }
    destruct (all_cells_elem _ _ _ Hall Hin) as (r' & c & [= <-] & Hc).
    exists c. split; [done|]. unfold liftEd. by rewrite (invoke_ok _ _ c).
  - intros r Hnone Hr. rewrite Hr in Hfirst.
    destruct Hfirst as (c & Hc & Ht & Hrun).
    exists c. split; [done|]. split; [done|].
    unfold bind at 1. rewrite Hnamed, Hnone.
    unfold bind at 1. rewrite Hcells.
    unfold bind, liftEd. by rewrite Hrun.
  - intros Hnone Hr. rewrite Hr in Hfirst.
    unfold bind at 1. rewrite Hnamed, Hnone.
    unfold bind at 1. rewrite Hcells.
    unfold bind, liftEd. by rewrite Hfirst.
Qed.

Lemma reportError_routing_witness :
  receive_error (Some "C") "boom" Sample.editor_executing
  = (Ok tt, with_heap (<[2%nat := Cell.addError "boom" (Sample.cell "C" Code)]>
                         (heap (env Sample.abc))) Sample.editor_executing) /\
  receive_error None "boom" Sample.editor_executing
  = (Ok tt, with_heap (<[0%nat := Cell.addError "boom" (Sample.cell "A" Code)]>
                         (heap (env Sample.abc))) Sample.editor_executing) /\
  receive_error (Some "Z") "boom" Sample.editor_markdown
  = (Ok tt, with_effect
              (LogError "receive-error: Failed to find cell Z, error = boom")
              Sample.editor_markdown).
Proof.
  assert (Hall : all_cells (heap (env Sample.abc)) (cells (this Sample.abc)))
    by (repeat constructor; eexists _, _; split; reflexivity).
  assert (Hmd : all_cells (heap (env Sample.abc)) [Some 1%nat])
    by (repeat constructor; eexists _, _; split; reflexivity).
  split; [|split].
  - destruct (proj1 (reportError_routing Sample.editor_executing _ (Some "C") "boom"
                       eq_refl Hall) 2%nat eq_refl) as (c & [= <-] & H).
    exact H.
  - destruct (proj1 (proj2 (reportError_routing Sample.editor_executing _ None "boom"
                       eq_refl Hall)) 0%nat eq_refl eq_refl) as (c & [= <-] & _ & H).
    exact H.
  - exact (proj2 (proj2 (reportError_routing Sample.editor_markdown _ (Some "Z") "boom"
                       eq_refl Hmd)) eq_refl eq_refl).
Defined.

(** ** The cases of the repository's notebook tests *)

(** "can add cell in the middle". *)
Example can_add_cell_in_the_middle :
  cellsAfter (addCell 0 0 ;; addCell 1 1 ;; addCell 2 1) Sample.fresh
  = [Some 0; Some 2; Some 1]%nat.
Proof. vm_compute. reflexivity. Qed.

(** "can add second cell at start". *)
Example can_add_second_cell_at_start :
  cellsAfter (addCell 0 0 ;; addCell 1 0) Sample.fresh = [Some 1; Some 0]%nat.
Proof. vm_compute. reflexivity. Qed.

(** "throws when adding a cell beyond the range". *)
Example throws_when_adding_beyond_the_range :
  fst (addCell 0 1 Sample.fresh) = Throw (BadIndex 1 0).
Proof. vm_compute. reflexivity. Qed.

(** "can delete cell". *)
Example can_delete_cell :
  cellsAfter (addCell 0 0 ;; addCell 1 1 ;; addCell 2 2 ;; deleteCell 1 false)
    Sample.fresh
  = [Some 0; Some 2]%nat.
Proof. vm_compute. reflexivity. Qed.

(** "throws when deleting a cell that doesn't exist". *)
Example throws_when_deleting_a_missing_cell :
  fst (deleteCell 0 false Sample.fresh) = Throw TypeError.
Proof. vm_compute. reflexivity. Qed.

(** "can move cell to end", "to start" and "to middle". *)
Example can_move_cell :
  cellsAfter (moveCell 0 2) Sample.abc = [Some 1; Some 2; Some 0]%nat /\
  cellsAfter (moveCell 2 0) Sample.abc = [Some 2; Some 0; Some 1]%nat /\
  cellsAfter (moveCell 0 1) Sample.abc = [Some 1; Some 0; Some 2]%nat.
Proof. vm_compute. repeat split; reflexivity. Qed.

(** "can find cell by id" and "returns undefined when finding a cell that
    doesn't exist". *)
Example can_find_cell_by_id :
  fst (findCell "B" Sample.abc) = Ok (Some 1%nat) /\
  fst (findCell "non-existing-cell" Sample.abc) = Ok None.
Proof. vm_compute. split; reflexivity. Qed.

(** "can deserialize with sheet and undefined cells". *)
Example can_deserialize_with_sheet :
  exists nb E,
    deserialize Sample.file false false "v16" Sample.doc_v2 (env Sample.fresh)
    = (Ok nb, E) /\
    language nb = "javascript" /\ cells nb = [] /\
    fst (getNodejsVersion {| this := nb; env := E |}) = Ok "v10.0.0".
Proof. eexists _, _. vm_compute. repeat split; reflexivity. Qed.

(** * Further properties *)

(** ** More on arrays *)

Transparent Js.elem Js.indexOf.

Lemma elem_lookup {T : Type} (a : list (option T)) (k : nat) (x : option T) :
  a !! k = Some x -> Js.elem a (Z.of_nat k) = x.
Proof.
  intros H. unfold Js.elem, Js.at_index.
  destruct (Z.ltb_spec (Z.of_nat k) 0); [lia|]. by rewrite Nat2Z.id, H.
Qed.

Lemma elem_out_of_range {T : Type} (a : list (option T)) (i : Z) :
  i < 0 \/ Z.of_nat (length a) <= i -> Js.elem a i = None.
Proof.
  intros H. unfold Js.elem, Js.at_index.
  destruct (Z.ltb_spec i 0); [done|].
  rewrite lookup_ge_None_2; [done|lia].
Qed.

Lemma slot_eqb_eq (x y : slot) : slot_eqb x y = true <-> x = y.
Proof.
  destruct x as [a|], y as [b|]; simpl; try (split; congruence).
  rewrite Nat.eqb_eq. split; congruence.
Qed.

(** [indexOf] gives the first position of the element, or [-1]. *)
Lemma indexOf_from_spec (x : slot) (a : list slot) (i : Z) :
  ((x ∉ a) /\ Js.indexOf_from slot_eqb x a i = -1) \/
  (exists k : nat, Js.indexOf_from slot_eqb x a i = i + Z.of_nat k /\
     a !! k = Some x /\ forall j, (j < k)%nat -> a !! j <> Some x).
Proof.
  revert i. induction a as [|y a IH]; intros i; simpl.
  - left. split; [|done]. apply not_elem_of_nil.
  - destruct (slot_eqb y x) eqn:Hy.
    + apply slot_eqb_eq in Hy as ->. right. exists 0%nat.
      split; [lia|]. split; [done|]. intros j Hj. lia.
    + assert (Hne : y <> x) by (intros ->; by rewrite (proj2 (slot_eqb_eq x x)) in Hy).
      destruct (IH (i + 1)) as [[Hnot ->]|(k & -> & Hk & Hmin)].
      * left. split; [|done]. apply not_elem_of_cons. split; [congruence|done].
      * right. exists (S k). split; [lia|]. split; [done|].
        intros [|j] Hj; simpl; [congruence|]. apply Hmin. lia.
Qed.

Lemma indexOf_spec (x : slot) (a : list slot) :
  ((x ∉ a) /\ Js.indexOf slot_eqb x a = -1) \/
  (exists k : nat, Js.indexOf slot_eqb x a = Z.of_nat k /\
     a !! k = Some x /\ forall j, (j < k)%nat -> a !! j <> Some x).
Proof.
  unfold Js.indexOf. destruct (indexOf_from_spec x a 0) as [H|(k & H & ?)]; [by left|].
  right. exists k. by rewrite H.
Qed.

Opaque Js.elem Js.indexOf.

(** ** Finding cells *)

(** The loop of [findCellIndex] stops at the first cell of the id. *)
Lemma findCellIndex_from_index (cellId : string) (rest : list slot) (i : Z) (E : Env) :
  all_cells (heap E) rest ->
  ((forall x, x ∈ rest -> idIs (heap E) cellId x = false) /\
   findCellIndex_from cellId rest i E = (Ok None, E)) \/
  (exists (k : nat) (x : slot),
     findCellIndex_from cellId rest i E = (Ok (Some (i + Z.of_nat k)), E) /\
     rest !! k = Some x /\ idIs (heap E) cellId x = true /\
     forall j y, (j < k)%nat -> rest !! j = Some y -> idIs (heap E) cellId y = false).
Proof.
  intros H. revert i. induction H as [|x rest (r & c & -> & Hc) _ IH]; intros i.
  - left. split; [|done]. intros x Hx. by apply elem_of_nil in Hx.
  - assert (Hx : idIs (heap E) cellId (Some r) = String.eqb (cell_id c) cellId)
      by (unfold idIs; simpl; by rewrite Hc).
    simpl. unfold bind, deref. rewrite Hc.
    destruct (String.eqb (cell_id c) cellId) eqn:Heq.
    + right. exists 0%nat, (Some r). rewrite Z.add_0_r. repeat split; try done.
      intros j y Hj. lia.
    + destruct (IH (i + 1)) as [[Hnone ->]|(k & y & -> & Hk & Hy & Hmin)].
      * left. split; [|done]. intros y Hy.
        apply elem_of_cons in Hy as [->|Hy]; [done|auto].
      * right. exists (S k), y. split; [f_equal; f_equal; f_equal; lia|].
        split; [done|]. split; [done|].
        intros [|j] z Hj Hz; simpl in Hz; [by injection Hz as <-|].
        apply (Hmin j); [lia|done].
Qed.

Lemma findCellIndex_index (cellId : string) (s : NbState) :
  all_cells (heap (env s)) (cells (this s)) ->
  ((forall x, x ∈ cells (this s) -> idIs (heap (env s)) cellId x = false) /\
   findCellIndex cellId s = (Ok None, s)) \/
  (exists (k : nat) (x : slot),
     findCellIndex cellId s = (Ok (Some (Z.of_nat k)), s) /\
     cells (this s) !! k = Some x /\ idIs (heap (env s)) cellId x = true /\
     forall j y, (j < k)%nat -> cells (this s) !! j = Some y ->
       idIs (heap (env s)) cellId y = false).
Proof.
  intros Hall. unfold findCellIndex. run.
  destruct (findCellIndex_from_index cellId _ 0 _ Hall)
    as [[Hnone ->]|(k & x & -> & Hk & Hx & Hmin)]; destruct s; simpl in *.
  - by left.
  - right. by exists k, x.
Qed.

Lemma findCellIndex_absent (cellId : string) (s : NbState) :
  all_cells (heap (env s)) (cells (this s)) ->
  no_match (heap (env s)) cellId (cells (this s)) ->
  findCellIndex cellId s = (Ok None, s).
Proof.
  intros Hall Hno.
  destruct (findCellIndex_index cellId s Hall) as [[_ H]|(k & x & _ & Hk & Hx & _)];
    [done|].
  rewrite Hno in Hx; [done|]. by eapply list_elem_of_lookup_2.
Qed.

Lemma findCellIndex_at (cellId : string) (s : NbState) (k : nat) :
  all_cells (heap (env s)) (cells (this s)) ->
  first_match (heap (env s)) cellId (cells (this s)) k ->
  findCellIndex cellId s = (Ok (Some (Z.of_nat k)), s).
Proof.
  intros Hall [(x & Hk & Hx) Hmin].
  destruct (findCellIndex_index cellId s Hall)
    as [[Hno _]|(k' & x' & -> & Hk' & Hx' & Hmin')].
  - rewrite Hno in Hx; [done|]. by eapply list_elem_of_lookup_2.
  - destruct (Nat.lt_trichotomy k' k) as [Hlt|[->|Hlt]]; [|done|].
    + by rewrite (Hmin k' x' Hlt Hk') in Hx'.
    + by rewrite (Hmin' k x Hlt Hk) in Hx.
Qed.

(** X1. [findCell] returns the first cell of the array that has the id, and
    [undefined] when no cell has it; it changes nothing. *)
Theorem findCell_first_match (cellId : string) (s : NbState) :
  all_cells (heap (env s)) (cells (this s)) ->
  (no_match (heap (env s)) cellId (cells (this s)) ->
   findCell cellId s = (Ok None, s)) /\
  (forall k, first_match (heap (env s)) cellId (cells (this s)) k ->
   findCell cellId s = (Ok (cell_at (cells (this s)) k), s) /\
   is_Some (cell_at (cells (this s)) k)).
Proof.
  intros Hall. split.
  - intros Hno. unfold findCell, bind. by rewrite findCellIndex_absent.
  - intros k Hk. unfold findCell, bind at 1. rewrite (findCellIndex_at _ _ k) by done.
    destruct Hk as [(x & Hx & _) _]. run. unfold cell_at. rewrite Hx.
    rewrite (elem_lookup _ _ x Hx). split; [by destruct s|].
    destruct (all_cells_elem _ _ x Hall) as (r & c & -> & _); [|done].
    by eapply list_elem_of_lookup_2.
Qed.

(** X2. [findNextCell] and [findPrevCell] return the neighbours of the first
    cell that has the id: [undefined] after the last cell, before the first
    one, and when no cell has the id. *)
Theorem find_neighbours (cellId : string) (s : NbState) :
  all_cells (heap (env s)) (cells (this s)) ->
  (no_match (heap (env s)) cellId (cells (this s)) ->
   findNextCell cellId s = (Ok None, s) /\ findPrevCell cellId s = (Ok None, s)) /\
  (forall k, first_match (heap (env s)) cellId (cells (this s)) k ->
   findNextCell cellId s = (Ok (cell_at (cells (this s)) (S k)), s) /\
   findPrevCell cellId s
   = (Ok (match k with
          | O => None
          | S k' => cell_at (cells (this s)) k'
          end), s)).
Proof.
  intros Hall. split.
  - intros Hno. unfold findNextCell, findPrevCell, bind.
    by rewrite findCellIndex_absent.
  - intros k Hk. unfold findNextCell, findPrevCell, bind at 1 3.
    rewrite (findCellIndex_at _ _ k) by done.
    destruct Hk as [(x & Hx & _) _]. pose proof (lookup_lt_Some _ _ _ Hx) as Hlt.
    run. split.
    + unfold cell_at.
      destruct (Z.ltb_spec (Z.of_nat k + 1) (Z.of_nat (length (cells (this s))))).
      * destruct (lookup_lt_is_Some_2 (cells (this s)) (S k)) as [y Hy]; [lia|].
        rewrite Hy. replace (Z.of_nat k + 1) with (Z.of_nat (S k)) by lia.
        rewrite (elem_lookup _ _ y Hy). by destruct s.
      * rewrite lookup_ge_None_2 by lia. by destruct s.
    + destruct k as [|k'].
      * simpl. by destruct s.
      * destruct (Z.geb_spec (Z.of_nat (S k') - 1) 0); [|lia].
        unfold cell_at.
        destruct (lookup_lt_is_Some_2 (cells (this s)) k') as [y Hy]; [lia|].
        rewrite Hy. replace (Z.of_nat (S k') - 1) with (Z.of_nat k') by lia.
        rewrite (elem_lookup _ _ y Hy). by destruct s.
Qed.

Lemma find_witness_facts :
  all_cells (heap (env Sample.abc)) (cells (this Sample.abc)) /\
  first_match (heap (env Sample.abc)) "B" (cells (this Sample.abc)) 1 /\
  first_match (heap (env Sample.abc)) "A" (cells (this Sample.abc)) 0 /\
  first_match (heap (env Sample.abc)) "C" (cells (this Sample.abc)) 2 /\
  no_match (heap (env Sample.abc)) "Z" (cells (this Sample.abc)).
Proof.
  split; [repeat constructor; eexists _, _; split; reflexivity|].
  assert (Hcases : forall P : slot -> Prop,
            P (Some 0%nat) -> P (Some 1%nat) -> P (Some 2%nat) ->
            forall x, x ∈ cells (this Sample.abc) -> P x).
  { intros P H0 H1 H2 x Hx. simpl in Hx.
    repeat (apply elem_of_cons in Hx as [->|Hx]; [done|]).
    by apply elem_of_nil in Hx. }
  repeat split.
  - by exists (Some 1%nat).
  - intros [|[|j]] y Hj Hy; [|lia|lia]. by injection Hy as <-.
  - by exists (Some 0%nat).
  - intros j y Hj. lia.
  - by exists (Some 2%nat).
  - intros [|[|[|j]]] y Hj Hy; [| |lia|lia]; by injection Hy as <-.
  - unfold no_match.
    apply (Hcases (fun x => idIs (heap (env Sample.abc)) "Z" x = false)); reflexivity.
Qed.

Lemma findCell_first_match_witness :
  findCell "Z" Sample.abc = (Ok None, Sample.abc) /\
  findCell "B" Sample.abc = (Ok (Some 1%nat), Sample.abc).
Proof.
  destruct find_witness_facts as (Hall & HB & _ & _ & HZ).
  destruct (findCell_first_match "Z" Sample.abc Hall) as [H1 _].
  destruct (findCell_first_match "B" Sample.abc Hall) as [_ H2].
  split; [exact (H1 HZ)|exact (proj1 (H2 1%nat HB))].
Defined.

Lemma find_neighbours_witness :
  findNextCell "C" Sample.abc = (Ok None, Sample.abc) /\
  findPrevCell "A" Sample.abc = (Ok None, Sample.abc) /\
  findNextCell "A" Sample.abc = (Ok (Some 1%nat), Sample.abc) /\
  findPrevCell "C" Sample.abc = (Ok (Some 1%nat), Sample.abc) /\
  findNextCell "Z" Sample.abc = (Ok None, Sample.abc).
Proof.
  destruct find_witness_facts as (Hall & _ & HA & HC & HZ).
  destruct (find_neighbours "C" Sample.abc Hall) as [_ H2].
  destruct (find_neighbours "A" Sample.abc Hall) as [_ H0].
  destruct (find_neighbours "Z" Sample.abc Hall) as [HZ' _].
  split; [|split; [|split; [|split]]].
  - exact (proj1 (H2 2%nat HC)).
  - exact (proj2 (H0 0%nat HA)).
  - exact (proj1 (H0 0%nat HA)).
  - exact (proj2 (H2 2%nat HC)).
  - exact (proj1 (HZ' HZ)).
Defined.

(** ** Positions *)

(** X3. [getCellByIndex] undoes [getCellIndex] for a cell of the array;
    [getCellIndex] is [-1] for a cell that is not in it, and
    [getCellByIndex] is [undefined] outside the array. *)
Theorem cell_index_round_trip (s : NbState) (r : ref) :
  (Some r ∈ cells (this s) ->
   (i <- getCellIndex (Some r) ;; getCellByIndex i) s = (Ok (Some r), s)) /\
  (Some r ∉ cells (this s) -> getCellIndex (Some r) s = (Ok (-1), s)) /\
  (forall i, i < 0 \/ Z.of_nat (length (cells (this s))) <= i ->
   getCellByIndex i s = (Ok None, s)).
Proof.
  unfold getCellIndex, getCellByIndex, getCells. run.
  destruct (indexOf_spec (Some r) (cells (this s))) as [[Hnot ->]|(k & -> & Hk & _)].
  - split; [done|]. split; [by destruct s|].
    intros i Hi. destruct s. simpl in *.
    destruct (Z.geb_spec i 0), (Z.ltb_spec i (Z.of_nat (length (cells this0))));
      simpl; try done. lia.
  - pose proof (lookup_lt_Some _ _ _ Hk) as Hlt. split; [|split].
    + intros _. destruct (Z.geb_spec (Z.of_nat k) 0); [|lia].
      destruct (Z.ltb_spec (Z.of_nat k) (Z.of_nat (length (cells (this s))))); [|lia].
      simpl. rewrite (elem_lookup _ _ _ Hk). by destruct s.
    + intros Hnot. destruct Hnot. by eapply list_elem_of_lookup_2.
    + intros i Hi. destruct s. simpl in *.
      destruct (Z.geb_spec i 0), (Z.ltb_spec i (Z.of_nat (length (cells this0))));
        simpl; try done. lia.
Qed.

Lemma cell_index_round_trip_witness :
  (i <- getCellIndex (Some 2%nat) ;; getCellByIndex i) Sample.abc
  = (Ok (Some 2%nat), Sample.abc) /\
  getCellIndex (Some 3%nat) Sample.abc = (Ok (-1), Sample.abc) /\
  getCellByIndex 3 Sample.abc = (Ok None, Sample.abc).
Proof.
  destruct (cell_index_round_trip Sample.abc 2%nat) as (H1 & _ & H3).
  destruct (cell_index_round_trip Sample.abc 3%nat) as (_ & H2 & _).
  split; [|split].
  - apply H1. apply (bool_decide_unpack _). vm_compute. exact I.
  - apply H2. apply (bool_decide_unpack _). vm_compute. exact I.
  - apply H3. right. simpl. lia.
Defined.

(** X4. A notebook without cells has no first and no last cell; a cell added
    at index 0 is the first cell, and a cell added at the end is the last
    one. *)
Theorem first_and_last_cell (s : NbState) (cellViewModel : ref) (c : CellViewModel) :
  all_cells (heap (env s)) (cells (this s)) ->
  heap (env s) !! cellViewModel = Some c ->
  (cells (this s) = [] ->
   getFirstCell s = (Ok None, s) /\ getLastCell s = (Ok None, s)) /\
  fst ((addCell cellViewModel 0 ;; getFirstCell) s) = Ok (Some cellViewModel) /\
  fst ((addCell cellViewModel (Z.of_nat (length (cells (this s)))) ;; getLastCell) s)
  = Ok (Some cellViewModel).
Proof.
  intros Hall Hc. split; [|split].
  - intros Hnil. unfold getFirstCell, getLastCell. run. rewrite Hnil. by destruct s.
  - destruct (addCell_in_range s cellViewModel c 0 Hall Hc) as (H1 & Hlen & Hat & _);
      [lia|].
    unfold cellsAfter in *. unfold bind.
    destruct (addCell cellViewModel 0 s) as [res s1]. simpl in *. subst res.
    unfold getFirstCell. run. rewrite Hlen. simpl.
    change 0 with (Z.of_nat 0). by rewrite (elem_lookup _ 0%nat _ Hat).
  - destruct (addCell_in_range s cellViewModel c (Z.of_nat (length (cells (this s))))
                Hall Hc) as (H1 & Hlen & Hat & _); [lia|].
    unfold cellsAfter in *. unfold bind.
    destruct (addCell cellViewModel _ s) as [res s1]. simpl in *. subst res.
    unfold getLastCell. run. rewrite Hlen.
    destruct (Z.gtb_spec (Z.of_nat (S (length (cells (this s))))) 0); [|lia]. simpl.
    rewrite Nat2Z.id in Hat.
    replace (Z.of_nat (S (length (cells (this s)))) - 1)
      with (Z.of_nat (length (cells (this s)))) by lia.
    by rewrite (elem_lookup _ _ _ Hat).
Qed.

Lemma first_and_last_cell_witness :
  fst ((addCell 3 0 ;; getFirstCell) Sample.abc) = Ok (Some 3%nat) /\
  fst ((addCell 3 3 ;; getLastCell) Sample.abc) = Ok (Some 3%nat).
Proof.
  apply (first_and_last_cell Sample.abc 3%nat (Sample.cell "D" Code)).
  - repeat constructor; eexists _, _; split; reflexivity.
  - reflexivity.
Defined.

(** ** Events that are not repeated *)

(** X5. [setModified] with the value the flag already has does nothing, so
    setting it twice is setting it once; and likewise a second notification
    that the same cell is selected does nothing. *)
Theorem no_redundant_events (s : NbState) (v : bool) (cell : ref) :
  (modified (this s) = v -> setModified v s = (Ok tt, s)) /\
  (setModified v ;; setModified v) s = setModified v s /\
  (selectedCell (this s) = Some cell -> onEditorSelectionChanged cell s = (Ok tt, s)) /\
  (onEditorSelectionChanged cell ;; onEditorSelectionChanged cell) s
  = onEditorSelectionChanged cell s.
Proof.
  unfold setModified, onEditorSelectionChanged. run. split; [|split; [|split]].
  - intros <-. by rewrite Bool.eqb_reflx.
  - destruct (Bool.eqb (modified (this s)) v) eqn:H; simpl.
    + by rewrite H.
    + by rewrite Bool.eqb_reflx.
  - intros ->. simpl. by rewrite Nat.eqb_refl.
  - destruct (slot_eqb (selectedCell (this s)) (Some cell)) eqn:H; simpl.
    + by rewrite H.
    + by rewrite Nat.eqb_refl.
Qed.

Lemma no_redundant_events_witness :
  setModified false Sample.abc = (Ok tt, Sample.abc) /\
  (setModified true ;; setModified true) Sample.abc = setModified true Sample.abc.
Proof.
  destruct (no_redundant_events Sample.abc false 0%nat) as (H1 & _).
  destruct (no_redundant_events Sample.abc true 0%nat) as (_ & H2 & _).
  split; [exact (H1 eq_refl)|exact H2].
Defined.

(** ** moveCell at and beyond the ends *)

Transparent Js.splice.

(** A start at or beyond the end removes nothing. *)
Lemma splice_beyond {T : Type} (start deleteCount : Z) (a : list T) :
  Z.of_nat (length a) <= start -> Js.splice start deleteCount [] a = ([], a).
Proof.
  intros H. unfold Js.splice, Js.actualStart, Js.actualDeleteCount.
  destruct (Z.ltb_spec start 0); [lia|].
  replace (Z.to_nat (Z.min start (Z.of_nat (length a)))) with (length a) by lia.
  replace (Z.to_nat (Z.min (Z.max deleteCount 0) _)) with 0%nat by lia.
  simpl. rewrite firstn_all, Nat.add_0_r, drop_all. by rewrite app_nil_r.
Qed.

(** A negative start counts from the end. *)
Lemma splice_negative {T : Type} (start deleteCount : Z) (items a : list T) :
  - Z.of_nat (length a) <= start < 0 ->
  Js.splice start deleteCount items a
  = Js.splice (start + Z.of_nat (length a)) deleteCount items a.
Proof.
  intros H. unfold Js.splice, Js.actualStart.
  destruct (Z.ltb_spec start 0); [|lia].
  destruct (Z.ltb_spec (start + Z.of_nat (length a)) 0); [lia|].
  replace (Z.to_nat (Z.max (Z.of_nat (length a) + start) 0))
    with (Z.to_nat (Z.min (start + Z.of_nat (length a)) (Z.of_nat (length a))))
    by lia.
  done.
Qed.

Opaque Js.splice.

Lemma moveCell_this (sourceIndex destIndex : Z) (s : NbState) :
  this (snd (moveCell sourceIndex destIndex s))
  = set_modified true
      (set_cells
         (snd (Js.splice destIndex 0
                 [Js.elem (fst (Js.splice sourceIndex 1 [] (cells (this s)))) 0]
                 (snd (Js.splice sourceIndex 1 [] (cells (this s))))))
         (this s)).
Proof.
  unfold moveCell, notifyModified. run.
  destruct (Js.splice sourceIndex 1 [] (cells (this s))) as [removed rest].
  destruct (Js.splice destIndex 0 [Js.elem removed 0] rest) as [r2 rest2] eqn:E2.
  simpl.
  match goal with |- context [setModified true ?s0] =>
    destruct (setModified_this true s0) as (_ & H2 & _) end.
  rewrite H2, E2. done.
Qed.

(** X6. With both indices inside the array, [moveCell] permutes the cells:
    the cell of [sourceIndex] is at [destIndex] afterwards, the array has the
    same length and the same elements, and the notebook is modified. *)
Theorem moveCell_permutes (sourceIndex destIndex : Z) (s : NbState) :
  0 <= sourceIndex < Z.of_nat (length (cells (this s))) ->
  0 <= destIndex < Z.of_nat (length (cells (this s))) ->
  cellsAfter (moveCell sourceIndex destIndex) s ≡ₚ cells (this s) /\
  length (cellsAfter (moveCell sourceIndex destIndex) s) = length (cells (this s)) /\
  cellsAfter (moveCell sourceIndex destIndex) s !! Z.to_nat destIndex
  = cells (this s) !! Z.to_nat sourceIndex /\
  modified (this (snd (moveCell sourceIndex destIndex s))) = true.
Proof.
  intros Hs Hd.
  destruct (lookup_lt_is_Some_2 (cells (this s)) (Z.to_nat sourceIndex)) as [x Hx]; [lia|].
  destruct (moveCell_in_range sourceIndex destIndex s x) as [_ ->]; [lia|done|done|].
  assert (Hlen : length (delete (Z.to_nat sourceIndex) (cells (this s)))
                 = (length (cells (this s)) - 1)%nat)
    by (rewrite length_delete; eauto).
  assert (Hperm : take (Z.to_nat destIndex) (delete (Z.to_nat sourceIndex) (cells (this s)))
                  ++ x :: drop (Z.to_nat destIndex)
                            (delete (Z.to_nat sourceIndex) (cells (this s)))
                  ≡ₚ cells (this s)).
  { rewrite <- Permutation_middle, take_drop. symmetry. by apply delete_Permutation. }
  split; [done|]. split; [by rewrite Hperm|]. split.
  - rewrite Hx. apply lookup_insert_at. lia.
  - by rewrite moveCell_this.
Qed.

Lemma moveCell_permutes_witness :
  cellsAfter (moveCell 0 2) Sample.abc ≡ₚ [Some 0; Some 1; Some 2]%nat /\
  length (cellsAfter (moveCell 0 2) Sample.abc) = 3%nat /\
  cellsAfter (moveCell 0 2) Sample.abc !! 2%nat = Some (Some 0%nat) /\
  modified (this (snd (moveCell 0 2 Sample.abc))) = true.
Proof.
  apply (moveCell_permutes 0 2 Sample.abc); simpl; lia.
Defined.

(** X7. [moveCell] does not check its indices. A source index at or beyond
    the end removes nothing and stores [undefined] at the destination, so
    the array grows by one; a negative source index counts from the end. *)
Theorem moveCell_source_out_of_range (sourceIndex destIndex : Z) (s : NbState) :
  (Z.of_nat (length (cells (this s))) <= sourceIndex ->
   0 <= destIndex <= Z.of_nat (length (cells (this s))) ->
   fst (moveCell sourceIndex destIndex s) = Ok tt /\
   cellsAfter (moveCell sourceIndex destIndex) s
   = take (Z.to_nat destIndex) (cells (this s))
     ++ None :: drop (Z.to_nat destIndex) (cells (this s))) /\
  (- Z.of_nat (length (cells (this s))) <= sourceIndex < 0 ->
   cellsAfter (moveCell sourceIndex destIndex) s
   = cellsAfter (moveCell (sourceIndex + Z.of_nat (length (cells (this s)))) destIndex) s).
Proof.
  unfold cellsAfter. split.
  - intros Hs Hd. destruct (moveCell_cells sourceIndex destIndex s) as [-> ->].
    split; [done|]. rewrite splice_beyond by done. simpl.
    rewrite elem_nil. rewrite splice_insert by lia. done.
  - intros Hs. destruct (moveCell_cells sourceIndex destIndex s) as [_ ->].
    destruct (moveCell_cells (sourceIndex + Z.of_nat (length (cells (this s))))
                destIndex s) as [_ ->].
    rewrite (splice_negative sourceIndex 1 [] (cells (this s))) by lia. done.
Qed.

Lemma moveCell_source_out_of_range_witness :
  (fst (moveCell 5 1 Sample.abc) = Ok tt /\
   cellsAfter (moveCell 5 1) Sample.abc = [Some 0; None; Some 1; Some 2]%nat) /\
  cellsAfter (moveCell (-1) 0) Sample.abc = cellsAfter (moveCell 2 0) Sample.abc.
Proof.
  destruct (moveCell_source_out_of_range 5 1 Sample.abc) as [H1 _].
  destruct (moveCell_source_out_of_range (-1) 0 Sample.abc) as [_ H2].
  split; [apply H1; simpl; lia|apply H2; simpl; lia].
Defined.

(** ** An [undefined] element *)

Lemma forEach_invoke_undefined (m : CellViewModel -> CellViewModel) (cs : list slot)
  (E : Env) :
  None ∈ cs ->
  exists E', forEach (fun cell => invoke cell m) cs E = (Throw TypeError, E').
Proof.
  revert E. induction cs as [|x cs IH]; intros E Hin.
  - by apply elem_of_nil in Hin.
  - simpl. unfold bind.
    destruct x as [r|]; [|by eexists].
    apply elem_of_cons in Hin as [|Hin]; [done|].
    destruct (heap E !! r) as [c|] eqn:Hc.
    + rewrite (invoke_ok _ _ c) by done. by apply IH.
    + unfold invoke, bind, deref. rewrite Hc. by eexists.
Qed.

Lemma mapM_serializeCell_undefined (cs : list slot) (E : Env) :
  None ∈ cs -> mapM serializeCell cs E = (Throw TypeError, E).
Proof.
  induction cs as [|x cs IH]; intros Hin.
  - by apply elem_of_nil in Hin.
  - simpl. unfold bind at 1, serializeCell at 1, bind at 1, deref.
    destruct x as [r|]; [|done].
    apply elem_of_cons in Hin as [|Hin]; [done|].
    destruct (heap E !! r) as [c|]; [|done].
    unfold ret at 1, bind at 1. by rewrite IH.
Qed.

Lemma flushChanges_undefined (s : NbState) :
  None ∈ cells (this s) -> fst (flushChanges s) = Throw TypeError.
Proof.
  intros Hin. unfold flushChanges. run.
  match goal with |- context [forEach ?f ?cs ?E] =>
    destruct (forEach_invoke_undefined Cell.flushChanges cs E Hin) as [E' ->] end.
  done.
Qed.

(** X8. Once the array holds [undefined], which [moveCell] can cause, the
    methods that visit every cell throw a TypeError: [flushChanges],
    [serialize], and with them [addCell] and [saveAs]. *)
Theorem undefined_cell_breaks_the_notebook (s : NbState) (cellViewModel : ref)
  (cellIndex : Z) (newNotebookId : INotebookStorageId) :
  None ∈ cells (this s) ->
  fst (flushChanges s) = Throw TypeError /\
  fst (serialize s) = Throw TypeError /\
  fst (addCell cellViewModel cellIndex s) = Throw TypeError /\
  fst (saveAs newNotebookId s) = Throw TypeError.
Proof.
  intros Hin. split; [by apply flushChanges_undefined|]. split; [|split].
  - unfold serialize. run. by rewrite mapM_serializeCell_undefined.
  - unfold addCell, bind at 1, getThis at 1, gets, bind at 1, liftEnv, hookCellEvents.
    destruct (heap (env s) !! cellViewModel) as [c|] eqn:Hc.
    + rewrite (invoke_ok _ _ c) by done. unfold bind at 1.
      match goal with |- context [flushChanges ?s1] =>
        pose proof (flushChanges_undefined s1 Hin) as Hf;
        destruct (flushChanges s1) as [res s2] end.
      simpl in Hf. by subst res.
    + unfold invoke, bind, deref. by rewrite Hc.
  - unfold saveAs, bind at 1, liftEnv at 1, emit, modify. cbv beta iota.
    unfold bind at 1, _save, bind at 1.
    match goal with |- context [flushChanges ?s1] =>
      pose proof (flushChanges_undefined s1 Hin) as Hf;
      destruct (flushChanges s1) as [res s2] end.
    simpl in Hf. by subst res.
Qed.

Lemma undefined_cell_breaks_the_notebook_witness :
  let s := snd (moveCell 5 1 Sample.abc) in
  fst (flushChanges s) = Throw TypeError /\
  fst (serialize s) = Throw TypeError /\
  fst (addCell 3 0 s) = Throw TypeError /\
  fst (saveAs Sample.file s) = Throw TypeError.
Proof.
  apply (undefined_cell_breaks_the_notebook (snd (moveCell 5 1 Sample.abc)) 3%nat 0
           Sample.file).
  apply (bool_decide_unpack _). vm_compute. exact I.
Defined.

(** ** addCell and deleteCell together *)

(** The state after an [addCell] that passes the range check. *)
Lemma addCell_state (s : NbState) (cellViewModel : ref) (c : CellViewModel)
  (cellIndex : Z) :
  all_cells (heap (env s)) (cells (this s)) ->
  heap (env s) !! cellViewModel = Some c ->
  0 <= cellIndex <= Z.of_nat (length (cells (this s))) ->
  let nb := instanceId (this s) in
  addCell cellViewModel cellIndex s
  = (Ok tt,
     {| this := set_modified true
                  (set_cells (take (Z.to_nat cellIndex) (cells (this s))
                              ++ Some cellViewModel
                                 :: drop (Z.to_nat cellIndex) (cells (this s)))
                     (this s))
      ; env := set_trace
                 (trace (env s)
                  ++ [Raised nb onFlushChanges; Raised nb onCellsChanged]
                  ++ (if modified (this s) then [] else [Raised nb onModified]))
                 (set_heap (<[cellViewModel := hooked nb c]> (heap (env s))) (env s)) |}).
Proof.
  intros Hall Hc Hi nb. rewrite (addCell_run s cellViewModel c) by done.
  destruct (Z.gtb_spec cellIndex (Z.of_nat (length (cells (this s))))); [lia|].
  rewrite splice_insert by done. unfold notifyModified, setModified. run. fold nb.
  destruct s as [[] []]. simpl in *.
  destruct modified0; run; unfold set_modified, set_cells, set_trace, set_heap;
    simpl; rewrite <- ?app_assoc; simpl; rewrite ?app_nil_r; done.
Qed.

(** X9. An [addCell] that passes the range check leaves the notebook
    modified, hooks the added cell and changes no other cell object, keeps
    the selection, and raises, in this order, the flush event, the
    cells-changed event and, when the notebook was not yet modified, the
    modified event. *)
Theorem addCell_effects (s : NbState) (cellViewModel : ref) (c : CellViewModel)
  (cellIndex : Z) :
  all_cells (heap (env s)) (cells (this s)) ->
  heap (env s) !! cellViewModel = Some c ->
  0 <= cellIndex <= Z.of_nat (length (cells (this s))) ->
  let nb := instanceId (this s) in
  let s' := snd (addCell cellViewModel cellIndex s) in
  modified (this s') = true /\
  selectedCell (this s') = selectedCell (this s) /\
  heap (env s') !! cellViewModel = Some (hooked nb c) /\
  (forall r, r <> cellViewModel -> heap (env s') !! r = heap (env s) !! r) /\
  trace (env s')
  = trace (env s)
    ++ [Raised nb onFlushChanges; Raised nb onCellsChanged]
    ++ (if modified (this s) then [] else [Raised nb onModified]).
Proof.
  intros Hall Hc Hi nb s'. subst s'.
  rewrite (addCell_state s cellViewModel c) by done. simpl.
  split; [done|]. split; [done|]. split.
  - apply list_lookup_insert_eq. by eapply lookup_lt_Some.
  - split; [|done]. intros r Hr. by rewrite list_lookup_insert_ne.
Qed.

Lemma addCell_effects_witness :
  let s' := snd (addCell 3 1 Sample.abc) in
  modified (this s') = true /\
  selectedCell (this s') = None /\
  heap (env s') !! 3%nat = Some (hooked 0%nat (Sample.cell "D" Code)) /\
  (forall r, r <> 3%nat -> heap (env s') !! r = heap (env Sample.abc) !! r) /\
  trace (env s')
  = [Raised 0%nat onFlushChanges; Raised 0%nat onCellsChanged; Raised 0%nat onModified].
Proof.
  apply (addCell_effects Sample.abc 3%nat (Sample.cell "D" Code) 1).
  - repeat constructor; eexists _, _; split; reflexivity.
  - reflexivity.
  - simpl. lia.
Defined.

Lemma filter_all {T : Type} (p : T -> bool) (a : list T) :
  (forall x, x ∈ a -> p x = true) -> List.filter p a = a.
Proof.
  induction a as [|y a IH]; intros H; [done|]. simpl.
  rewrite (H y) by left. f_equal. apply IH. intros x Hx. apply H. by right.
Qed.

(** X10. Adding a cell whose id no cell of the notebook has, and deleting it
    again, gives the sequence of cells back. *)
Theorem addCell_deleteCell_round_trip (s : NbState) (cellViewModel : ref)
  (c : CellViewModel) (cellIndex : Z) (selectNextCell : bool) :
  all_cells (heap (env s)) (cells (this s)) ->
  selection_ok s ->
  heap (env s) !! cellViewModel = Some c ->
  0 <= cellIndex <= Z.of_nat (length (cells (this s))) ->
  no_match (heap (env s)) (cell_id c) (cells (this s)) ->
  fst ((addCell cellViewModel cellIndex ;; deleteCell cellViewModel selectNextCell) s)
  = Ok tt /\
  cellsAfter (addCell cellViewModel cellIndex ;; deleteCell cellViewModel selectNextCell) s
  = cells (this s).
Proof.
  intros Hall Hok Hc Hi Hno. unfold cellsAfter, bind.
  rewrite (addCell_state s cellViewModel c) by done.
  set (nb := instanceId (this s)).
  set (h1 := <[cellViewModel := hooked nb c]> (heap (env s))).
  assert (Hids : cell_id <$> h1 = cell_id <$> heap (env s))
    by (by apply (ids_insert _ _ c)).
  assert (Hc1 : h1 !! cellViewModel = Some (hooked nb c))
    by (apply list_lookup_insert_eq; by eapply lookup_lt_Some).
  match goal with |- context [deleteCell _ _ ?s1] =>
    destruct (deleteCell_present s1 cellViewModel (hooked nb c) selectNextCell)
      as [H1 H2] end.
  - simpl. fold h1. apply Forall_app. split; [|constructor].
    + apply all_cells_insert. unfold all_cells in *. by apply Forall_take.
    + by exists cellViewModel, (hooked nb c).
    + apply all_cells_insert. unfold all_cells in *. by apply Forall_drop.
  - intros r Hr. simpl in *. fold h1. apply (ids_is_Some (heap (env s))); [done|].
    by apply Hok.
  - done.
  - simpl. fold h1. apply list_elem_of_fmap. exists (Some cellViewModel).
    split; [simpl; by rewrite Hc1|].
    apply elem_of_app. right. left.
  - unfold cellsAfter in H2. split; [done|]. rewrite H2. simpl. fold h1.
    assert (Hsame : forall x, idIs h1 (cell_id c) x = idIs (heap (env s)) (cell_id c) x)
      by (intros x; unfold idIs; by rewrite (slot_id_ids _ _ x Hids)).
    rewrite List.filter_app. simpl.
    assert (Hcell : idIs h1 (cell_id c) (Some cellViewModel) = true).
    { apply idIs_true. simpl. by rewrite Hc1. }
    rewrite Hcell. simpl.
    rewrite !filter_all.
    + apply take_drop.
    + intros x Hx. rewrite Hsame, Hno; [done|].
      rewrite <- (take_drop (Z.to_nat cellIndex) (cells (this s))).
      apply elem_of_app. by right.
    + intros x Hx. rewrite Hsame, Hno; [done|].
      rewrite <- (take_drop (Z.to_nat cellIndex) (cells (this s))).
      apply elem_of_app. by left.
Qed.

Lemma addCell_deleteCell_round_trip_witness :
  fst ((addCell 3 1 ;; deleteCell 3 true) Sample.abc) = Ok tt /\
  cellsAfter (addCell 3 1 ;; deleteCell 3 true) Sample.abc
  = [Some 0; Some 1; Some 2]%nat.
Proof.
  apply (addCell_deleteCell_round_trip Sample.abc 3%nat (Sample.cell "D" Code) 1 true).
  - repeat constructor; eexists _, _; split; reflexivity.
  - intros r Hr. discriminate Hr.
  - reflexivity.
  - simpl. lia.
  - intros x Hx. simpl in Hx.
    repeat (apply elem_of_cons in Hx as [->|Hx]; [reflexivity|]).
    by apply elem_of_nil in Hx.
Defined.

(** X11. [deleteCell] called with [selectNextCell = false] leaves the
    selection of the notebook as it was, also when the deleted cell is the
    selected one; it marks the notebook modified and raises the cells-changed
    event, then the modified event when the notebook was not yet modified. *)
Theorem deleteCell_keeps_selection (s : NbState) (cell : ref) (c : CellViewModel) :
  all_cells (heap (env s)) (cells (this s)) ->
  heap (env s) !! cell = Some c ->
  Some (cell_id c) ∈ slot_id (heap (env s)) <$> cells (this s) ->
  let nb := instanceId (this s) in
  let s' := snd (deleteCell cell false s) in
  fst (deleteCell cell false s) = Ok tt /\
  selectedCell (this s') = selectedCell (this s) /\
  modified (this s') = true /\
  trace (env s')
  = trace (env s) ++ [Raised nb onCellsChanged]
    ++ (if modified (this s) then [] else [Raised nb onModified]).
Proof.
  destruct s as [nb E]. simpl. intros Hall Hc Hin.
  unfold deleteCell, getCells, deref. run. rewrite Hc.
  rewrite filterM_hasId by done. simpl.
  destruct (filter_head (idIs (heap E) (cell_id c)) (cells nb))
    as [[_ Hnone]|(x & rest & -> & Hx & Hid)].
  { apply list_elem_of_fmap in Hin as (x & Hid & Hx).
    symmetry in Hid. apply idIs_true in Hid. rewrite Hnone in Hid; done. }
  destruct (all_cells_elem _ _ _ Hall Hx) as (r0 & c0 & -> & Hc0).
  rewrite elem_cons_0. unfold unhookCellEvents.
  rewrite (invoke_ok _ _ c0) by done. simpl.
  rewrite filterM_hasNotId by (simpl; by apply all_cells_insert). simpl.
  unfold notifyModified, setModified. run.
  destruct nb as [? ? ? ? ? ? ? ? m ? ? ?], E; simpl.
  destruct m; simpl; rewrite <- ?app_assoc; done.
Qed.

Lemma deleteCell_keeps_selection_witness :
  let s := snd ((addCell 3 1 ;; cell_select 3) Sample.abc) in
  let s' := snd (deleteCell 3 false s) in
  selectedCell (this s) = Some 3%nat /\
  cells (this s') = [Some 0; Some 1; Some 2]%nat /\
  fst (deleteCell 3 false s) = Ok tt /\
  selectedCell (this s') = selectedCell (this s) /\
  modified (this s') = true /\
  trace (env s')
  = trace (env s) ++ [Raised 0%nat onCellsChanged]
    ++ (if modified (this s) then [] else [Raised 0%nat onModified]).
Proof.
  split; [reflexivity|]. split; [reflexivity|].
  apply (deleteCell_keeps_selection (snd ((addCell 3 1 ;; cell_select 3) Sample.abc))
           3%nat (Cell.set_selected true (hooked 0%nat (Sample.cell "D" Code)))).
  - vm_compute. repeat constructor; eexists _, _; split; reflexivity.
  - reflexivity.
  - vm_compute. right. left.
Defined.

(** ** save *)

(** [serialize] reads the notebook and the cell objects only. *)
Lemma serialize_with_trace (s : NbState) (t : list Effect) (doc : Doc.ISerializedNotebook1) :
  all_cells (heap (env s)) (cells (this s)) ->
  fst (serialize s) = Ok doc ->
  fst (serialize {| this := this s; env := set_trace t (env s) |}) = Ok doc.
Proof.
  intros Hall Hdoc.
  destruct (serialize_ok s Hall) as (docs & Hdocs & _ & Hs).
  destruct (serialize_ok {| this := this s; env := set_trace t (env s) |})
    as (docs1 & Hdocs1 & _ & Hs1); [done|].
  simpl in Hdocs1. rewrite <- Hdocs in Hdocs1. apply (inj (fmap Some)) in Hdocs1 as ->.
  rewrite Hs in Hdoc. rewrite Hs1. exact Hdoc.
Qed.

(** [save] on a notebook that is writable and has been saved before. *)
Lemma save_run (s : NbState) (doc : Doc.ISerializedNotebook1) :
  all_cells (heap (env s)) (cells (this s)) ->
  readOnly (this s) = false ->
  unsaved (this s) = false ->
  fst (serialize s) = Ok doc ->
  let nb := instanceId (this s) in
  let sid := storageId (this s) in
  let t := trace (env s)
           ++ [LogInfo ("Saving notebook: " +:+ displayName sid);
               Raised nb onFlushChanges; WriteNotebook doc sid] in
  save s
  = match writeNotebook (notebookRepository (env s)) doc sid with
    | Some reason =>
        (Throw (StorageFailure reason), {| this := this s; env := set_trace t (env s) |})
    | None =>
        (Ok tt,
         {| this := set_modified false (this s)
          ; env := set_trace
                     (t ++ (if modified (this s) then [Raised nb onModified] else [])
                        ++ [LogInfo ("Saved notebook: " +:+ displayName sid)])
                     (env s) |})
    end.
Proof.
  intros Hall Hro Hu Hdoc nb sid t.
  unfold save, isReadOnly, isUnsaved. run. rewrite Hro, Hu. fold sid.
  set (t0 := trace (env s) ++ [LogInfo ("Saving notebook: " +:+ displayName sid)]).
  pose (s0 := {| this := this s; env := set_trace t0 (env s) |}).
  destruct (_save_run sid s0) as (doc0 & Hs0 & Hrun); [done|].
  assert (Hd : doc0 = doc).
  { pose proof (serialize_with_trace s t0 doc Hall Hdoc) as H.
    fold s0 in H. rewrite Hs0 in H. simpl in H. congruence. }
  subst doc0. simpl in Hrun.
  change (_save (storageId _) _) with (_save sid s0).
  rewrite Hrun. clear Hrun Hs0. subst s0 t0 t nb sid.
  destruct (writeNotebook _ _ _).
  - destruct s as [[] []]; simpl. unfold set_trace; simpl.
    rewrite <- !app_assoc. done.
  - unfold clearModified, setModified. run.
    destruct s as [[] []]; simpl in *. subst.
    destruct modified0; simpl; unfold set_modified, set_trace; simpl;
      rewrite <- ?app_assoc; done.
Qed.

(** X12. On a writable notebook that has been saved before, when the write
    is accepted, [save] returns; the document written is the serialized
    notebook and goes to the notebook's own storage id; the notebook ends
    unmodified and otherwise as it was, its cell objects unchanged; the
    modified event is raised only when there was a modification to clear;
    and the log gains one line before the flush and one after the write. *)
Theorem save_writes_and_clears_modified (s : NbState) (doc : Doc.ISerializedNotebook1) :
  all_cells (heap (env s)) (cells (this s)) ->
  readOnly (this s) = false ->
  unsaved (this s) = false ->
  fst (serialize s) = Ok doc ->
  writeNotebook (notebookRepository (env s)) doc (storageId (this s)) = None ->
  let nb := instanceId (this s) in
  let sid := storageId (this s) in
  let s' := snd (save s) in
  fst (save s) = Ok tt /\
  this s' = set_modified false (this s) /\
  heap (env s') = heap (env s) /\
  trace (env s')
  = trace (env s)
    ++ [LogInfo ("Saving notebook: " +:+ displayName sid);
        Raised nb onFlushChanges; WriteNotebook doc sid]
    ++ (if modified (this s) then [Raised nb onModified] else [])
    ++ [LogInfo ("Saved notebook: " +:+ displayName sid)].
Proof.
  intros Hall Hro Hu Hdoc Hw. cbv zeta.
  rewrite (save_run s doc) by done. cbv zeta. rewrite Hw. simpl.
  rewrite <- !app_assoc. done.
Qed.

(** X13. On a writable notebook that has been saved before, when the write
    is rejected, [save] throws the rejection after the flush and the write
    attempt; the notebook keeps its [modified] flag and every other field,
    and the closing log line is not written. *)
Theorem save_rejected_keeps_modified (s : NbState) (doc : Doc.ISerializedNotebook1)
  (reason : string) :
  all_cells (heap (env s)) (cells (this s)) ->
  readOnly (this s) = false ->
  unsaved (this s) = false ->
  fst (serialize s) = Ok doc ->
  writeNotebook (notebookRepository (env s)) doc (storageId (this s)) = Some reason ->
  let nb := instanceId (this s) in
  let sid := storageId (this s) in
  let s' := snd (save s) in
  fst (save s) = Throw (StorageFailure reason) /\
  this s' = this s /\
  heap (env s') = heap (env s) /\
  trace (env s')
  = trace (env s)
    ++ [LogInfo ("Saving notebook: " +:+ displayName sid);
        Raised nb onFlushChanges; WriteNotebook doc sid].
Proof.
  intros Hall Hro Hu Hdoc Hw. cbv zeta.
  rewrite (save_run s doc) by done. cbv zeta. rewrite Hw. done.
Qed.

Lemma save_writes_and_clears_modified_witness :
  let s := {| this := set_modified true
                        (set_unsaved false (set_storageId Sample.file (this Sample.abc)))
            ; env := env Sample.abc |} in
  fst (save s) = Ok tt /\
  modified (this (snd (save s))) = false /\
  trace (env (snd (save s)))
  = [LogInfo "Saving notebook: notes.notebook";
     Raised 0%nat onFlushChanges;
     WriteNotebook (match fst (serialize s) with
                    | Ok doc => doc
                    | Throw _ => Sample.doc_v3
                    end) Sample.file;
     Raised 0%nat onModified;
     LogInfo "Saved notebook: notes.notebook"].
Proof.
  pose proof
    (save_writes_and_clears_modified
       {| this := set_modified true
                    (set_unsaved false (set_storageId Sample.file (this Sample.abc)))
        ; env := env Sample.abc |}
       (match fst (serialize Sample.abc) with
        | Ok doc => doc | Throw _ => Sample.doc_v3 end)) as H.
  destruct H as (H1 & H2 & _ & H4).
  - repeat constructor; eexists _, _; split; reflexivity.
  - reflexivity.
  - reflexivity.
  - reflexivity.
  - reflexivity.
  - split; [exact H1|]. split; [by rewrite H2|]. exact H4.
Defined.

Lemma save_rejected_keeps_modified_witness :
  let s := {| this := set_modified true (this Sample.readOnly_file_failing)
            ; env := env Sample.readOnly_file_failing |} in
  let s1 := {| this := set_readOnly false (this s); env := env s |} in
  fst (save s1) = Throw (StorageFailure "disk full") /\
  modified (this (snd (save s1))) = true.
Proof.
  pose proof
    (save_rejected_keeps_modified
       {| this := set_readOnly false
                    (set_modified true (this Sample.readOnly_file_failing))
        ; env := env Sample.readOnly_file_failing |}
       (match fst (serialize Sample.readOnly_file_failing) with
        | Ok doc => doc | Throw _ => Sample.doc_v3 end)
       "disk full") as H.
  destruct H as (H1 & H2 & _).
  - repeat constructor; eexists _, _; split; reflexivity.
  - reflexivity.
  - reflexivity.
  - reflexivity.
  - reflexivity.
  - split; [exact H1|]. exact (f_equal modified H2).
Defined.

(** ** deserialize *)

(** The factory loop stops at the first element that is missing or has no
    valid cell type; the cells made before it stay allocated. *)
Lemma mapM_cellViewModelFactory_throw (pre post : list (option Doc.ISerializedCell1))
  (x : option Doc.ISerializedCell1) (E : Env) :
  well_typed pre ->
  x = None \/ (exists sc, x = Some sc /\ Doc.cellType sc = None) ->
  exists new,
    Forall2 made_of pre new /\
    mapM cellViewModelFactory (pre ++ x :: post) E
    = (Throw (match x with
              | None => CellNotSpecified
              | Some _ => UnexpectedCellType
              end), set_heap (heap E ++ new) E).
Proof.
  intros Hpre Hx. revert E.
  induction Hpre as [|y pre (sc & t & -> & Ht) _ IH]; intros E.
  - exists []. split; [constructor|]. simpl. unfold bind at 1.
    rewrite app_nil_r, set_heap_id.
    destruct Hx as [->|(sc & -> & Ht)]; [done|].
    unfold cellViewModelFactory. by rewrite Ht.
  - destruct (IH (set_heap (heap E ++ [Cell.deserialize t sc]) E))
      as (new & Hnew & Hm).
    exists (Cell.deserialize t sc :: new). split.
    { constructor; [by exists sc, t|done]. }
    assert (Hf : cellViewModelFactory (Some sc) E
                 = (Ok (length (heap E)),
                    set_heap (heap E ++ [Cell.deserialize t sc]) E))
      by (unfold cellViewModelFactory; rewrite Ht; by destruct t).
    simpl app. cbn [mapM]. unfold bind at 1. rewrite Hf. unfold bind at 1.
    rewrite Hm. simpl. by rewrite <- app_assoc.
Qed.

(** X14. [deserialize] of a document whose cells are well typed up to an
    element that is missing, or has no valid cell type, throws: "cell not
    specified" for the missing element, "unexpected cell type" for the other.
    No notebook is constructed (no instance id is drawn, nothing is logged),
    and the cell objects that existed before are as they were. *)
Theorem deserialize_ill_typed_cell (sid : INotebookStorageId) (u r : bool) (d : string)
  (input : Doc.ISerializedNotebook1) (E : Env)
  (pre post : list (option Doc.ISerializedCell1)) (x : option Doc.ISerializedCell1) :
  doc_cells input = Some (pre ++ x :: post) ->
  well_typed pre ->
  x = None \/ (exists sc, x = Some sc /\ Doc.cellType sc = None) ->
  let E' := snd (deserialize sid u r d input E) in
  fst (deserialize sid u r d input E)
  = Throw (match x with
           | None => CellNotSpecified
           | Some _ => UnexpectedCellType
           end) /\
  nextInstanceId E' = nextInstanceId E /\
  trace E' = trace E /\
  (forall i, (i < length (heap E))%nat -> heap E' !! i = heap E !! i).
Proof.
  intros Hcells Hpre Hx.
  destruct (mapM_cellViewModelFactory_throw pre post x E Hpre Hx) as (new & _ & Hm).
  assert (Hd : deserialize sid u r d input E
               = (Throw (match x with
                         | None => CellNotSpecified
                         | Some _ => UnexpectedCellType
                         end), set_heap (heap E ++ new) E)).
  { unfold deserialize, doc_cells in *.
    destruct (Doc.sheet input) as [sheet|]; rewrite Hcells;
      unfold bind at 1, deserializeCells, bind at 1; by rewrite Hm. }
  cbv zeta. rewrite Hd. simpl. repeat split.
  intros i Hi. by apply lookup_app_l.
Qed.

Lemma deserialize_ill_typed_cell_witness :
  let good := Cell.serialize (Sample.cell "A" Code) in
  let input :=
    {| Doc.version := 3; Doc.nodejs := None; Doc.language := None
     ; Doc.description := None
     ; Doc.cells := Some [Some good; None; Some good]; Doc.sheet := None |} in
  let E' := snd (deserialize Sample.file false false "v16" input (env Sample.abc)) in
  fst (deserialize Sample.file false false "v16" input (env Sample.abc))
  = Throw CellNotSpecified /\
  nextInstanceId E' = 1%nat /\
  trace E' = [] /\
  (forall i, (i < 4)%nat -> heap E' !! i = heap (env Sample.abc) !! i).
Proof.
  apply (deserialize_ill_typed_cell Sample.file false false "v16"
           {| Doc.version := 3; Doc.nodejs := None; Doc.language := None
            ; Doc.description := None
            ; Doc.cells := Some [Some (Cell.serialize (Sample.cell "A" Code)); None;
                                 Some (Cell.serialize (Sample.cell "A" Code))]
            ; Doc.sheet := None |}
           (env Sample.abc)
           [Some (Cell.serialize (Sample.cell "A" Code))]
           [Some (Cell.serialize (Sample.cell "A" Code))] None).
  - reflexivity.
  - repeat constructor. eexists _, _. split; reflexivity.
  - by left.
Defined.

(** X15. The notebook [deserialize] builds of a well-typed document is
    unmodified, not executing and has no selection; it has one cell per
    element of the document, every one a new object, no two the same, each
    hooked to the new notebook; the objects that existed before are as they
    were, and the next notebook will get another instance id. *)
Theorem deserialize_builds_a_fresh_notebook (sid : INotebookStorageId) (u r : bool)
  (d : string) (input : Doc.ISerializedNotebook1) (E : Env) :
  well_typed (default [] (doc_cells input)) ->
  exists nb E',
    deserialize sid u r d input E = (Ok nb, E') /\
    modified nb = false /\ executing nb = false /\ selectedCell nb = None /\
    length (cells nb) = length (default [] (doc_cells input)) /\
    NoDup (cells nb) /\
    (forall k x, cells nb !! k = Some x ->
       exists ref sc t,
         x = Some ref /\ (length (heap E) <= ref)%nat /\
         default [] (doc_cells input) !! k = Some (Some sc) /\
         Doc.cellType sc = Some t /\
         heap E' !! ref = Some (hooked (instanceId nb) (Cell.deserialize t sc))) /\
    (forall i, (i < length (heap E))%nat -> heap E' !! i = heap E !! i) /\
    instanceId nb <> nextInstanceId E'.
Proof.
  intros H. destruct (deserialize_ok sid u r d input E H) as (new & Hnew & ->).
  eexists _, _. split; [done|]. simpl.
  pose proof (Forall2_length _ _ _ Hnew) as Hlen.
  split; [done|]. split; [done|]. split; [done|]. split.
  { by rewrite length_fmap, length_seq. }
  split.
  { apply (NoDup_fmap_2 Some). apply NoDup_seq. }
  split.
  { intros k x Hk. rewrite list_lookup_fmap in Hk.
    destruct (seq _ _ !! k) as [ref|] eqn:Hseq; [|done].
    injection Hk as <-. apply lookup_seq in Hseq as [-> Hlt].
    destruct (lookup_lt_is_Some_2 new k Hlt) as [c Hc].
    destruct (Forall2_lookup_r _ _ _ _ _ Hnew Hc) as (y & Hy & sc & t & -> & Ht & ->).
    exists (length (heap E) + k)%nat, sc, t.
    split; [done|]. split; [lia|]. split; [done|]. split; [done|].
    rewrite lookup_app_r by lia.
    replace (length (heap E) + k - length (heap E))%nat with k by lia.
    by rewrite list_lookup_fmap, Hc. }
  split.
  { intros i Hi. by apply lookup_app_l. }
  lia.
Qed.

Lemma deserialize_builds_a_fresh_notebook_witness :
  let docs := [Some (Cell.serialize (Sample.cell "A" Code));
               Some (Cell.serialize (Sample.cell "B" Markdown))] in
  let input :=
    {| Doc.version := 3; Doc.nodejs := None; Doc.language := None
     ; Doc.description := None; Doc.cells := Some docs; Doc.sheet := None |} in
  exists nb E',
    deserialize Sample.file false true "v16" input (env Sample.abc) = (Ok nb, E') /\
    modified nb = false /\ executing nb = false /\ selectedCell nb = None /\
    length (cells nb) = 2%nat /\
    NoDup (cells nb) /\
    (forall k x, cells nb !! k = Some x ->
       exists ref sc t,
         x = Some ref /\ (4 <= ref)%nat /\
         docs !! k = Some (Some sc) /\
         Doc.cellType sc = Some t /\
         heap E' !! ref = Some (hooked (instanceId nb) (Cell.deserialize t sc))) /\
    (forall i, (i < 4)%nat -> heap E' !! i = heap (env Sample.abc) !! i) /\
    instanceId nb <> nextInstanceId E'.
Proof.
  apply (deserialize_builds_a_fresh_notebook Sample.file false true "v16"
           {| Doc.version := 3; Doc.nodejs := None; Doc.language := None
            ; Doc.description := None
            ; Doc.cells := Some [Some (Cell.serialize (Sample.cell "A" Code));
                                 Some (Cell.serialize (Sample.cell "B" Markdown))]
            ; Doc.sheet := None |}
           (env Sample.abc)).
  repeat constructor; eexists _, _; split; reflexivity.
Defined.

(** ** The node.js version *)

(** X16. After [setNodejsVersion] the notebook is modified and
    [getNodejsVersion] gives the version set, except for the empty string,
    for which it gives the default version; the serialized notebook records
    the version as set, the empty string included, never the default. *)
Theorem nodejs_version_set_and_get (s : NbState) (version : string) :
  all_cells (heap (env s)) (cells (this s)) ->
  let s' := snd (setNodejsVersion version s) in
  fst (setNodejsVersion version s) = Ok tt /\
  modified (this s') = true /\
  getNodejsVersion s'
  = (Ok (if String.eqb version "" then defaultNodejsVersion (this s) else version), s') /\
  exists doc, fst (serialize s') = Ok doc /\ Doc.nodejs doc = Some version.
Proof.
  intros Hall. cbv zeta.
  assert (Hrun : setNodejsVersion version s
                 = setModified true
                     {| this := set_nodejsVersion (Some version) (this s)
                      ; env := env s |})
    by (unfold setNodejsVersion, notifyModified; by run).
  rewrite Hrun. clear Hrun.
  match goal with |- context [setModified true ?s1] =>
    destruct (setModified_this true s1) as (H1 & H2 & H3);
    destruct (setModified_ok true s1) as (s2 & Hs2 & (Hc & _ & _) & _) end.
  rewrite Hs2 in *. simpl in *. split; [done|]. split; [by rewrite H2|]. split.
  - unfold getNodejsVersion. run. rewrite H2. simpl.
    by destruct (String.eqb version "").
  - destruct (serialize_ok s2) as (docs & _ & _ & Hser).
    { by rewrite H3, Hc. }
    rewrite Hser. eexists. split; [done|]. simpl. by rewrite H2.
Qed.

Lemma nodejs_version_set_and_get_witness :
  fst (getNodejsVersion (snd (setNodejsVersion "v12" Sample.abc))) = Ok "v12" /\
  fst (getNodejsVersion (snd (setNodejsVersion "" Sample.abc))) = Ok "v16".
Proof.
  destruct (nodejs_version_set_and_get Sample.abc "v12") as (_ & _ & H1 & _).
  { repeat constructor; eexists _, _; split; reflexivity. }
  destruct (nodejs_version_set_and_get Sample.abc "") as (_ & _ & H2 & _).
  { repeat constructor; eexists _, _; split; reflexivity. }
  split; [exact (f_equal fst H1)|exact (f_equal fst H2)].
Defined.

(** ** Loops over the cells *)

(** A loop that calls an idempotent method on every cell of the array
    changes the cell objects of the array, each as one call does, and no
    other object. *)
Lemma forEach_invoke_idem (m : CellViewModel -> CellViewModel) (cs : list slot)
  (E : Env) :
  (forall c, m (m c) = m c) ->
  all_cells (heap E) cs ->
  exists h',
    forEach (fun cell => invoke cell m) cs E = (Ok tt, set_heap h' E) /\
    forall r, h' !! r
              = (fun c => if bool_decide (Some r ∈ cs) then m c else c) <$> heap E !! r.
Proof.
  intros Hm H. revert E H. induction cs as [|x cs IH]; intros E H.
  - exists (heap E). rewrite set_heap_id. split; [done|].
    intros r. by destruct (heap E !! r).
  - apply Forall_cons in H as [(r0 & c0 & -> & Hc0) H].
    set (E1 := set_heap (<[r0 := m c0]> (heap E)) E).
    destruct (IH E1) as (h' & Hrun & Hh'); [by apply all_cells_insert|].
    exists h'. split.
    + simpl. unfold bind. rewrite (invoke_ok _ _ c0) by done.
      fold E1. by rewrite Hrun.
    + intros r. rewrite Hh'. simpl. destruct (decide (r = r0)) as [->|Hne].
      * rewrite list_lookup_insert_eq by (by eapply lookup_lt_Some).
        rewrite Hc0. simpl. rewrite (bool_decide_eq_true_2 (Some r0 ∈ Some r0 :: cs))
          by left.
        destruct (bool_decide _); by rewrite ?Hm.
      * rewrite list_lookup_insert_ne by done.
        destruct (heap E !! r); [|done]. simpl. f_equal.
        apply (f_equal (fun b : bool => if b then m c else c)).
        apply bool_decide_ext. rewrite elem_of_cons. split; [by right|].
        intros [[=]|?]; done.
Qed.

(** X17. An evaluation from start to completion: [notifyCodeEvalStarted]
    returns with the notebook executing; [notifyCodeEvalComplete] then
    returns with the notebook not executing and no cell of the notebook
    marked executing. The two raise the started and the completed event, in
    this order; nothing else of the notebook changes (it is not marked
    modified), and no object outside the notebook is touched. *)
Theorem evaluation_lifecycle (s : NbState) :
  all_cells (heap (env s)) (cells (this s)) ->
  let nb := instanceId (this s) in
  let s1 := snd (notifyCodeEvalStarted s) in
  let s2 := snd (notifyCodeEvalComplete s1) in
  fst (notifyCodeEvalStarted s) = Ok tt /\
  executing (this s1) = true /\
  fst (notifyCodeEvalComplete s1) = Ok tt /\
  this s2 = set_executing false (this s) /\
  trace (env s2)
  = trace (env s) ++ [Raised nb onEvalStarted; Raised nb onEvalCompleted] /\
  (forall r, Some r ∈ cells (this s) ->
     exists c, heap (env s2) !! r = Some c /\ cell_executing c = false) /\
  (forall r, Some r ∉ cells (this s) -> heap (env s2) !! r = heap (env s) !! r).
Proof.
  intros Hall. cbv zeta.
  destruct (forEach_invoke_idem Cell.notifyNotebookEvalStarted (cells (this s)) (env s))
    as (h1 & Hrun1 & Hh1); [done|done|].
  assert (Hs1 : notifyCodeEvalStarted s
                = (Ok tt,
                   {| this := set_executing true (this s)
                    ; env := set_trace (trace (env s)
                                        ++ [Raised (instanceId (this s)) onEvalStarted])
                               (set_heap h1 (env s)) |})).
  { unfold notifyCodeEvalStarted, getCells. run. by rewrite Hrun1. }
  rewrite Hs1. simpl.
  assert (Hall1 : all_cells h1 (cells (this s))).
  { eapply Forall_impl; [exact Hall|]. intros x (r & c & -> & Hc).
    exists r. rewrite Hh1, Hc. simpl. by eexists. }
  match goal with |- context [notifyCodeEvalComplete ?st] => set (s1 := st) end.
  destruct (forEach_invoke_idem Cell.notifyCodeEvalComplete (cells (this s)) (env s1))
    as (h2 & Hrun2 & Hh2); [by intros []|done|].
  assert (Hs2 : notifyCodeEvalComplete s1
                = (Ok tt,
                   {| this := set_executing false (this s)
                    ; env := set_trace
                               (trace (env s)
                                ++ [Raised (instanceId (this s)) onEvalStarted;
                                    Raised (instanceId (this s)) onEvalCompleted])
                               (set_heap h2 (env s)) |})).
  { unfold notifyCodeEvalComplete, getCells. run. rewrite Hrun2. run.
    destruct s as [[] []]. simpl. unfold set_trace, set_heap. simpl.
    by rewrite <- app_assoc. }
  rewrite Hs2. simpl.
  split; [done|]. split; [done|]. split; [done|]. split; [done|]. split; [done|].
  split.
  - intros r Hr.
    destruct (all_cells_elem _ _ _ Hall Hr) as (r' & c & [= <-] & Hc).
    rewrite Hh2. simpl. rewrite Hh1, Hc. simpl.
    rewrite !bool_decide_eq_true_2 by done. by eexists.
  - intros r Hr. rewrite Hh2. simpl. rewrite Hh1.
    destruct (heap (env s) !! r); [|done]. simpl.
    by rewrite !bool_decide_eq_false_2 by done.
Qed.

Lemma evaluation_lifecycle_witness :
  let s1 := snd (notifyCodeEvalStarted Sample.abc) in
  let s2 := snd (notifyCodeEvalComplete s1) in
  executing (this s1) = true /\
  this s2 = this Sample.abc /\
  trace (env s2) = [Raised 0%nat onEvalStarted; Raised 0%nat onEvalCompleted].
Proof.
  destruct (evaluation_lifecycle Sample.abc) as (_ & H1 & _ & H2 & H3 & _).
  { repeat constructor; eexists _, _; split; reflexivity. }
  split; [exact H1|]. split; [exact H2|exact H3].
Defined.

(** ** The evaluation commands of the editor *)

(** The three notifications of [checkCanEvaluateNotebook]. *)
Lemma checkCanEvaluateNotebook_refuses (es : EdState) :
  (working es > 0 ->
   checkCanEvaluateNotebook es
   = (Ok false, with_effect (NotificationWarn "Already working!") es)) /\
  (working es <= 0 -> notebook es = None ->
   checkCanEvaluateNotebook es
   = (Ok false,
      with_effect (NotificationWarn
        "You must create or open a notebook before evaluating it.") es)) /\
  (forall nb, working es <= 0 -> notebook es = Some nb -> readOnly nb = true ->
   checkCanEvaluateNotebook es
   = (Ok false,
      with_effect (NotificationError
        "The file for this notebook is readonly, please save it to a different location and copy any data files that it uses. Then you can run it.") es)).
Proof.
  unfold checkCanEvaluateNotebook, isWorking, with_effect, liftEd. run.
  destruct es as [nb0 w E]. simpl. split; [|split].
  - intros Hw. destruct (Z.gtb_spec w 0); [done|lia].
  - intros Hw ->. destruct (Z.gtb_spec w 0); [lia|]. done.
  - intros nb Hw -> Hro. destruct (Z.gtb_spec w 0); [lia|]. simpl.
    by rewrite Hro.
Qed.

(** X19. An evaluation command that is refused does one thing, it shows one
    notification: a warning when the editor is busy, a warning when no
    notebook is open, an error when the notebook is read-only. The notebook,
    the cells and the engine are left alone, also when the notebook is
    executing. *)
Theorem evaluate_refused (es : EdState) (cell : slot) (msg : Effect) :
  (working es > 0 /\ msg = NotificationWarn "Already working!") \/
  (working es <= 0 /\ notebook es = None /\
   msg = NotificationWarn "You must create or open a notebook before evaluating it.") \/
  (working es <= 0 /\ (exists nb, notebook es = Some nb /\ readOnly nb = true) /\
   msg = NotificationError
     "The file for this notebook is readonly, please save it to a different location and copy any data files that it uses. Then you can run it.") ->
  evaluateNotebook es = (Ok tt, with_effect msg es) /\
  evaluateToCell cell es = (Ok tt, with_effect msg es) /\
  evaluateSingleCell cell es = (Ok tt, with_effect msg es).
Proof.
  intros H.
  assert (Hcheck : checkCanEvaluateNotebook es = (Ok false, with_effect msg es)).
  { destruct (checkCanEvaluateNotebook_refuses es) as (H1 & H2 & H3).
    destruct H as [[Hw ->]|[(Hw & Hnb & ->)|(Hw & (nb & Hnb & Hro) & ->)]];
      [by apply H1|by apply H2|by apply (H3 nb)]. }
  split; [|split].
  - unfold evaluateNotebook, bind at 1. by rewrite Hcheck.
  - unfold evaluateToCell, bind at 1. by rewrite Hcheck.
  - unfold evaluateSingleCell, bind at 1. by rewrite Hcheck.
Qed.

Lemma evaluate_refused_witness :
  evaluateNotebook Sample.editor_busy
  = (Ok tt, with_effect (NotificationWarn "Already working!") Sample.editor_busy) /\
  evaluateToCell (Some 0%nat) Sample.editor_busy
  = (Ok tt, with_effect (NotificationWarn "Already working!") Sample.editor_busy) /\
  evaluateSingleCell (Some 0%nat) Sample.editor_busy
  = (Ok tt, with_effect (NotificationWarn "Already working!") Sample.editor_busy).
Proof.
  apply (evaluate_refused Sample.editor_busy (Some 0%nat)
           (NotificationWarn "Already working!")).
  left. split; [simpl; lia|reflexivity].
Defined.

Lemma mapM_serializeCellForEval (E : Env) (cs : list slot) :
  all_cells (heap E) cs ->
  mapM serializeCellForEval cs E = (Ok (contentsForEval (heap E) cs), E).
Proof.
  induction 1 as [|x cs (r & c & -> & Hc) _ IH]; [done|].
  simpl. unfold bind at 1, serializeCellForEval at 1, bind at 1, deref at 1.
  rewrite Hc. unfold ret at 1, bind at 1. rewrite IH.
  unfold contentsForEval. simpl. rewrite ?Hc. done.
Qed.

Lemma serializeForEval_ok (s : NbState) :
  all_cells (heap (env s)) (cells (this s)) ->
  serializeForEval s
  = (Ok {| Doc.version := notebookVersion
         ; Doc.nodejs := nodejsVersion (this s)
         ; Doc.language := Some (language (this s))
         ; Doc.description := None
         ; Doc.cells := Some (Some <$> contentsForEval (heap (env s)) (cells (this s)))
         ; Doc.sheet := None |}, s).
Proof.
  intros Hall. unfold serializeForEval. run.
  rewrite mapM_serializeCellForEval by done. by destruct s.
Qed.

Lemma notifyCodeEvalStarted_ok (s : NbState) :
  all_cells (heap (env s)) (cells (this s)) ->
  notifyCodeEvalStarted s
  = (Ok tt,
     {| this := set_executing true (this s)
      ; env := set_trace (trace (env s)
                          ++ [Raised (instanceId (this s)) onEvalStarted]) (env s) |}).
Proof.
  intros Hall. unfold notifyCodeEvalStarted, getCells. run.
  change Cell.notifyNotebookEvalStarted with Cell.flushChanges.
  by rewrite forEach_invoke_id.
Qed.

(** The common start of the three commands when nothing is in progress:
    the checks pass and the notebook is flushed. *)
Ltac flush_and_start Hw Hro Hex Hall :=
  unfold bind at 1;
  match goal with |- context [checkCanEvaluateNotebook ?es] =>
    rewrite (checkCanEvaluateNotebook_ok es _ eq_refl Hw Hro) end; simpl;
  unfold bind at 1, gets; simpl; rewrite Hex;
  unfold bind at 1, onNotebook at 1; simpl;
  rewrite flushChanges_ok by done; simpl.

(** The rest of a command that starts an evaluation: the notebook is
    serialized, the command is sent and the start is notified. *)
Ltac serialize_and_start :=
  unfold bind at 1, onNotebook at 1, getInstanceId, getThis, gets; simpl;
  unfold bind at 1, onNotebook at 1; simpl;
  rewrite serializeForEval_ok by done; simpl;
  unfold bind, liftEd, deref, emit, modify, onEvaluationStarted, onNotebook,
    getStorageId, getThis, gets; simpl;
  repeat match goal with
         | H : heap _ !! _ = Some _ |- _ => rewrite H
         end; simpl;
  rewrite notifyCodeEvalStarted_ok by done; simpl;
  unfold started; simpl; rewrite <- ?app_assoc; done.

(** X20. With a notebook open that is not read-only and not executing, and
    the editor not busy, [evaluateNotebook], [evaluateToCell] and, for a code
    cell, [evaluateSingleCell] flush the notebook, send the engine one
    command (with the instance id, the notebook serialized for evaluation,
    the id of the cell for the two cell commands, and the containing path of
    the storage id) and notify the start, after which the notebook is
    executing. The cell is not required to be a cell of the notebook. *)
Theorem evaluate_starts_an_evaluation (es : EdState) (nb : NotebookViewModel)
  (cell : ref) (c : CellViewModel) (doc : Doc.ISerializedNotebook1) :
  notebook es = Some nb -> working es <= 0 -> readOnly nb = false ->
  executing nb = false ->
  all_cells (heap (ed_env es)) (cells nb) ->
  heap (ed_env es) !! cell = Some c ->
  fst (serializeForEval {| this := nb; env := ed_env es |}) = Ok doc ->
  let id := instanceId nb in
  let path := getContainingPath (storageId nb) in
  started nb es (EvalNotebook id doc path) (evaluateNotebook es) /\
  started nb es (EvalToCell id doc (cell_id c) path) (evaluateToCell (Some cell) es) /\
  (cell_cellType c = Code ->
   started nb es (EvalSingleCell id doc (cell_id c) path)
     (evaluateSingleCell (Some cell) es)).
Proof.
  destruct es as [n w E]. simpl. intros -> Hw Hro Hex Hall Hc Hdoc.
  rewrite serializeForEval_ok in Hdoc by done. simpl in Hdoc. injection Hdoc as <-.
  split; [|split].
  - unfold evaluateNotebook. flush_and_start Hw Hro Hex Hall.
    serialize_and_start.
  - unfold evaluateToCell. flush_and_start Hw Hro Hex Hall.
    serialize_and_start.
  - intros Ht. unfold evaluateSingleCell. flush_and_start Hw Hro Hex Hall.
    unfold bind at 1, liftEd at 1, deref. simpl. rewrite Hc, Ht. simpl.
    serialize_and_start.
Qed.

Lemma evaluate_starts_an_evaluation_witness :
  let es := {| notebook := Some (this Sample.abc); working := 0
             ; ed_env := env Sample.abc |} in
  let doc := match fst (serializeForEval Sample.abc) with
             | Ok doc => doc
             | Throw _ => Sample.doc_v3
             end in
  started (this Sample.abc) es (EvalNotebook 0%nat doc "") (evaluateNotebook es) /\
  started (this Sample.abc) es (EvalToCell 0%nat doc "D" "")
    (evaluateToCell (Some 3%nat) es) /\
  started (this Sample.abc) es (EvalSingleCell 0%nat doc "C" "")
    (evaluateSingleCell (Some 2%nat) es).
Proof.
  assert (H := fun cell c Hc =>
    evaluate_starts_an_evaluation
      {| notebook := Some (this Sample.abc); working := 0; ed_env := env Sample.abc |}
      (this Sample.abc) cell c
      (match fst (serializeForEval Sample.abc) with
       | Ok doc => doc
       | Throw _ => Sample.doc_v3
       end)
      eq_refl ltac:(simpl; lia) eq_refl eq_refl
      ltac:(repeat constructor; eexists _, _; split; reflexivity)
      Hc eq_refl).
  split; [exact (proj1 (H 3%nat (Sample.cell "D" Code) eq_refl))|].
  split; [exact (proj1 (proj2 (H 3%nat (Sample.cell "D" Code) eq_refl)))|].
  exact (proj2 (proj2 (H 2%nat (Sample.cell "C" Code) eq_refl)) eq_refl).
Defined.

(** X21. With a notebook open that is not read-only and not executing, and
    the editor not busy, [evaluateSingleCell] of a cell that is not a code
    cell flushes the notebook and shows a warning; the engine gets no
    command and the notebook stays as it is, not executing. *)
Theorem evaluateSingleCell_of_a_markdown_cell (es : EdState) (nb : NotebookViewModel)
  (cell : ref) (c : CellViewModel) :
  notebook es = Some nb -> working es <= 0 -> readOnly nb = false ->
  executing nb = false ->
  all_cells (heap (ed_env es)) (cells nb) ->
  heap (ed_env es) !! cell = Some c ->
  cell_cellType c = Markdown ->
  evaluateSingleCell (Some cell) es
  = (Ok tt,
     with_effect (NotificationWarn "Requested cell is not a code cell.")
       (with_effect (Raised (instanceId nb) onFlushChanges) es)).
Proof.
  destruct es as [n w E]. simpl. intros -> Hw Hro Hex Hall Hc Ht.
  unfold evaluateSingleCell. flush_and_start Hw Hro Hex Hall.
  unfold bind at 1, liftEd at 1, deref. simpl. rewrite Hc, Ht. simpl.
  unfold liftEd, emit, modify, with_effect. simpl. done.
Qed.

Lemma evaluateSingleCell_of_a_markdown_cell_witness :
  let es := {| notebook := Some (this Sample.abc); working := 0
             ; ed_env := env Sample.abc |} in
  evaluateSingleCell (Some 1%nat) es
  = (Ok tt,
     with_effect (NotificationWarn "Requested cell is not a code cell.")
       (with_effect (Raised 0%nat onFlushChanges) es)).
Proof.
  apply (evaluateSingleCell_of_a_markdown_cell
           {| notebook := Some (this Sample.abc); working := 0
            ; ed_env := env Sample.abc |}
           (this Sample.abc) 1%nat (Sample.cell "B" Markdown)).
  - reflexivity.
  - simpl. lia.
  - reflexivity.
  - reflexivity.
  - repeat constructor; eexists _, _; split; reflexivity.
  - reflexivity.
  - reflexivity.
Defined.

(** ** The events of the evaluation engine *)

Lemma first_cell_Some (h : list CellViewModel) (p : CellViewModel -> bool)
  (cs : list slot) (r : ref) :
  first_cell h p cs = Some r ->
  Some r ∈ cs /\ exists c, h !! r = Some c /\ p c = true.
Proof.
  induction cs as [|x cs IH]; [done|]. simpl.
  destruct x as [r'|]; [|intros H; destruct (IH H); split; [by right|done]].
  destruct (h !! r') as [c|] eqn:Hc;
    [|intros H; destruct (IH H); split; [by right|done]].
  destruct (p c) eqn:Hp; [|intros H; destruct (IH H); split; [by right|done]].
  intros [= <-]. split; [left|by exists c].
Qed.

(** The cell of a given id depends on the ids of the cell objects only. *)
Lemma first_cell_ids (h h' : list CellViewModel) (cellId : string) (cs : list slot) :
  cell_id <$> h' = cell_id <$> h ->
  first_cell h' (is_id cellId) cs = first_cell h (is_id cellId) cs.
Proof.
  intros Hids. induction cs as [|x cs IH]; [done|]. simpl.
  destruct x as [r|]; [|done].
  assert (H : cell_id <$> h' !! r = cell_id <$> h !! r)
    by (by rewrite <- !list_lookup_fmap, Hids).
  destruct (h' !! r) as [c'|], (h !! r) as [c|]; simpl in H; try done.
  injection H as H. unfold is_id at 1 3. rewrite H.
  by destruct (String.eqb (cell_id c) cellId).
Qed.

Lemma onNotebook_findCell (cellId : string) (nb : NotebookViewModel) (w : Z) (E : Env) :
  all_cells (heap E) (cells nb) ->
  onNotebook (findCell cellId) {| notebook := Some nb; working := w; ed_env := E |}
  = (Ok (first_cell (heap E) (is_id cellId) (cells nb)),
     {| notebook := Some nb; working := w; ed_env := E |}).
Proof.
  intros Hall. unfold onNotebook. simpl.
  by rewrite (findCell_ok cellId {| this := nb; env := E |}).
Qed.

(** X22. The events "cell-eval-started" and "cell-eval-completed" act on
    the first cell of the notebook that has the id of the event, and on it
    only: the one marks it executing, the other not executing, and nothing
    is logged. When no cell has the id, the handler returns, logs one error
    and changes no cell. *)
Theorem cell_evaluation_events (es : EdState) (nb : NotebookViewModel)
  (cellId : string) :
  notebook es = Some nb ->
  all_cells (heap (ed_env es)) (cells nb) ->
  let h := heap (ed_env es) in
  (forall r, first_cell h (is_id cellId) (cells nb) = Some r ->
     exists c, h !! r = Some c /\ cell_id c = cellId /\
       cell_eval_started cellId es
       = (Ok tt, with_heap (<[r := Cell.set_executing true c]> h) es) /\
       cell_eval_completed cellId es
       = (Ok tt, with_heap (<[r := Cell.set_executing false c]> h) es)) /\
  (first_cell h (is_id cellId) (cells nb) = None ->
   cell_eval_started cellId es
   = (Ok tt, with_effect
               (LogError ("cell-eval-started: Failed to find cell " +:+ cellId)) es) /\
   cell_eval_completed cellId es
   = (Ok tt, with_effect
               (LogError ("cell-eval-completed: Failed to find cell " +:+ cellId)) es)).
Proof.
  destruct es as [n w E]. simpl. intros -> Hall.
  unfold cell_eval_started, cell_eval_completed, bind.
  rewrite onNotebook_findCell by done. split.
  - intros r Hr. rewrite Hr.
    apply first_cell_Some in Hr as (_ & c & Hc & Hid).
    exists c. split; [done|]. split; [by apply String.eqb_eq|].
    unfold liftEd. simpl. by rewrite !(invoke_ok _ _ c).
  - intros ->. done.
Qed.

Lemma cell_evaluation_events_witness :
  let es := {| notebook := Some (this Sample.abc); working := 0
             ; ed_env := env Sample.abc |} in
  cell_eval_started "C" es
  = (Ok tt, with_heap (<[2%nat := Cell.set_executing true (Sample.cell "C" Code)]>
                         (heap (env Sample.abc))) es) /\
  cell_eval_completed "D" es
  = (Ok tt, with_effect (LogError "cell-eval-completed: Failed to find cell D") es).
Proof.
  destruct (cell_evaluation_events
              {| notebook := Some (this Sample.abc); working := 0
               ; ed_env := env Sample.abc |} (this Sample.abc) "C" eq_refl) as [H1 _].
  { repeat constructor; eexists _, _; split; reflexivity. }
  destruct (cell_evaluation_events
              {| notebook := Some (this Sample.abc); working := 0
               ; ed_env := env Sample.abc |} (this Sample.abc) "D" eq_refl) as [_ H2].
  { repeat constructor; eexists _, _; split; reflexivity. }
  destruct (H1 2%nat eq_refl) as (c & Hc & _ & Hs & _).
  injection Hc as <-.
  split; [exact Hs|exact (proj2 (H2 eq_refl))].
Defined.

Lemma target_ids (h h' : list CellViewModel) (cs : list slot) (o : CellOutput) :
  cell_id <$> h' = cell_id <$> h -> target h' cs o = target h cs o.
Proof. apply first_cell_ids. Qed.

Lemma set_output_id (c : CellViewModel) :
  CellOps.set_output (cell_output c ++ []) c = c.
Proof. rewrite app_nil_r. by destruct c. Qed.

(** The loop of "receive-display", from any state of the cell objects. *)
Lemma receive_display_run (nb : NotebookViewModel) (w : Z) (outputs : list CellOutput)
  (E : Env) :
  all_cells (heap E) (cells nb) ->
  exists h',
    receive_display outputs {| notebook := Some nb; working := w; ed_env := E |}
    = (Ok tt,
       {| notebook := Some nb; working := w
        ; ed_env := set_trace (trace E ++ outputs_lost (heap E) (cells nb) outputs)
                      (set_heap h' E) |}) /\
    forall r,
      h' !! r
      = (fun c => CellOps.set_output
                    (cell_output c ++ outputs_for (heap E) (cells nb) r outputs) c)
          <$> heap E !! r.
Proof.
  revert E. induction outputs as [|o outputs IH]; intros E Hall.
  - exists (heap E). split.
    + unfold outputs_lost. simpl. rewrite app_nil_r. by destruct E.
    + intros r. destruct (heap E !! r) as [c|]; [|done]. simpl.
      unfold outputs_for. simpl. by rewrite set_output_id.
  - unfold receive_display. cbn [forEach]. unfold bind at 1.
    unfold receive_display_one at 1, bind at 1.
    rewrite onNotebook_findCell by done.
    destruct (first_cell (heap E) (is_id (out_cellId o)) (cells nb)) as [r0|] eqn:Ht.
    + destruct (first_cell_Some _ _ _ _ Ht) as (_ & c0 & Hc0 & _).
      unfold liftEd at 1. simpl. rewrite (invoke_ok _ _ c0) by done.
      set (E1 := set_heap (<[r0 := CellOps.addOutput (out_output o) c0]> (heap E)) E).
      assert (Hids : cell_id <$> heap E1 = cell_id <$> heap E)
        by (by apply (ids_insert _ _ c0)).
      destruct (IH E1) as (h' & Hrun & Hh'); [by apply all_cells_insert|].
      fold (receive_display outputs). rewrite Hrun.
      exists h'. split.
      * unfold outputs_lost. simpl. unfold target at 2. rewrite Ht. simpl.
        rewrite (List.filter_ext _ (fun o => slot_eqb (target (heap E) (cells nb) o) None))
          by (intros o'; by rewrite (target_ids _ _ _ o' Hids)).
        by destruct E.
      * intros r. rewrite Hh'. unfold outputs_for. simpl.
        rewrite (List.filter_ext _ (fun o => slot_eqb (target (heap E) (cells nb) o) (Some r)))
          by (intros o'; by rewrite (target_ids _ _ _ o' Hids)).
        unfold target at 2. rewrite Ht. simpl.
        destruct (Nat.eqb_spec r0 r) as [<-|Hne].
        -- rewrite list_lookup_insert_eq by (by eapply lookup_lt_Some).
           rewrite Hc0. simpl. by rewrite <- app_assoc.
        -- by rewrite list_lookup_insert_ne.
    + unfold liftEd at 1, emit, modify. simpl.
      set (E1 := set_trace _ E).
      destruct (IH E1) as (h' & Hrun & Hh'); [done|].
      fold (receive_display outputs). rewrite Hrun.
      exists h'. split.
      * unfold outputs_lost. simpl. unfold target at 2. rewrite Ht. simpl.
        rewrite <- app_assoc. by destruct E.
      * intros r. rewrite Hh'. unfold outputs_for. simpl.
        unfold target at 2. by rewrite Ht.
Qed.

(** X23. A "receive-display" event is handled to the end whatever its
    outputs name: every cell object gets, appended to its outputs and in the
    order of the event, the outputs whose id finds it (the first cell of the
    notebook with that id); an output whose id no cell has is logged as an
    error, in order, and does not stop the ones after it. *)
Theorem receive_display_appends (es : EdState) (nb : NotebookViewModel)
  (outputs : list CellOutput) :
  notebook es = Some nb ->
  all_cells (heap (ed_env es)) (cells nb) ->
  let h := heap (ed_env es) in
  let es' := snd (receive_display outputs es) in
  fst (receive_display outputs es) = Ok tt /\
  notebook es' = Some nb /\
  trace (ed_env es') = trace (ed_env es) ++ outputs_lost h (cells nb) outputs /\
  forall r c, h !! r = Some c ->
    heap (ed_env es') !! r
    = Some (CellOps.set_output (cell_output c ++ outputs_for h (cells nb) r outputs) c).
Proof.
  destruct es as [n w E]. simpl. intros -> Hall.
  destruct (receive_display_run nb w outputs E Hall) as (h' & -> & Hh').
  simpl. split; [done|]. split; [done|]. split; [done|].
  intros r c Hc. by rewrite Hh', Hc.
Qed.

Lemma receive_display_appends_witness :
  let es := {| notebook := Some (this Sample.abc); working := 0
             ; ed_env := env Sample.abc |} in
  let outputs := [ {| out_cellId := "C"; out_output := "1" |}
                 ; {| out_cellId := "D"; out_output := "2" |}
                 ; {| out_cellId := "A"; out_output := "3" |}
                 ; {| out_cellId := "C"; out_output := "4" |} ] in
  let es' := snd (receive_display outputs es) in
  fst (receive_display outputs es) = Ok tt /\
  trace (ed_env es') = [LogError "receive-display: Failed to find cell D"] /\
  heap (ed_env es') !! 2%nat
  = Some (CellOps.set_output ["1"; "4"] (Sample.cell "C" Code)) /\
  heap (ed_env es') !! 3%nat = Some (Sample.cell "D" Code).
Proof.
  destruct (receive_display_appends
              {| notebook := Some (this Sample.abc); working := 0
               ; ed_env := env Sample.abc |} (this Sample.abc)
              [ {| out_cellId := "C"; out_output := "1" |}
              ; {| out_cellId := "D"; out_output := "2" |}
              ; {| out_cellId := "A"; out_output := "3" |}
              ; {| out_cellId := "C"; out_output := "4" |} ] eq_refl)
    as (H1 & _ & H3 & H4).
  { repeat constructor; eexists _, _; split; reflexivity. }
  split; [exact H1|]. split; [exact H3|].
  split; [exact (H4 2%nat _ eq_refl)|exact (H4 3%nat _ eq_refl)].
Defined.

(** ** Blocking tasks *)

(** Up to 2^53 the counter is exact. *)
Lemma to_number_exact (z : Z) : Z.abs z <= two_53 -> to_number z = z.
Proof.
  intros H. unfold to_number. by destruct (Z.leb_spec (Z.abs z) two_53); [|lia].
Qed.

Lemma startBlockingTask_run (s : AppState) :
  startBlockingTask s
  = (Ok tt,
     {| editor := set_working (increment (working (editor s))) (editor s)
      ; calls := calls s ++ (if working (editor s) <=? 0 then [isWorkingChanged] else []) |}).
Proof.
  unfold startBlockingTask, liftApp, call. run.
  destruct (working (editor s) <=? 0); simpl; [done|by rewrite app_nil_r].
Qed.

Lemma endBlockingTask_run (s : AppState) :
  endBlockingTask s
  = (Ok tt,
     {| editor := set_working (decrement (working (editor s))) (editor s)
      ; calls := calls s
                 ++ (if decrement (working (editor s)) <=? 0
                     then [isWorkingChanged] else []) |}).
Proof.
  unfold endBlockingTask, liftApp, call. run.
  destruct (decrement (working (editor s)) <=? 0); simpl; [done|by rewrite app_nil_r].
Qed.

(** X24. Blocking tasks nest, as long as the counter stays below 2^53,
    where a JavaScript number stops counting by one: after [n] tasks started
    one inside the other and ended in reverse order the counter is back where
    it was, and when the editor was idle before, the is-working-changed event
    has been raised twice, by the outermost start and the outermost end, and
    by none of the inner ones; with a task already in progress no event is
    raised at all. After a start the editor is busy. *)
Theorem blocking_tasks_nest (n : nat) (s : AppState) :
  0 <= working (editor s) ->
  working (editor s) + Z.of_nat n < two_53 ->
  nested_tasks n s
  = (Ok tt,
     {| editor := editor s
      ; calls := calls s
                 ++ (if (working (editor s) =? 0) && negb (Nat.eqb n 0)
                     then [isWorkingChanged; isWorkingChanged] else []) |}) /\
  fst (liftApp isWorking (snd (startBlockingTask s))) = Ok true.
Proof.
  intros Hw Hmax. split.
  - revert s Hw Hmax. induction n as [|n IH]; intros s Hw Hmax.
    + simpl. rewrite Bool.andb_false_r, app_nil_r. by destruct s.
    + assert (Hup : increment (working (editor s)) = working (editor s) + 1)
        by (apply to_number_exact; lia).
      assert (Hdown : decrement (working (editor s) + 1) = working (editor s))
        by (unfold decrement; rewrite to_number_exact by lia; lia).
      cbn [nested_tasks]. unfold bind at 1. rewrite startBlockingTask_run, Hup.
      unfold bind at 1. rewrite IH by (simpl; lia).
      rewrite endBlockingTask_run. simpl. rewrite Hdown.
      replace (working (editor s) + 1 =? 0) with false by lia.
      simpl. rewrite app_nil_r.
      destruct s as [[nb w E] cs]. unfold set_working. simpl in *.
      destruct (Z.eqb_spec w 0) as [->|Hne]; simpl.
      * by rewrite <- app_assoc.
      * replace (w <=? 0) with false by lia. by rewrite !app_nil_r.
  - rewrite startBlockingTask_run. unfold liftApp, isWorking. run.
    unfold increment. rewrite to_number_exact by lia. f_equal. lia.
Qed.

Lemma blocking_tasks_nest_witness :
  let s := {| editor := {| notebook := None; working := 0; ed_env := env Sample.abc |}
            ; calls := [] |} in
  nested_tasks 3 s
  = (Ok tt, {| editor := editor s; calls := [isWorkingChanged; isWorkingChanged] |}) /\
  fst (liftApp isWorking (snd (startBlockingTask s))) = Ok true.
Proof.
  apply (blocking_tasks_nest 3
           {| editor := {| notebook := None; working := 0; ed_env := env Sample.abc |}
            ; calls := [] |}).
  - simpl. lia.
  - vm_compute. reflexivity.
Defined.

(** At 2^53 the counter does not count: a start leaves it as it is (2^53 + 1
    is no double and is rounded to 2^53), and the end that follows takes one
    off, so that the task leaves the counter one lower than it found it. *)
Example blocking_task_at_the_limit :
  let s := {| editor := {| notebook := None; working := two_53; ed_env := env Sample.abc |}
            ; calls := [] |} in
  working (editor (snd (startBlockingTask s))) = two_53 /\
  working (editor (snd (nested_tasks 1 s))) = two_53 - 1.
Proof. vm_compute. split; reflexivity. Qed.

(** ** Saving from the editor *)

(** The start of the two save commands when the editor is idle and a
    notebook is open. *)
Lemma idle_with_notebook (s : AppState) (nb : NotebookViewModel) :
  notebook (editor s) = Some nb -> working (editor s) <= 0 ->
  liftApp isWorking s = (Ok false, s) /\
  liftApp (gets notebook) s = (Ok (Some nb), s).
Proof.
  intros Hnb Hw. unfold liftApp, isWorking. run.
  destruct s as [es cs]. simpl in *. rewrite Hnb.
  by destruct (Z.gtb_spec (working es) 0); [lia|].
Qed.

Lemma saveNotebookAs_run (user : User) (s : AppState) (nb : NotebookViewModel) :
  notebook (editor s) = Some nb -> working (editor s) <= 0 ->
  saveNotebookAs user s
  = match saveAsAnswer user (storageId nb) with
    | None =>
        (Ok tt, {| editor := editor s
                 ; calls := calls s ++ [ShowNotebookSaveAsDialog (storageId nb)] |})
    | Some newStorageId =>
        (call onOpenNotebookWillChange ;;
         liftApp (onNotebook (saveAs newStorageId)) ;;
         call (AddRecentFile newStorageId) ;;
         notifyOpenNotebookChanged false)
          {| editor := editor s
           ; calls := calls s ++ [ShowNotebookSaveAsDialog (storageId nb)] |}
    end.
Proof.
  intros Hnb Hw. destruct (idle_with_notebook s nb Hnb Hw) as [Hidle Hget].
  unfold saveNotebookAs. unfold bind at 1. rewrite Hidle.
  unfold bind at 1. rewrite Hget.
  by destruct (saveAsAnswer user (storageId nb)).
Qed.

(** X25. [saveNotebookAs], with a notebook open and the editor idle, asks
    for a storage id. When the user cancels, nothing else happens. When the
    write under the chosen id is accepted, the notebook is saved under it
    (not unsaved, not read-only, not modified), the id is added to the recent
    files, and the will-change and changed events are raised around the
    save, the undo stack being cleared last. When the write is rejected the
    command throws the rejection after the will-change event: the notebook is
    as before, no recent file is added and no changed event follows. *)
Theorem saveNotebookAs_outcomes (user : User) (s : AppState) (nb : NotebookViewModel)
  (doc : Doc.ISerializedNotebook1) :
  notebook (editor s) = Some nb ->
  working (editor s) <= 0 ->
  all_cells (heap (ed_env (editor s))) (cells nb) ->
  fst (serialize {| this := nb; env := ed_env (editor s) |}) = Ok doc ->
  let dialog := ShowNotebookSaveAsDialog (storageId nb) in
  let out := saveNotebookAs user s in
  match saveAsAnswer user (storageId nb) with
  | None => out = (Ok tt, {| editor := editor s; calls := calls s ++ [dialog] |})
  | Some newStorageId =>
      match writeNotebook (notebookRepository (ed_env (editor s))) doc newStorageId with
      | None =>
          fst out = Ok tt /\
          notebook (editor (snd out))
          = Some (set_readOnly false
                    (set_storageId newStorageId
                       (set_unsaved false (set_modified false nb)))) /\
          calls (snd out)
          = calls s ++ [dialog; onOpenNotebookWillChange; AddRecentFile newStorageId;
                        onOpenNotebookChanged false;
                        UndoRedoClearStack (Some (instanceId nb))]
      | Some reason =>
          fst out = Throw (StorageFailure reason) /\
          notebook (editor (snd out)) = Some nb /\
          calls (snd out) = calls s ++ [dialog; onOpenNotebookWillChange]
      end
  end.
Proof.
  intros Hnb Hw Hall Hdoc dialog out.
  pose proof (saveNotebookAs_run user s nb Hnb Hw) as Hout.
  change (saveNotebookAs user s) with out in Hout. clearbody out.
  destruct (saveAsAnswer user (storageId nb)) as [newStorageId|]; [|done].
  destruct (saveAs_run newStorageId {| this := nb; env := ed_env (editor s) |} Hall)
    as (doc' & Hs & Hrun).
  rewrite Hs in Hdoc. injection Hdoc as ->. simpl in Hrun.
  destruct s as [[n w E] cs]. simpl in *. subst n.
  unfold call, notifyOpenNotebookChanged, liftApp, onNotebook in Hout.
  unfold bind, modify, gets in Hout. simpl in Hout.
  destruct (writeNotebook (notebookRepository E) doc newStorageId) as [reason|];
    destruct Hrun as [E' Hrun]; rewrite Hrun in Hout; subst out dialog; simpl;
    rewrite <- ?app_assoc; done.
Qed.

Lemma saveNotebookAs_outcomes_witness :
  let user := {| saveAsAnswer := fun _ => Some Sample.file
               ; confirmAnswer := fun _ _ => Cancel |} in
  let s := {| editor := {| notebook := Some (this Sample.abc); working := 0
                         ; ed_env := env Sample.abc |}
            ; calls := [] |} in
  let out := saveNotebookAs user s in
  fst out = Ok tt /\
  notebook (editor (snd out))
  = Some (set_readOnly false
            (set_storageId Sample.file
               (set_unsaved false (set_modified false (this Sample.abc))))) /\
  calls (snd out)
  = [ShowNotebookSaveAsDialog Sample.untitled; onOpenNotebookWillChange;
     AddRecentFile Sample.file; onOpenNotebookChanged false;
     UndoRedoClearStack (Some 0%nat)].
Proof.
  apply (saveNotebookAs_outcomes
           {| saveAsAnswer := fun _ => Some Sample.file
            ; confirmAnswer := fun _ _ => Cancel |}
           {| editor := {| notebook := Some (this Sample.abc); working := 0
                         ; ed_env := env Sample.abc |}
            ; calls := [] |}
           (this Sample.abc)
           (match fst (serialize Sample.abc) with
            | Ok doc => doc
            | Throw _ => Sample.doc_v3
            end)).
  - reflexivity.
  - simpl. lia.
  - repeat constructor; eexists _, _; split; reflexivity.
  - reflexivity.
Defined.

(** [saveNotebook] with the editor busy, and its choice between the two
    ways of saving when the editor is idle. *)
Lemma saveNotebook_busy (user : User) (s : AppState) :
  working (editor s) > 0 ->
  saveNotebook user s
  = (Ok tt, {| editor := with_effect (NotificationWarn "Already working!") (editor s)
             ; calls := calls s |}).
Proof.
  intros Hw. unfold saveNotebook, liftApp, isWorking, liftEd, with_effect. run.
  by destruct (Z.gtb_spec (working (editor s)) 0); [|lia].
Qed.

Lemma saveNotebook_run (user : User) (s : AppState) (nb : NotebookViewModel) :
  notebook (editor s) = Some nb -> working (editor s) <= 0 ->
  saveNotebook user s
  = if unsaved nb || readOnly nb
    then saveNotebookAs user s
    else liftApp (onNotebook save) s.
Proof.
  intros Hnb Hw. destruct (idle_with_notebook s nb Hnb Hw) as [Hidle Hget].
  unfold saveNotebook. unfold bind at 1. rewrite Hidle.
  unfold bind at 1. rewrite Hget. by destruct (unsaved nb || readOnly nb).
Qed.

(** [this.notebook.save()] on a notebook that is writable and has been
    saved before. *)
Lemma onNotebook_save_run (s : AppState) (nb : NotebookViewModel)
  (doc : Doc.ISerializedNotebook1) :
  notebook (editor s) = Some nb ->
  all_cells (heap (ed_env (editor s))) (cells nb) ->
  unsaved nb = false -> readOnly nb = false ->
  fst (serialize {| this := nb; env := ed_env (editor s) |}) = Ok doc ->
  let E := ed_env (editor s) in
  let t := trace E
           ++ [LogInfo ("Saving notebook: " +:+ displayName (storageId nb));
               Raised (instanceId nb) onFlushChanges;
               WriteNotebook doc (storageId nb)] in
  liftApp (onNotebook save) s
  = match writeNotebook (notebookRepository E) doc (storageId nb) with
    | Some reason =>
        (Throw (StorageFailure reason),
         {| editor := {| notebook := Some nb; working := working (editor s)
                       ; ed_env := set_trace t E |}
          ; calls := calls s |})
    | None =>
        (Ok tt,
         {| editor :=
              {| notebook := Some (set_modified false nb)
               ; working := working (editor s)
               ; ed_env :=
                   set_trace
                     (t ++ (if modified nb
                            then [Raised (instanceId nb) onModified] else [])
                        ++ [LogInfo ("Saved notebook: "
                                     +:+ displayName (storageId nb))]) E |}
          ; calls := calls s |})
    end.
Proof.
  intros Hnb Hall Hu Hro Hdoc E t. subst t E.
  pose proof (save_run {| this := nb; env := ed_env (editor s) |} doc Hall Hro Hu Hdoc)
    as Hsave.
  simpl in Hsave.
  unfold liftApp, onNotebook. rewrite Hnb, Hsave.
  by destruct (writeNotebook _ _ _).
Qed.

(** What [saveNotebookAs] does in every case, with a notebook open and the
    editor idle: it shows the dialog first, and it returns or throws the
    rejection of the write. *)
Lemma saveNotebookAs_dialog_first (user : User) (s : AppState) (nb : NotebookViewModel) :
  notebook (editor s) = Some nb -> working (editor s) <= 0 ->
  all_cells (heap (ed_env (editor s))) (cells nb) ->
  (exists rest,
     calls (snd (saveNotebookAs user s))
     = calls s ++ ShowNotebookSaveAsDialog (storageId nb) :: rest) /\
  (fst (saveNotebookAs user s) = Ok tt \/
   exists reason, fst (saveNotebookAs user s) = Throw (StorageFailure reason)).
Proof.
  intros Hnb Hw Hall. rewrite (saveNotebookAs_run user s nb Hnb Hw).
  destruct (saveAsAnswer user (storageId nb)) as [newStorageId|];
    [|split; [by exists []|by left]].
  destruct (saveAs_run newStorageId {| this := nb; env := ed_env (editor s) |} Hall)
    as (doc & _ & Hrun).
  destruct s as [[n w E] cs]. simpl in *. subst n.
  unfold call, notifyOpenNotebookChanged, liftApp, onNotebook.
  unfold bind, modify, gets. simpl.
  destruct (writeNotebook (notebookRepository E) doc newStorageId) as [reason|];
    destruct Hrun as [E' ->]; simpl; rewrite <- ?app_assoc; simpl.
  - split; [by eexists|right; by exists reason].
  - split; [by eexists|by left].
Qed.

(** X26. [saveNotebook] with a notebook open. When the editor is busy it
    shows a warning and does nothing else. When the notebook is unsaved or
    read-only it does what [saveNotebookAs] does, beginning with the save-as
    dialog, and so never runs into the two guards of [save]. Otherwise it
    shows no dialog and saves under the notebook's own storage id: an
    accepted write leaves the notebook unmodified, a rejected one is thrown
    and leaves the notebook as it was. In every case the command returns or
    throws the rejection of the write, nothing else. *)
Theorem saveNotebook_routing (user : User) (s : AppState) (nb : NotebookViewModel)
  (doc : Doc.ISerializedNotebook1) :
  notebook (editor s) = Some nb ->
  all_cells (heap (ed_env (editor s))) (cells nb) ->
  fst (serialize {| this := nb; env := ed_env (editor s) |}) = Ok doc ->
  let E := ed_env (editor s) in
  let out := saveNotebook user s in
  let written :=
    [LogInfo ("Saving notebook: " +:+ displayName (storageId nb));
     Raised (instanceId nb) onFlushChanges; WriteNotebook doc (storageId nb)] in
  (working (editor s) > 0 ->
   out = (Ok tt, {| editor := with_effect (NotificationWarn "Already working!") (editor s)
                  ; calls := calls s |})) /\
  (working (editor s) <= 0 -> unsaved nb || readOnly nb = true ->
   out = saveNotebookAs user s /\
   exists rest,
     calls (snd out) = calls s ++ ShowNotebookSaveAsDialog (storageId nb) :: rest) /\
  (working (editor s) <= 0 -> unsaved nb = false -> readOnly nb = false ->
   calls (snd out) = calls s /\
   match writeNotebook (notebookRepository E) doc (storageId nb) with
   | None =>
       fst out = Ok tt /\
       notebook (editor (snd out)) = Some (set_modified false nb) /\
       trace (ed_env (editor (snd out)))
       = trace E ++ written
         ++ (if modified nb then [Raised (instanceId nb) onModified] else [])
         ++ [LogInfo ("Saved notebook: " +:+ displayName (storageId nb))]
   | Some reason =>
       fst out = Throw (StorageFailure reason) /\
       notebook (editor (snd out)) = Some nb /\
       trace (ed_env (editor (snd out))) = trace E ++ written
   end) /\
  (fst out = Ok tt \/ exists reason, fst out = Throw (StorageFailure reason)).
Proof.
  intros Hnb Hall Hdoc E out written.
  assert (Hbusy : working (editor s) > 0 ->
            out = (Ok tt,
                   {| editor := with_effect (NotificationWarn "Already working!") (editor s)
                    ; calls := calls s |}))
    by (intros Hw; by apply saveNotebook_busy).
  assert (Has : working (editor s) <= 0 -> unsaved nb || readOnly nb = true ->
            out = saveNotebookAs user s).
  { intros Hw Hguard. unfold out. by rewrite (saveNotebook_run user s nb Hnb Hw), Hguard. }
  assert (Hsave : working (editor s) <= 0 -> unsaved nb = false -> readOnly nb = false ->
            out = liftApp (onNotebook save) s).
  { intros Hw Hu Hro. unfold out.
    by rewrite (saveNotebook_run user s nb Hnb Hw), Hu, Hro. }
  clearbody out.
  pose proof (onNotebook_save_run s nb doc Hnb Hall) as Hrun.
  split; [exact Hbusy|]. split; [|split].
  - intros Hw Hguard. rewrite (Has Hw Hguard). split; [done|].
    by destruct (saveNotebookAs_dialog_first user s nb Hnb Hw Hall).
  - intros Hw Hu Hro. rewrite (Hsave Hw Hu Hro), (Hrun Hu Hro Hdoc).
    fold E. destruct (writeNotebook _ _ _); simpl; rewrite <- ?app_assoc; done.
  - destruct (Z.gtb_spec (working (editor s)) 0) as [Hw|Hw].
    { left. by rewrite (Hbusy ltac:(lia)). }
    destruct (unsaved nb || readOnly nb) eqn:Hguard.
    + rewrite (Has Hw eq_refl).
      by destruct (saveNotebookAs_dialog_first user s nb Hnb Hw Hall).
    + apply Bool.orb_false_elim in Hguard as [Hu Hro].
      rewrite (Hsave Hw Hu Hro), (Hrun Hu Hro Hdoc).
      destruct (writeNotebook _ _ _) as [reason|]; [right; by exists reason|by left].
Qed.

Lemma saveNotebook_routing_witness :
  let user := {| saveAsAnswer := fun _ => None; confirmAnswer := fun _ _ => Save |} in
  let app (nb : NotebookViewModel) :=
    {| editor := {| notebook := Some nb; working := 0; ed_env := env Sample.abc |}
     ; calls := [] |} in
  let saved := set_modified true (set_unsaved false (set_storageId Sample.file
                                                        (this Sample.abc))) in
  fst (save Sample.unsaved_readOnly) = Throw ReadOnlyFile /\
  (exists rest,
     calls (snd (saveNotebook user (app (this Sample.unsaved_readOnly))))
     = ShowNotebookSaveAsDialog Sample.untitled :: rest) /\
  calls (snd (saveNotebook user (app saved))) = [] /\
  fst (saveNotebook user (app saved)) = Ok tt /\
  notebook (editor (snd (saveNotebook user (app saved))))
  = Some (set_modified false saved).
Proof.
  split; [reflexivity|].
  pose (user := {| saveAsAnswer := fun _ : INotebookStorageId => @None INotebookStorageId
                 ; confirmAnswer := fun _ _ : string => Save |}).
  split.
  - destruct (saveNotebook_routing user
                {| editor := {| notebook := Some (this Sample.unsaved_readOnly)
                              ; working := 0; ed_env := env Sample.abc |}
                 ; calls := [] |}
                (this Sample.unsaved_readOnly)
                (match fst (serialize Sample.abc) with
                 | Ok doc => doc
                 | Throw _ => Sample.doc_v3
                 end) eq_refl) as (_ & H & _).
    + repeat constructor; eexists _, _; split; reflexivity.
    + reflexivity.
    + destruct H as [_ H]; [simpl; lia|reflexivity|exact H].
  - destruct (saveNotebook_routing user
                {| editor := {| notebook :=
                                  Some (set_modified true
                                          (set_unsaved false
                                             (set_storageId Sample.file (this Sample.abc))))
                              ; working := 0; ed_env := env Sample.abc |}
                 ; calls := [] |}
                (set_modified true
                   (set_unsaved false (set_storageId Sample.file (this Sample.abc))))
                (match fst (serialize Sample.abc) with
                 | Ok doc => doc
                 | Throw _ => Sample.doc_v3
                 end) eq_refl) as (_ & _ & H & _).
    + repeat constructor; eexists _, _; split; reflexivity.
    + reflexivity.
    + destruct H as (H1 & H2 & H3 & _); [simpl; lia|reflexivity|reflexivity|].
      split; [exact H1|]. split; [exact H2|exact H3].
Defined.

(** X27. [promptSave] shows no dialog and lets the operation proceed when
    no notebook is open or the notebook is not modified. For a modified
    notebook it asks once: on cancel it makes the operation stop, on "don't
    save" it lets it proceed, both without saving. On "save" it runs
    [saveNotebook] and ends as that does: it lets the operation proceed when
    the save returns, also when nothing was saved and the notebook is still
    modified (the editor is busy, or the notebook has never been saved and
    the user cancels the save-as dialog), and it throws when the save
    throws, as it does when the write is rejected. *)
Theorem promptSave_outcomes (user : User) (s : AppState) (title : string) :
  (notebook (editor s) = None \/
   (exists nb, notebook (editor s) = Some nb /\ modified nb = false) ->
   promptSave user title s = (Ok true, s)) /\
  (forall nb, notebook (editor s) = Some nb -> modified nb = true ->
   let msg := "Do you want to save changes that you made to "
              +:+ displayName (storageId nb) +:+ crlf
              +:+ "If you don't save your changes will be lost." in
   let confirm := ShowConfirmationDialog title msg in
   let asked := {| editor := editor s; calls := calls s ++ [confirm] |} in
   match confirmAnswer user title msg with
   | Cancel => promptSave user title s = (Ok false, asked)
   | DontSave => promptSave user title s = (Ok true, asked)
   | Save =>
       promptSave user title s
       = (match fst (saveNotebook user asked) with
          | Ok _ => Ok true
          | Throw e => Throw e
          end, snd (saveNotebook user asked)) /\
       (working (editor s) > 0 ->
        promptSave user title s
        = (Ok true,
           {| editor := with_effect (NotificationWarn "Already working!") (editor s)
            ; calls := calls s ++ [confirm] |})) /\
       (working (editor s) <= 0 -> unsaved nb = true ->
        saveAsAnswer user (storageId nb) = None ->
        promptSave user title s
        = (Ok true,
           {| editor := editor s
            ; calls := calls s ++ [confirm; ShowNotebookSaveAsDialog (storageId nb)] |})) /\
       (forall doc,
          working (editor s) <= 0 -> unsaved nb = false -> readOnly nb = false ->
          all_cells (heap (ed_env (editor s))) (cells nb) ->
          fst (serialize {| this := nb; env := ed_env (editor s) |}) = Ok doc ->
          match writeNotebook (notebookRepository (ed_env (editor s))) doc
                  (storageId nb) with
          | Some reason =>
              fst (promptSave user title s) = Throw (StorageFailure reason) /\
              notebook (editor (snd (promptSave user title s))) = Some nb
          | None =>
              fst (promptSave user title s) = Ok true /\
              notebook (editor (snd (promptSave user title s)))
              = Some (set_modified false nb)
          end)
   end).
Proof.
  split.
  - intros [Hnb|(nb & Hnb & Hm)]; unfold promptSave, liftApp; run; rewrite Hnb.
    + by destruct s.
    + rewrite Hm. by destruct s.
  - intros nb Hnb Hm msg confirm asked.
    assert (Hrun : promptSave user title s
                   = match confirmAnswer user title msg with
                     | Save => (saveNotebook user ;; ret true) asked
                     | Cancel => (Ok false, asked)
                     | DontSave => (Ok true, asked)
                     end).
    { unfold promptSave, liftApp, call. run. rewrite Hnb, Hm. simpl.
      fold msg. fold confirm. fold asked. by destruct (confirmAnswer user title msg). }
    rewrite Hrun. destruct (confirmAnswer user title msg); [|done|done].
    assert (Hbind : (saveNotebook user ;; ret true) asked
                    = (match fst (saveNotebook user asked) with
                       | Ok _ => Ok true
                       | Throw e => Throw e
                       end, snd (saveNotebook user asked))).
    { unfold bind, ret. by destruct (saveNotebook user asked) as [[|] ?]. }
    rewrite Hbind. split; [done|]. split; [|split].
    + intros Hw. by rewrite (saveNotebook_busy user asked Hw).
    + intros Hw Hu Hcancel.
      rewrite (saveNotebook_run user asked nb Hnb Hw), Hu. simpl.
      rewrite (saveNotebookAs_run user asked nb Hnb Hw), Hcancel. simpl.
      by rewrite <- app_assoc.
    + intros doc Hw Hu Hro Hall Hdoc.
      rewrite (saveNotebook_run user asked nb Hnb Hw), Hu, Hro. simpl.
      rewrite (onNotebook_save_run asked nb doc Hnb Hall Hu Hro Hdoc). simpl.
      by destruct (writeNotebook _ _ _).
Qed.

Lemma promptSave_outcomes_witness :
  let user := {| saveAsAnswer := fun _ => None; confirmAnswer := fun _ _ => Save |} in
  let never_saved := set_modified true (this Sample.abc) in
  let saved := set_modified true (set_readOnly false (this Sample.readOnly_file_failing)) in
  let msg name := "Do you want to save changes that you made to " +:+ name +:+ crlf
                  +:+ "If you don't save your changes will be lost." in
  promptSave user "Open notebook"
    {| editor := {| notebook := Some never_saved; working := 0; ed_env := env Sample.abc |}
     ; calls := [] |}
  = (Ok true,
     {| editor := {| notebook := Some never_saved; working := 0; ed_env := env Sample.abc |}
      ; calls := [ShowConfirmationDialog "Open notebook" (msg "untitled");
                  ShowNotebookSaveAsDialog Sample.untitled] |}) /\
  fst (promptSave user "Open notebook"
         {| editor := {| notebook := Some saved; working := 0
                       ; ed_env := env Sample.readOnly_file_failing |}
          ; calls := [] |})
  = Throw (StorageFailure "disk full").
Proof.
  pose (user := {| saveAsAnswer := fun _ : INotebookStorageId => @None INotebookStorageId
                 ; confirmAnswer := fun _ _ : string => Save |}).
  split.
  - exact (proj1 (proj2 (proj2
             (proj2 (promptSave_outcomes user
                       {| editor := {| notebook := Some (set_modified true (this Sample.abc))
                                     ; working := 0; ed_env := env Sample.abc |}
                        ; calls := [] |}
                       "Open notebook")
                (set_modified true (this Sample.abc)) eq_refl eq_refl)))
             ltac:(simpl; lia) eq_refl eq_refl).
  - exact (proj1 (proj2 (proj2 (proj2
             (proj2 (promptSave_outcomes user
                       {| editor :=
                            {| notebook :=
                                 Some (set_modified true
                                         (set_readOnly false
                                            (this Sample.readOnly_file_failing)))
                             ; working := 0
                             ; ed_env := env Sample.readOnly_file_failing |}
                        ; calls := [] |}
                       "Open notebook")
                (set_modified true
                   (set_readOnly false (this Sample.readOnly_file_failing)))
                eq_refl eq_refl)))
             (match fst (serialize Sample.readOnly_file_failing) with
              | Ok doc => doc
              | Throw _ => Sample.doc_v3
              end)
             ltac:(simpl; lia) eq_refl eq_refl
             ltac:(repeat constructor; eexists _, _; split; reflexivity)
             eq_refl)).
Defined.

(** ** The selection *)

(** X28. The two selection handlers of the notebook, called one after the
    other as a cell does when it becomes selected: the cell selected before
    is deselected, the new cell is recorded as the selection, and the
    selection-changed event is raised once; also when the cell that becomes
    selected is the one that was selected already. With no selection before,
    no cell object changes. *)
Theorem selection_moves (s : NbState) (cell : ref) :
  let nb := instanceId (this s) in
  let select := (onEditorSelectionChanging cell true ;; onEditorSelectionChanged cell) in
  (forall prev c, selectedCell (this s) = Some prev -> heap (env s) !! prev = Some c ->
     select s
     = (Ok tt,
        {| this := set_selectedCell (Some cell) (this s)
         ; env := set_trace (trace (env s) ++ [Raised nb onSelectedCellChanged])
                    (set_heap (<[prev := Cell.deselect c]> (heap (env s))) (env s)) |})) /\
  (selectedCell (this s) = None ->
   select s
   = (Ok tt,
      {| this := set_selectedCell (Some cell) (this s)
       ; env := set_trace (trace (env s) ++ [Raised nb onSelectedCellChanged]) (env s) |})).
Proof.
  cbv zeta. unfold onEditorSelectionChanging, onEditorSelectionChanged, deselect.
  split.
  - intros prev c Hsel Hc. run. rewrite Hsel.
    rewrite (invoke_ok _ _ c) by done. simpl.
    by destruct s as [[] []].
  - intros Hsel. run. rewrite Hsel. simpl. rewrite Hsel. run.
    by destruct s as [[] []].
Qed.

Lemma selection_moves_witness :
  let s := snd ((addCell 3 1 ;; cell_select 3) Sample.abc) in
  let select := (onEditorSelectionChanging 3 true ;; onEditorSelectionChanged 3) in
  selectedCell (this s) = Some 3%nat /\
  selectedCell (this (snd (select s))) = Some 3%nat /\
  trace (env (snd (select s))) = trace (env s) ++ [Raised 0%nat onSelectedCellChanged] /\
  onEditorSelectionChanged 3 s = (Ok tt, s).
Proof.
  split; [reflexivity|].
  pose proof (proj1 (selection_moves (snd ((addCell 3 1 ;; cell_select 3) Sample.abc))
                       3%nat)
                3%nat (Cell.set_selected true (hooked 0%nat (Sample.cell "D" Code)))
                eq_refl eq_refl) as H.
  split; [exact (f_equal (fun out => selectedCell (this (snd out))) H)|].
  split; [exact (f_equal (fun out => trace (env (snd out))) H)|reflexivity].
Defined.

(** The notebook after [deleteCell] without selection of a next cell. *)
Lemma deleteCell_false_this (s : NbState) (cell : ref) (c : CellViewModel) :
  all_cells (heap (env s)) (cells (this s)) ->
  heap (env s) !! cell = Some c ->
  Some (cell_id c) ∈ slot_id (heap (env s)) <$> cells (this s) ->
  this (snd (deleteCell cell false s))
  = set_modified true
      (set_cells (List.filter (fun x => negb (idIs (heap (env s)) (cell_id c) x))
                    (cells (this s))) (this s)).
Proof.
  destruct s as [nb E]. simpl. intros Hall Hc Hin.
  unfold deleteCell, getCells, deref. run. rewrite Hc.
  rewrite filterM_hasId by done. simpl.
  destruct (filter_head (idIs (heap E) (cell_id c)) (cells nb))
    as [[_ Hnone]|(x & rest & -> & Hx & Hid)].
  { apply list_elem_of_fmap in Hin as (x & Hid & Hx).
    symmetry in Hid. apply idIs_true in Hid. rewrite Hnone in Hid; done. }
  destruct (all_cells_elem _ _ _ Hall Hx) as (r0 & c0 & -> & Hc0).
  rewrite elem_cons_0. unfold unhookCellEvents.
  rewrite (invoke_ok _ _ c0) by done. simpl.
  rewrite filterM_hasNotId by (simpl; by apply all_cells_insert). simpl.
  set (c0' := Cell.map_events _ _ _ _ c0).
  assert (Hids : cell_id <$> <[r0 := c0']> (heap E) = cell_id <$> heap E)
    by (by apply (ids_insert _ _ c0)).
  rewrite (List.filter_ext _ (fun x => negb (idIs (heap E) (cell_id c) x)))
    by (intros x; unfold idIs; by rewrite (slot_id_ids _ _ x Hids)).
  match goal with |- context [notifyModified ?s1] =>
    destruct (setModified_this true s1) as (_ & H2 & _) end.
  unfold notifyModified. rewrite H2. done.
Qed.

(** X29. [getSelectedCellIndex] is [undefined] without a selection and the
    position of the selected cell otherwise. After the selected cell has
    been deleted with [selectNextCell = false] it is [-1]: the notebook
    still records as selected a cell that it does not hold any more. *)
Theorem selected_cell_index (s : NbState) (cell : ref) (c : CellViewModel) :
  (selectedCell (this s) = None -> getSelectedCellIndex s = (Ok None, s)) /\
  (forall k, selectedCell (this s) = Some cell ->
     cells (this s) !! k = Some (Some cell) ->
     (forall j, (j < k)%nat -> cells (this s) !! j <> Some (Some cell)) ->
     getSelectedCellIndex s = (Ok (Some (Z.of_nat k)), s)) /\
  (all_cells (heap (env s)) (cells (this s)) ->
   heap (env s) !! cell = Some c ->
   Some (cell_id c) ∈ slot_id (heap (env s)) <$> cells (this s) ->
   selectedCell (this s) = Some cell ->
   fst (getSelectedCellIndex (snd (deleteCell cell false s))) = Ok (Some (-1))).
Proof.
  split; [|split].
  - intros Hsel. unfold getSelectedCellIndex. run. by rewrite Hsel.
  - intros k Hsel Hk Hfirst. unfold getSelectedCellIndex. run. rewrite Hsel. simpl.
    destruct (indexOf_spec (Some cell) (cells (this s)))
      as [[Hnot _]|(k' & -> & Hk' & Hfirst')].
    { destruct Hnot. by eapply list_elem_of_lookup_2. }
    destruct (Nat.lt_trichotomy k k') as [Hlt|[->|Hlt]]; [|done|].
    + by destruct (Hfirst' k Hlt).
    + by destruct (Hfirst k' Hlt).
  - intros Hall Hc Hin Hsel. unfold getSelectedCellIndex. run.
    rewrite (deleteCell_false_this s cell c) by done. simpl. rewrite Hsel. simpl.
    rewrite (deleteCell_false_this s cell c) by done. simpl.
    destruct (indexOf_spec (Some cell)
                (List.filter (fun x => negb (idIs (heap (env s)) (cell_id c) x))
                   (cells (this s))))
      as [[_ ->]|(k' & _ & Hk' & _)]; [done|].
    apply list_elem_of_lookup_2, list_elem_of_In, List.filter_In in Hk' as [_ Hk'].
    assert (Hid : idIs (heap (env s)) (cell_id c) (Some cell) = true).
    { apply idIs_true. simpl. by rewrite Hc. }
    by rewrite Hid in Hk'.
Qed.

Lemma selected_cell_index_witness :
  let s := snd ((addCell 3 1 ;; cell_select 3) Sample.abc) in
  getSelectedCellIndex s = (Ok (Some 1), s) /\
  fst (getSelectedCellIndex (snd (deleteCell 3 false s))) = Ok (Some (-1)).
Proof.
  destruct (selected_cell_index (snd ((addCell 3 1 ;; cell_select 3) Sample.abc)) 3%nat
              (Cell.set_selected true (hooked 0%nat (Sample.cell "D" Code))))
    as (_ & H2 & H3).
  split.
  - apply (H2 1%nat); [reflexivity|reflexivity|].
    intros j Hj. assert (j = 0%nat) as -> by lia. discriminate.
  - apply H3.
    + vm_compute. repeat constructor; eexists _, _; split; reflexivity.
    + reflexivity.
    + vm_compute. right. left.
    + reflexivity.
Defined.
